(** * Temporal direct-manipulation engine of obsidian-bases-views

    A shallow embedding of the gantt / calendar geometry-time mapper, the
    drag and resize gesture handlers, the day-view overlap layout and the
    timeline window derivation, with the properties the specification
    states about them; and further parts of the same sources (timeline
    markers, the handlers of the gantt view, drag-to-create and the
    sections of the day view, the phantom of an event, badge colours and
    property ids), with properties read off the code.

    Conventions of the embedding.
    - A JavaScript [number] that the code divides or scales is an exact
      rational ([Q]); counters and indices are [nat]; integral results of
      [Math.round] / [Math.floor] are [Z].
    - A [Date] is its time value in milliseconds; the local time zone is
      taken to be UTC, without daylight-saving transitions, so one calendar
      day is always [86400000] ms and local fields are UTC fields.
    - Dividing by zero gives 0 in [Q] and an infinity or NaN in
      JavaScript: a statement that divides by a measured extent assumes
      the extent is not zero.
    - Arithmetic on [Q] is exact where a JavaScript double rounds: a
      position in pixels can differ from the one the code computes by a
      rounding error far below a pixel (for 125 minutes the code's
      [(125 / 60) * 60] is 125.00000000000001).  An equation between
      positions holds of the code up to such an error; the properties of
      the day-view layout are stated through the comparisons the code
      itself makes, for times that lie whole minutes apart, or where the
      doubles are exact (whole hours), and leave open what only the
      rounding decides.
    - [updateProperty] is the external property write sink: a handler
      returns the list of writes it issues, in issue order. *)

From Stdlib Require Import ZArith QArith Qabs Qround Qminmax Lia Lqa.
From stdpp Require Import base list gmap strings pretty sorting relations.

Set Default Proof Using "Type".

(** ** JavaScript numeric built-ins *)

Module JS.

(** [Math.floor] on an exact rational. *)
Definition Math_floor (x : Q) : Z := Qfloor x.

(** [Math.round]: nearest integer, ties towards plus infinity. *)
Definition Math_round (x : Q) : Z := Qfloor (x + (1 # 2)).

(** [Math.abs]. *)
Definition Math_abs (x : Q) : Q := Qabs x.

(** Strict and non-strict comparison of numbers as booleans. *)
Definition ltb (x y : Q) : bool :=
  match (x ?= y)%Q with Lt => true | _ => false end.

Definition leb (x y : Q) : bool :=
  match (x ?= y)%Q with Gt => false | _ => true end.

End JS.

(** ** Dates *)

(** A [Date] object, as its local time value in milliseconds. *)
Abbreviation Date := Z (only parsing).

(** The built-in accessors of [Date], after the ECMAScript day/time
    arithmetic (proleptic Gregorian calendar). *)
Module JSDate.
Local Open Scope Z_scope.

Definition msPerDay : Z := 86400000.
Definition msPerHour : Z := 3600000.
Definition msPerMinute : Z := 60000.
Definition msPerSecond : Z := 1000.

Definition getTime (d : Date) : Z := d.

(** [Day(t)] and [TimeWithinDay(t)]. *)
Definition Day (t : Date) : Z := t / msPerDay.
Definition TimeWithinDay (t : Date) : Z := t mod msPerDay.

(** Year, month (1..12) and day of month of a day number. *)
Definition civilFromDays (z0 : Z) : Z * Z * Z :=
  let z := z0 + 719468 in
  let era := z / 146097 in
  let doe := z - era * 146097 in
  let yoe := (doe - doe / 1460 + doe / 36524 - doe / 146096) / 365 in
  let y := yoe + era * 400 in
  let doy := doe - (365 * yoe + yoe / 4 - yoe / 100) in
  let mp := (5 * doy + 2) / 153 in
  let d := doy - (153 * mp + 2) / 5 + 1 in
  let m := if mp <? 10 then mp + 3 else mp - 9 in
  (if m <=? 2 then y + 1 else y, m, d).

(** Day number of the civil date [y]-[m]-[d], [m] in 1..12. *)
Definition daysFromCivil (y0 m d : Z) : Z :=
  let y := if m <=? 2 then y0 - 1 else y0 in
  let era := y / 400 in
  let yoe := y - era * 400 in
  let mp := if 2 <? m then m - 3 else m + 9 in
  let doy := (153 * mp + 2) / 5 + d - 1 in
  let doe := yoe * 365 + yoe / 4 - yoe / 100 + doy in
  era * 146097 + doe - 719468.

(** [MakeDay(year, month, date)] with a 0-based month that may overflow
    and a day of month that may be 0 or negative. *)
Definition MakeDay (year month date : Z) : Z :=
  daysFromCivil (year + month / 12) (month mod 12 + 1) 1 + date - 1.

Definition getFullYear (d : Date) : Z := fst (fst (civilFromDays (Day d))).
Definition getMonth (d : Date) : Z := snd (fst (civilFromDays (Day d))) - 1.
Definition getDate (d : Date) : Z := snd (civilFromDays (Day d)).
Definition getHours (d : Date) : Z := TimeWithinDay d / msPerHour.
Definition getMinutes (d : Date) : Z := (TimeWithinDay d / msPerMinute) mod 60.
Definition getSeconds (d : Date) : Z := (TimeWithinDay d / msPerSecond) mod 60.
Definition getMilliseconds (d : Date) : Z := TimeWithinDay d mod msPerSecond.

(** The date built from civil fields: [new Date(y, m - 1, d, h, mi)]. *)
Definition mk (y m d h mi : Z) : Date :=
  daysFromCivil y m d * msPerDay + h * msPerHour + mi * msPerMinute.

(** [String.prototype.padStart(n, "0")]. *)
Definition padStart0 (n : nat) (s : string) : string :=
  String.concat "" (replicate (n - String.length s)%nat "0"%string) +:+ s.

(** [Date.prototype.toISOString]; years outside 0..9999 use the signed
    six-digit form. *)
Definition toISOString (d : Date) : string :=
  let y := getFullYear d in
  let ys :=
    if (0 <=? y) && (y <=? 9999) then padStart0 4 (pretty y)
    else (if y <? 0 then "-" else "+") +:+ padStart0 6 (pretty (Z.abs y)) in
  ys +:+ "-" +:+ padStart0 2 (pretty (getMonth d + 1))
     +:+ "-" +:+ padStart0 2 (pretty (getDate d))
     +:+ "T" +:+ padStart0 2 (pretty (getHours d))
     +:+ ":" +:+ padStart0 2 (pretty (getMinutes d))
     +:+ ":" +:+ padStart0 2 (pretty (getSeconds d))
     +:+ "." +:+ padStart0 3 (pretty (getMilliseconds d)) +:+ "Z".

End JSDate.

(** The functions of the date-fns library the sources import, by their
    documented behaviour. *)
Module DateFns.
Import JSDate.
Local Open Scope Z_scope.

Definition addDays (date : Date) (amount : Z) : Date :=
  date + amount * msPerDay.

(** Number of full days between two dates, truncated towards zero. *)
Definition differenceInDays (laterDate earlierDate : Date) : Z :=
  Z.quot (laterDate - earlierDate) msPerDay.

(** Number of full minutes between two dates, truncated towards zero. *)
Definition differenceInMinutes (laterDate earlierDate : Date) : Z :=
  Z.quot (laterDate - earlierDate) msPerMinute.

Definition isSameDay (a b : Date) : bool := Day a =? Day b.

(** [setDate(1); setHours(0, 0, 0, 0)]. *)
Definition startOfMonth (date : Date) : Date :=
  MakeDay (getFullYear date) (getMonth date) 1 * msPerDay.

(** [setFullYear(year, month + 1, 0); setHours(23, 59, 59, 999)]. *)
Definition endOfMonth (date : Date) : Date :=
  MakeDay (getFullYear date) (getMonth date + 1) 0 * msPerDay
  + (23 * msPerHour + 59 * msPerMinute + 59 * msPerSecond + 999).

Definition getHours := JSDate.getHours.
Definition getMinutes := JSDate.getMinutes.

End DateFns.

(** calendar/utils/dateUtils.ts *)
Module DateUtils.
Import JSDate.
Local Open Scope Z_scope.

(** [formatDateString]: the date as a [YYYY-MM-DD] string in local time. *)
Definition formatDateString (date : Date) : string :=
  let year := getFullYear date in
  let month := padStart0 2 (pretty (getMonth date + 1)) in
  let day := padStart0 2 (pretty (getDate date)) in
  pretty year +:+ "-" +:+ month +:+ "-" +:+ day.

End DateUtils.

(** ** Data model *)

(** Modelled from the spec: the handle of an entry's backing file
    ([TFile] of the host application), identified by its path. *)
Definition TFile : Type := string.

(** Modelled from the spec: one call [updateProperty(file, propertyName,
    value)] of the external property write sink ([usePropertyUpdate] is
    not part of the sources).  The call is fire-and-forget; a handler is
    modelled by the list of calls it issues, in order. *)
Record PropertyWrite : Type := mkWrite {
  w_file : TFile;
  w_property : string;
  w_value : string
}.

Global Instance PropertyWrite_eq_dec : EqDecision PropertyWrite.
Proof. solve_decision. Defined.

(** The persisted properties, as far as the gestures touch them: a finite
    map from file and property name to the last value written. *)
Definition applyWrite (store : gmap (TFile * string) string) (w : PropertyWrite)
  : gmap (TFile * string) string :=
  <[(w_file w, w_property w) := w_value w]> store.

Definition applyWrites (store : gmap (TFile * string) string)
  (ws : list PropertyWrite) : gmap (TFile * string) string :=
  foldl applyWrite store ws.

(** ** Gantt view *)

Module Gantt.

(** Modelled from the spec: [Task] and [TaskGroup] of types/view-config,
    with the fields the gantt sources read. *)
Record Task : Type := mkTask {
  id : string;
  title : string;
  startDate : Date;
  endDate : Date;
  file : TFile;
  startDateProperty : string;
  endDateProperty : string;
  group : option string;
  row : Z
}.

Record TaskGroup : Type := mkTaskGroup {
  name : string;
  startRow : Z;
  rowCount : Z;
  isCollapsed : bool;
  tasks : list Task
}.

End Gantt.

(** *** gantt/utils/dateCalculations.ts *)

Module DateCalculations.
Import JSDate DateFns Gantt.

(** [Math.min(...xs)] and [Math.max(...xs)]; [None] stands for the
    infinity that JavaScript returns for an empty argument list. *)
Definition Math_min (xs : list Z) : option Z :=
  foldr (fun x acc => Some (match acc with Some y => Z.min x y | None => x end))
        None xs.

Definition Math_max (xs : list Z) : option Z :=
  foldr (fun x acc => Some (match acc with Some y => Z.max x y | None => x end))
        None xs.

(** [calculateTimelineRange]; [now] is the value of [new Date()].  The
    result is [None] when [new Date(...)] would be an Invalid Date. *)
Definition calculateTimelineRange (now : Date) (tasks : list Task)
  : option (Date * Date) :=
  if (length tasks =? 0)%nat then
    Some (startOfMonth now, endOfMonth now)
  else
    let allDates := flat_map (fun t => [startDate t; endDate t]) tasks in
    match Math_min (map getTime allDates), Math_max (map getTime allDates) with
    | Some minDate, Some maxDate => Some (startOfMonth minDate, endOfMonth maxDate)
    | _, _ => None
    end.

Record Position : Type := mkPosition { left : Q; width : Q }.

(** [calculateTaskPosition]: percentages for CSS positioning. *)
Definition calculateTaskPosition
  (taskStart taskEnd timelineStart timelineEnd : Date) : Position :=
  let timelineSpan := (differenceInDays timelineEnd timelineStart + 1)%Z in
  let taskStartOffset := differenceInDays taskStart timelineStart in
  let taskSpan := (differenceInDays taskEnd taskStart + 1)%Z in
  {| left := (inject_Z taskStartOffset / inject_Z timelineSpan) * 100;
     width := (inject_Z taskSpan / inject_Z timelineSpan) * 100 |}.

(** [calculateDateFromDelta]. *)
Definition calculateDateFromDelta
  (originalDate : Date) (pixelDelta pixelsPerDay : Q) : Date :=
  let daysDelta := JS.Math_round (pixelDelta / pixelsPerDay) in
  addDays originalDate daysDelta.

End DateCalculations.

(** *** gantt/hooks/useTaskResize.ts *)

Inductive Handle : Type := HStart | HEnd.

Global Instance Handle_eq_dec : EqDecision Handle.
Proof. solve_decision. Defined.

(** [chartRef.current?.getBoundingClientRect().width || 1000]: the measured
    width, or the nominal extent when the chart is unmeasured or empty. *)
Definition widthOr1000 (measured : option Q) : Q :=
  match measured with
  | Some w => if Qeq_bool w 0 then 1000 else w
  | None => 1000
  end.

Module UseTaskResize.
Import JSDate DateFns Gantt DateCalculations.

(** The mutable parts of the hook: React state and refs. *)
Record Hook : Type := mkHook {
  isResizing : bool;
  resizeTypeRef : option Handle;
  hadMovementRef : bool
}.

(** What the listeners of one gesture capture at resize start. *)
Record Session : Type := mkSession {
  handle : Handle;
  startX : Q;
  originalDate : Date;
  pixelsPerDay : Q
}.

Definition getPixelsPerDay (timelineStart timelineEnd : Date)
  (chartWidth : option Q) : Q :=
  let totalDays := (differenceInDays timelineEnd timelineStart + 1)%Z in
  widthOr1000 chartWidth / inject_Z totalDays.

Definition consumeHadMovement (h : Hook) : bool * Hook :=
  (hadMovementRef h,
   {| isResizing := isResizing h; resizeTypeRef := resizeTypeRef h;
      hadMovementRef := false |}).

Definition handleResizeStart (task : Task) (timelineStart timelineEnd : Date)
  (chartWidth : option Q) (clientX : Q) (hd : Handle) (h : Hook)
  : Hook * Session :=
  ({| isResizing := true; resizeTypeRef := Some hd; hadMovementRef := false |},
   {| handle := hd;
      startX := clientX;
      originalDate := match hd with HStart => startDate task | HEnd => endDate task end;
      pixelsPerDay := getPixelsPerDay timelineStart timelineEnd chartWidth |}).

(** The date a move proposes for the dragged handle. *)
Definition candidate (s : Session) (clientX : Q) : Date :=
  calculateDateFromDelta (originalDate s) (clientX - startX s) (pixelsPerDay s).

(** [handleMouseMove]: the hook afterwards and the writes issued. *)
Definition handleMouseMove (task : Task) (s : Session) (clientX : Q) (h : Hook)
  : Hook * list PropertyWrite :=
  let deltaX := (clientX - startX s)%Q in
  let h' :=
    if JS.ltb 3 (JS.Math_abs deltaX)
    then {| isResizing := isResizing h; resizeTypeRef := resizeTypeRef h;
            hadMovementRef := true |}
    else h in
  let newDate := calculateDateFromDelta (originalDate s) deltaX (pixelsPerDay s) in
  let propertyName :=
    match handle s with
    | HStart => startDateProperty task
    | HEnd => endDateProperty task
    end in
  if negb (getTime newDate =? getTime (originalDate s))%Z then
    if bool_decide (handle s = HStart) && (endDate task <=? newDate)%Z then (h', [])
    else if bool_decide (handle s = HEnd) && (newDate <=? startDate task)%Z then (h', [])
    else (h', [mkWrite (file task) propertyName (toISOString newDate)])
  else (h', []).

Definition handleMouseUp (h : Hook) : Hook :=
  {| isResizing := false; resizeTypeRef := None;
     hadMovementRef := hadMovementRef h |}.

(** The moves of one gesture, in order: the hook afterwards and every
    write issued. *)
Definition moves (task : Task) (s : Session) (xs : list Q) (h : Hook)
  : Hook * list PropertyWrite :=
  foldl (fun acc x =>
           let '(h1, ws) := acc in
           let '(h2, ws') := handleMouseMove task s x h1 in
           (h2, ws ++ ws'))
        (h, []) xs.

End UseTaskResize.

(** *** gantt/hooks/useTaskDrag.ts *)

Module UseTaskDrag.
Import JSDate DateFns Gantt DateCalculations.

Definition ROW_HEIGHT : Q := 40.

(** [findGroupAtPosition]: the name of the first group whose rows contain
    the row under [y], or [None] (the source's [null]). *)
Definition findGroupAtPosition (y : Q) (groups : list TaskGroup) (rowHeight : Q)
  : option string :=
  let row := JS.Math_floor (y / rowHeight) in
  let fix loop (gs : list TaskGroup) : option string :=
    match gs with
    | [] => None
    | group :: rest =>
        let groupEndRow := (startRow group + rowCount group)%Z in
        if (startRow group <=? row)%Z && (row <? groupEndRow)%Z
        then Some (name group)
        else loop rest
    end in
  loop groups.

Record Hook : Type := mkHook {
  isDragging : bool;
  dragStartRef : option (Q * Q);
  hadMovementRef : bool
}.

(** What the listeners of one gesture capture at drag start. *)
Record Session : Type := mkSession {
  originalStartDate : Date;
  originalEndDate : Date;
  originalGroup : option string;
  pixelsPerDay : Q
}.

Definition getPixelsPerDay (timelineStart timelineEnd : Date)
  (chartWidth : option Q) : Q :=
  let totalDays := (differenceInDays timelineEnd timelineStart + 1)%Z in
  widthOr1000 chartWidth / inject_Z totalDays.

Definition consumeHadMovement (h : Hook) : bool * Hook :=
  (hadMovementRef h,
   {| isDragging := isDragging h; dragStartRef := dragStartRef h;
      hadMovementRef := false |}).

(** [handleDragStart]: only the primary button starts a gesture. *)
Definition handleDragStart (task : Task) (timelineStart timelineEnd : Date)
  (chartWidth : option Q) (button : Z) (clientX clientY : Q) (h : Hook)
  : Hook * option Session :=
  if negb (button =? 0)%Z then (h, None)
  else
    ({| isDragging := true; dragStartRef := Some (clientX, clientY);
        hadMovementRef := false |},
     Some {| originalStartDate := startDate task;
             originalEndDate := endDate task;
             originalGroup := group task;
             pixelsPerDay := getPixelsPerDay timelineStart timelineEnd chartWidth |}).

(** [handleMouseMove]: live write of both date properties. *)
Definition handleMouseMove (task : Task) (s : Session) (clientX clientY : Q)
  (h : Hook) : Hook * list PropertyWrite :=
  match dragStartRef h with
  | None => (h, [])
  | Some (x0, y0) =>
      let deltaX := (clientX - x0)%Q in
      let deltaY := (clientY - y0)%Q in
      let h' :=
        if JS.ltb 3 (JS.Math_abs deltaX) || JS.ltb 3 (JS.Math_abs deltaY)
        then {| isDragging := isDragging h; dragStartRef := dragStartRef h;
                hadMovementRef := true |}
        else h in
      let newStartDate := calculateDateFromDelta (originalStartDate s) deltaX (pixelsPerDay s) in
      let newEndDate := calculateDateFromDelta (originalEndDate s) deltaX (pixelsPerDay s) in
      (h', [mkWrite (file task) (startDateProperty task) (toISOString newStartDate);
            mkWrite (file task) (endDateProperty task) (toISOString newEndDate)])
  end.

(** A string is truthy when it is not empty; [null] is falsy. *)
Definition truthy (s : string) : bool := negb (String.eqb s "").

(** [handleMouseUp]; [chartTop] is [chartRef.current]'s bounding top, when
    the chart is mounted. *)
Definition handleMouseUp (task : Task) (s : Session) (groups : list TaskGroup)
  (groupByProperty : string) (chartTop : option Q) (clientY : Q) (h : Hook)
  : Hook * list PropertyWrite :=
  let h' := {| isDragging := false; dragStartRef := None;
               hadMovementRef := hadMovementRef h |} in
  match chartTop with
  | Some top =>
      if negb (length groups =? 0)%nat && truthy groupByProperty then
        let relativeY := (clientY - top)%Q in
        match findGroupAtPosition relativeY groups ROW_HEIGHT with
        | Some newGroup =>
            if truthy newGroup && negb (bool_decide (Some newGroup = originalGroup s))
            then
              let groupValue :=
                if String.eqb newGroup "No Group" then ""%string else newGroup in
              (h', [mkWrite (file task) groupByProperty groupValue])
            else (h', [])
        | None => (h', [])
        end
      else (h', [])
  | None => (h', [])
  end.

End UseTaskDrag.

(** ** Calendar view *)

Module Calendar.

(** Modelled from the spec: [CalendarEvent] of types/view-config, with
    the fields the calendar sources read; an absent [endDate] is [None]. *)
Record CalendarEvent : Type := mkEvent {
  id : string;
  title : string;
  date : Date;
  endDate : option Date;
  file : TFile
}.

(** [event.endDate || event.date]: a [Date] object is always truthy. *)
Definition endOrStart (event : CalendarEvent) : Date :=
  match endDate event with Some e => e | None => date event end.

(** [getDayWidth]: a seventh of the container, 100 when it is unmounted. *)
Definition getDayWidth (containerWidth : option Q) : Q :=
  match containerWidth with
  | None => 100
  | Some w => w / 7
  end.

End Calendar.

(** *** calendar/hooks/useEventResize.ts, [useEventResize] *)

Module UseEventResize.
Import JSDate DateFns DateUtils Calendar.

Record Hook : Type := mkHook {
  isResizing : bool;
  previewDelta : option (Handle * Z);
  resizeTypeRef : option Handle;
  hadMovementRef : bool
}.

(** The variables the listeners of one gesture close over;
    [currentDeltaDays] is the one they assign. *)
Record Session : Type := mkSession {
  handle : Handle;
  startX : Q;
  originalStartDate : Date;
  originalEndDate : Date;
  dayWidth : Q;
  currentDeltaDays : Z
}.

Definition consumeHadMovement (h : Hook) : bool * Hook :=
  (hadMovementRef h,
   {| isResizing := isResizing h; previewDelta := previewDelta h;
      resizeTypeRef := resizeTypeRef h; hadMovementRef := false |}).

Definition handleResizeStart (event : CalendarEvent) (containerWidth : option Q)
  (clientX : Q) (hd : Handle) (h : Hook) : Hook * Session :=
  ({| isResizing := true; previewDelta := previewDelta h;
      resizeTypeRef := Some hd; hadMovementRef := false |},
   {| handle := hd;
      startX := clientX;
      originalStartDate := date event;
      originalEndDate := endOrStart event;
      dayWidth := getDayWidth containerWidth;
      currentDeltaDays := 0 |}).

(** [handleMouseMove]: only the preview changes, nothing is written. *)
Definition handleMouseMove (s : Session) (clientX : Q) (h : Hook)
  : Hook * Session :=
  let deltaX := (clientX - startX s)%Q in
  let days := JS.Math_round (deltaX / dayWidth s) in
  let moved := if JS.ltb 5 (JS.Math_abs deltaX) then true else hadMovementRef h in
  ({| isResizing := isResizing h; previewDelta := Some (handle s, days);
      resizeTypeRef := resizeTypeRef h; hadMovementRef := moved |},
   {| handle := handle s; startX := startX s;
      originalStartDate := originalStartDate s;
      originalEndDate := originalEndDate s;
      dayWidth := dayWidth s; currentDeltaDays := days |}).

(** [handleMouseUp]: the writes of the commit. *)
Definition handleMouseUp (event : CalendarEvent)
  (dateProperty endDateProperty : string) (s : Session) : list PropertyWrite :=
  if negb (currentDeltaDays s =? 0)%Z then
    match handle s with
    | HStart =>
        let newStartDate := addDays (originalStartDate s) (currentDeltaDays s) in
        if (newStartDate <=? originalEndDate s)%Z
        then [mkWrite (file event) dateProperty (formatDateString newStartDate)]
        else []
    | HEnd =>
        let newEndDate := addDays (originalEndDate s) (currentDeltaDays s) in
        if (originalStartDate s <=? newEndDate)%Z
        then [mkWrite (file event) endDateProperty (formatDateString newEndDate)]
        else []
    end
  else [].

(** The callback of the 150 ms timer armed by [handleMouseUp]. *)
Definition resetAfterTimeout (h : Hook) : Hook :=
  {| isResizing := false; previewDelta := None; resizeTypeRef := None;
     hadMovementRef := hadMovementRef h |}.

(** The moves of one gesture, in order. *)
Definition moves (s : Session) (xs : list Q) (h : Hook) : Hook * Session :=
  foldl (fun acc x => handleMouseMove (snd acc) x (fst acc)) (h, s) xs.

End UseEventResize.

(** *** calendar/hooks/useEventResize.ts, [useMultiDayEventDrag] *)

Module UseMultiDayEventDrag.
Import JSDate DateFns DateUtils Calendar.

Record DragStart : Type := mkDragStart {
  x : Q;
  startDate : Date;
  endDate : Date
}.

Record Hook : Type := mkHook {
  isDragging : bool;
  previewDelta : Z;
  dragStartRef : option DragStart;
  hadMovementRef : bool
}.

(** The variables the listeners of one gesture close over. *)
Record Session : Type := mkSession {
  dayWidth : Q;
  currentDeltaDays : Z
}.

Definition consumeHadMovement (h : Hook) : bool * Hook :=
  (hadMovementRef h,
   {| isDragging := isDragging h; previewDelta := previewDelta h;
      dragStartRef := dragStartRef h; hadMovementRef := false |}).

Definition handleDragStart (event : CalendarEvent) (containerWidth : option Q)
  (button : Z) (clientX : Q) (h : Hook) : Hook * option Session :=
  if negb (button =? 0)%Z then (h, None)
  else
    ({| isDragging := true; previewDelta := previewDelta h;
        dragStartRef := Some {| x := clientX; startDate := date event;
                                endDate := endOrStart event |};
        hadMovementRef := false |},
     Some {| dayWidth := getDayWidth containerWidth; currentDeltaDays := 0 |}).

Definition handleMouseMove (s : Session) (clientX : Q) (h : Hook)
  : Hook * Session :=
  match dragStartRef h with
  | None => (h, s)
  | Some ds =>
      let deltaX := (clientX - x ds)%Q in
      let days := JS.Math_round (deltaX / dayWidth s) in
      let moved := if JS.ltb 5 (JS.Math_abs deltaX) then true else hadMovementRef h in
      ({| isDragging := isDragging h; previewDelta := days;
          dragStartRef := dragStartRef h; hadMovementRef := moved |},
       {| dayWidth := dayWidth s; currentDeltaDays := days |})
  end.

(** [handleMouseUp]: the hook afterwards and the writes of the commit. *)
Definition handleMouseUp (event : CalendarEvent)
  (dateProperty endDateProperty : string) (s : Session) (h : Hook)
  : Hook * list PropertyWrite :=
  let h' := {| isDragging := false; previewDelta := 0; dragStartRef := None;
               hadMovementRef := hadMovementRef h |} in
  match dragStartRef h with
  | Some ds =>
      if negb (currentDeltaDays s =? 0)%Z then
        let newStartDate := addDays (startDate ds) (currentDeltaDays s) in
        let newEndDate := addDays (endDate ds) (currentDeltaDays s) in
        (h', [mkWrite (file event) dateProperty (formatDateString newStartDate);
              mkWrite (file event) endDateProperty (formatDateString newEndDate)])
      else (h', [])
  | None => (h', [])
  end.

Definition moves (s : Session) (xs : list Q) (h : Hook) : Hook * Session :=
  foldl (fun acc x => handleMouseMove (snd acc) x (fst acc)) (h, s) xs.

(** One whole gesture: pointer-down at [x0], the moves [xs], pointer-up.
    The result is the writes issued, all of them at pointer-up. *)
Definition gesture (event : CalendarEvent) (dateProperty endDateProperty : string)
  (containerWidth : option Q) (x0 : Q) (xs : list Q) (h : Hook)
  : list PropertyWrite :=
  match handleDragStart event containerWidth 0 x0 h with
  | (h1, Some s) =>
      let '(h2, s2) := moves s xs h1 in
      snd (handleMouseUp event dateProperty endDateProperty s2 h2)
  | (_, None) => []
  end.

End UseMultiDayEventDrag.

(** *** calendar/hooks/useEventDrag.ts *)

Module UseEventDrag.
Import JSDate DateFns DateUtils Calendar.

(** [handleDragEnd]; [activeId] is the dragged item's id and [over] the id
    of the droppable under the pointer, a [YYYY-MM-DD] string. *)
Definition handleDragEnd (events : list CalendarEvent) (dateProperty : string)
  (activeId : string) (over : option string) : list PropertyWrite :=
  match over with
  | None => []
  | Some newDateString =>
      match find (fun e => String.eqb (id e) activeId) events with
      | None => []
      | Some calendarEvent =>
          let oldDateString := formatDateString (date calendarEvent) in
          if negb (String.eqb oldDateString newDateString)
          then [mkWrite (file calendarEvent) dateProperty newDateString]
          else []
      end
  end.

End UseEventDrag.

(** *** calendar/components/DayView.tsx *)

Module DayView.
Import JSDate DateFns Calendar.

(** Hour height in pixels. *)
Definition HOUR_HEIGHT : Q := 60.

(** [isAllDayEvent]. *)
Definition isAllDayEvent (event : CalendarEvent) : bool :=
  let startHours := getHours (date event) in
  let startMinutes := getMinutes (date event) in
  if negb (startHours =? 0)%Z || negb (startMinutes =? 0)%Z then false
  else
    match endDate event with
    | Some e =>
        let endHours := getHours e in
        let endMinutes := getMinutes e in
        if (endHours =? 0)%Z && (endMinutes =? 0)%Z then true
        else if (endHours =? 23)%Z && (endMinutes =? 59)%Z then true
        else false
    | None => true
    end.

(** An event with its layout in the hourly grid. *)
Record EventWithLayout : Type := mkLayout {
  event : CalendarEvent;
  top : Q;
  height : Q;
  column : nat;
  totalColumns : nat
}.

(** The assignment [e.totalColumns = n]. *)
Definition setTotalColumns (n : nat) (e : EventWithLayout) : EventWithLayout :=
  {| event := event e; top := top e; height := height e;
     column := column e; totalColumns := n |}.

(** [eventsOverlap]: do two time ranges overlap. *)
Definition eventsOverlap (start1 end1 start2 end2 : Q) : bool :=
  JS.ltb start1 end2 && JS.ltb start2 end1.

(** [getEventPosition]: top and height in the hourly grid, in exact
    arithmetic (the code rounds [(minutes / 60) * HOUR_HEIGHT] to a
    double). *)
Definition getEventPosition (event : CalendarEvent) (currentDate : Date) : Q * Q :=
  let startHour := getHours (date event) in
  let startMinutes := getMinutes (date event) in
  let top := (inject_Z startHour * HOUR_HEIGHT
              + (inject_Z startMinutes / 60) * HOUR_HEIGHT)%Q in
  match endDate event with
  | Some e =>
      if negb (isSameDay (date event) e) then
        if isSameDay (date event) currentDate then (top, (24 * HOUR_HEIGHT - top)%Q)
        else if isSameDay e currentDate then
          let endHour := getHours e in
          let endMinutes := getMinutes e in
          (0%Q, (inject_Z endHour * HOUR_HEIGHT
                 + (inject_Z endMinutes / 60) * HOUR_HEIGHT)%Q)
        else (0%Q, (24 * HOUR_HEIGHT)%Q)
      else
        let durationMinutes := differenceInMinutes e (date event) in
        (top, Qmax ((inject_Z durationMinutes / 60) * HOUR_HEIGHT) 20)
  | None => (top, HOUR_HEIGHT)
  end.

(** An element of [eventsWithPos]. *)
Record EventWithPos : Type := mkPos {
  p_event : CalendarEvent;
  p_top : Q;
  p_height : Q
}.

(** [eventsWithPos.sort((a, b) => a.top - b.top)].  The sort of an array
    is stable, so the result is the one of a stable insertion sort. *)
Fixpoint insertByTop (a : EventWithPos) (l : list EventWithPos) : list EventWithPos :=
  match l with
  | [] => [a]
  | b :: rest =>
      if JS.leb (p_top a) (p_top b) then a :: b :: rest
      else b :: insertByTop a rest
  end.

Definition sortByTop (l : list EventWithPos) : list EventWithPos :=
  foldr insertByTop [] l.

(** An element of [activeEvents]. *)
Record ActiveEvent : Type := mkActive {
  endPos : Q;
  a_column : nat;
  index : nat
}.

(** [let column = 0; while (occupiedColumns.has(column)) column++], with
    a bound on the number of iterations. *)
Fixpoint firstAvailable (fuel : nat) (occupiedColumns : gset nat) (column : nat)
  : option nat :=
  match fuel with
  | O => None
  | S fuel' =>
      if bool_decide (column ∈ occupiedColumns)
      then firstAvailable fuel' occupiedColumns (S column)
      else Some column
  end.

(** The body of the first loop, for the element [i] of the sorted array. *)
Definition firstPassStep (st : list ActiveEvent * list EventWithLayout)
  (i : nat) (e : EventWithPos) : option (list ActiveEvent * list EventWithLayout) :=
  let '(activeEvents, result) := st in
  let endPos_ := (p_top e + p_height e)%Q in
  let stillActive := List.filter (fun ae => JS.ltb (p_top e) (endPos ae)) activeEvents in
  let occupiedColumns : gset nat := list_to_set (map a_column stillActive) in
  column_ ← firstAvailable (S (size occupiedColumns)) occupiedColumns 0;
  Some (stillActive ++ [mkActive endPos_ column_ i],
        result ++ [mkLayout (p_event e) (p_top e) (p_height e) column_ 1]).

Fixpoint firstPass (i : nat) (l : list EventWithPos)
  (st : list ActiveEvent * list EventWithLayout)
  : option (list ActiveEvent * list EventWithLayout) :=
  match l with
  | [] => Some st
  | e :: rest => st' ← firstPassStep st i e; firstPass (S i) rest st'
  end.

(** Second pass, inner loop: the largest column among [current] and the
    elements that overlap it. *)
Definition maxColumnOf (result : list EventWithLayout) (i : nat)
  (current : EventWithLayout) : nat :=
  let currentEnd := (top current + height current)%Q in
  foldl (fun maxColumn j =>
           if (i =? j)%nat then maxColumn
           else match result !! j with
                | Some other =>
                    let otherEnd := (top other + height other)%Q in
                    if eventsOverlap (top current) currentEnd (top other) otherEnd
                    then Nat.max maxColumn (column other)
                    else maxColumn
                | None => maxColumn
                end)
        (column current) (seq 0 (length result)).

Definition secondPassStep (result : list EventWithLayout) (i : nat)
  : list EventWithLayout :=
  match result !! i with
  | Some current =>
      <[i := setTotalColumns (maxColumnOf result i current + 1) current]> result
  | None => result
  end.

Definition secondPass (result : list EventWithLayout) : list EventWithLayout :=
  foldl secondPassStep result (seq 0 (length result)).

(** Third pass, the body of the inner loop for the pair [(i, j)]. *)
Definition thirdPassStep (st : list EventWithLayout * bool) (ij : nat * nat)
  : list EventWithLayout * bool :=
  let '(result, changed) := st in
  let '(i, j) := ij in
  if (i =? j)%nat then st
  else
    match result !! i, result !! j with
    | Some current, Some other =>
        let currentEnd := (top current + height current)%Q in
        let otherEnd := (top other + height other)%Q in
        if eventsOverlap (top current) currentEnd (top other) otherEnd then
          let maxCols := Nat.max (totalColumns current) (totalColumns other) in
          if negb (totalColumns current =? maxCols)%nat
             || negb (totalColumns other =? maxCols)%nat
          then (<[j := setTotalColumns maxCols other]>
                  (<[i := setTotalColumns maxCols current]> result), true)
          else st
        else st
    | _, _ => st
    end.

(** One execution of the body of [while (changed)]: [changed = false],
    then the two nested loops over the indices. *)
Definition thirdPassSweep (result : list EventWithLayout)
  : list EventWithLayout * bool :=
  foldl (fun st i =>
           foldl (fun st' j => thirdPassStep st' (i, j)) st
                 (seq 0 (length result)))
        (result, false) (seq 0 (length result)).

(** [while (changed)], with a bound on the number of iterations. *)
Fixpoint thirdPass (fuel : nat) (result : list EventWithLayout)
  : option (list EventWithLayout) :=
  match fuel with
  | O => None
  | S fuel' =>
      let '(result', changed) := thirdPassSweep result in
      if changed then thirdPass fuel' result' else Some result'
  end.

(** The number of iterations granted to the third pass: every changing
    iteration raises the sum of the [totalColumns], which never exceeds
    the number of elements times the largest value present. *)
Definition thirdPassFuel (result : list EventWithLayout) : nat :=
  S (length result * max_list (map totalColumns result)).

(** [calculateEventLayout]; [None] only if a loop bound were exceeded. *)
Definition calculateEventLayout (events : list CalendarEvent) (currentDate : Date)
  : option (list EventWithLayout) :=
  if (length events =? 0)%nat then Some []
  else
    let eventsWithPos :=
      map (fun ev => let '(t, h) := getEventPosition ev currentDate in
                     mkPos ev t h) events in
    let sorted := sortByTop eventsWithPos in
    '(_, result) ← firstPass 0 sorted ([], []);
    let result2 := secondPass result in
    thirdPass (thirdPassFuel result2) result2.

(** [TimedEvent]: the horizontal slice of an element, in percent. *)
Definition widthPercent (totalColumns : nat) : Q :=
  100 / inject_Z (Z.of_nat totalColumns).

Definition leftPercent (column totalColumns : nat) : Q :=
  inject_Z (Z.of_nat column) * widthPercent totalColumns.

End DayView.

(** ** Further parts of the sources *)

(** More of date-fns, by its documented behaviour. *)
Module DateFnsMore.
Import JSDate.
Local Open Scope Z_scope.

(** [setHours(0, 0, 0, 0)]. *)
Definition startOfDay (date : Date) : Date := Day date * msPerDay.

(** [setHours(date, hours)]: [Date.prototype.setHours] with one argument
    keeps the minutes, seconds and milliseconds; an hour outside 0..23
    carries into the day. *)
Definition setHours (date : Date) (hours : Z) : Date :=
  Day date * msPerDay + hours * msPerHour + TimeWithinDay date mod msPerHour.

(** [setMinutes(date, minutes)]: keeps the hour, the seconds and the
    milliseconds. *)
Definition setMinutes (date : Date) (minutes : Z) : Date :=
  Day date * msPerDay + getHours date * msPerHour + minutes * msPerMinute
  + TimeWithinDay date mod msPerMinute.

(** The loop of [eachDayOfInterval]:
    [while (+date <= endTime) { dates.push(date); date = next day }],
    with a bound on the number of iterations. *)
Fixpoint eachDayLoop (fuel : nat) (date endTime : Date) : list Date :=
  match fuel with
  | O => []
  | S fuel' =>
      if date <=? endTime
      then date :: eachDayLoop fuel' (date + msPerDay) endTime
      else []
  end.

(** [eachDayOfInterval({start, end})] for an interval that does not end
    before it starts; otherwise the library raises an error or lists the
    days backwards, depending on its version: [None]. *)
Definition eachDayOfInterval (start end_ : Date) : option (list Date) :=
  if end_ <? start then None
  else Some (eachDayLoop (Z.to_nat (Day end_ - Day start + 1)) (startOfDay start) end_).

(** [format(date, 'd')]: the day of the month, without padding. *)
Definition formatDayOfMonth (date : Date) : string := pretty (getDate date).

End DateFnsMore.

(** *** gantt/utils/dateCalculations.ts, [generateTimelineMarkers] *)

Module TimelineMarkers.
Import JSDate DateFns DateFnsMore.

Record Marker : Type := mkMarker {
  m_date : Date;
  label : string;
  isMonthStart : bool
}.

Definition generateTimelineMarkers (timelineStart timelineEnd : Date)
  : option (list Marker) :=
  days ← eachDayOfInterval timelineStart timelineEnd;
  Some (map (fun date => {| m_date := date;
                            label := formatDayOfMonth date;
                            isMonthStart := (getDate date =? 1)%Z |}) days).

End TimelineMarkers.

(** *** gantt/GanttView.tsx *)

Module GanttView.
Import JSDate DateFns Gantt.

(** [handleRenameGroup]: the writes issued, in order. *)
Definition handleRenameGroup (groups : list TaskGroup) (groupByProperty : string)
  (oldName newName : string) : list PropertyWrite :=
  if String.eqb groupByProperty "" then []
  else
    match find (fun g => String.eqb (name g) oldName) groups with
    | None => []
    | Some group =>
        map (fun task => mkWrite (file task) groupByProperty newName) (tasks group)
    end.

(** [handleChartDoubleClick]: the start and default end date handed to the
    new-task dialog, if it opens.  [chart] is the bounding rectangle of the
    chart (left edge and width) when it is mounted, [onBar] whether the
    target lies in a task bar or group header. *)
Definition handleChartDoubleClick (timelineStart timelineEnd : Date)
  (chart : option (Q * Q)) (onBar : bool) (clientX : Q) : option (Date * Date) :=
  match chart with
  | None => None
  | Some (chartLeft, chartWidth) =>
      if onBar then None
      else
        let relativeX := (clientX - chartLeft)%Q in
        let totalDays := differenceInDays timelineEnd timelineStart in
        let clickedDayOffset :=
          JS.Math_floor ((relativeX / chartWidth) * inject_Z totalDays) in
        let clickedDate := addDays timelineStart clickedDayOffset in
        let defaultEndDate := addDays clickedDate 7 in
        Some (clickedDate, defaultEndDate)
  end.

(** [Math.max(...xs, 0)]. *)
Definition maxWith0 (xs : list Z) : Z := foldr Z.max 0%Z xs.

(** [maxRow] and [chartHeight]. *)
Definition maxRow (groups : list TaskGroup) (tasks : list Task) : Z :=
  if negb (length groups =? 0)%nat
  then maxWith0 (map (fun g => (startRow g + rowCount g - 1)%Z) groups)
  else if negb (length tasks =? 0)%nat
       then maxWith0 (map (fun t => row t) tasks)
       else 0%Z.

Definition chartHeight (groups : list TaskGroup) (tasks : list Task) : Z :=
  ((maxRow groups tasks + 1) * 40)%Z.

End GanttView.

(** *** gantt/hooks/useTaskDrag.ts: the moves of one gesture *)

Module UseTaskDragGesture.
Import Gantt UseTaskDrag.

(** The moves of one gesture, in order: the hook afterwards and every
    write issued. *)
Definition moves (task : Task) (s : Session) (ps : list (Q * Q)) (h : Hook)
  : Hook * list PropertyWrite :=
  foldl (fun acc p =>
           let '(h1, ws) := acc in
           let '(h2, ws') := handleMouseMove task s (fst p) (snd p) h1 in
           (h2, ws ++ ws'))
        (h, []) ps.

End UseTaskDragGesture.

(** *** calendar/hooks/useEventResize.ts: one whole resize *)

Module UseEventResizeGesture.
Import Calendar UseEventResize.

(** One whole gesture: pointer-down on the handle [hd] at [x0], the moves
    [xs], pointer-up.  The result is the writes issued, all of them at
    pointer-up. *)
Definition gesture (event : CalendarEvent) (dateProperty endDateProperty : string)
  (containerWidth : option Q) (x0 : Q) (hd : Handle) (xs : list Q) (h : Hook)
  : list PropertyWrite :=
  let '(h1, s) := handleResizeStart event containerWidth x0 hd h in
  handleMouseUp event dateProperty endDateProperty (snd (moves s xs h1)).

End UseEventResizeGesture.

(** *** calendar/components: [Event] and [MultiDayEvent] *)

Module CalendarEventParts.

(** [handleClick] of an event: both movement flags are consumed, and the
    note is opened only if neither gesture moved. *)
Definition handleClick (drag : UseMultiDayEventDrag.Hook) (resize : UseEventResize.Hook)
  : bool * UseMultiDayEventDrag.Hook * UseEventResize.Hook :=
  let '(hadDrag, drag') := UseMultiDayEventDrag.consumeHadMovement drag in
  let '(hadResize, resize') := UseEventResize.consumeHadMovement resize in
  if hadDrag || hadResize then (false, drag', resize')
  else (true, drag', resize').

(** The phantom of a multi-day event in the week grid: first grid column,
    span, and whether it continues before or after the week. *)
Record Phantom : Type := mkPhantom {
  gridColumnStart : Z;
  gridColumnSpan : Z;
  gridRow : Z;
  extendsBefore : bool;
  extendsAfter : bool
}.

(** [phantomData] of [MultiDayEvent]. *)
Definition phantomData (isDragging : bool) (dragDelta : Z) (isResizing : bool)
  (resizeDelta : option (Handle * Z)) (startCol colSpan row : Z) : option Phantom :=
  if isDragging then
    let rawStartCol := (startCol + dragDelta)%Z in
    let rawEndCol := (rawStartCol + colSpan - 1)%Z in
    let clampedStartCol := Z.max 0 rawStartCol in
    let clampedEndCol := Z.min 6 rawEndCol in
    let clampedColSpan := Z.max 1 (clampedEndCol - clampedStartCol + 1) in
    Some {| gridColumnStart := clampedStartCol + 1;
            gridColumnSpan := clampedColSpan;
            gridRow := row + 1;
            extendsBefore := (rawStartCol <? 0)%Z;
            extendsAfter := (6 <? rawEndCol)%Z |}
  else
    match isResizing, resizeDelta with
    | true, Some (HStart, days) =>
        let rawStartCol := (startCol + days)%Z in
        let rawEndCol := (startCol + colSpan - 1)%Z in
        let clampedStartCol := Z.max 0 rawStartCol in
        let clampedEndCol := Z.min 6 rawEndCol in
        let clampedSpan := Z.max 1 (clampedEndCol - clampedStartCol + 1) in
        Some {| gridColumnStart := clampedStartCol + 1;
                gridColumnSpan := clampedSpan;
                gridRow := row + 1;
                extendsBefore := (rawStartCol <? 0)%Z;
                extendsAfter := false |}
    | true, Some (HEnd, days) =>
        let rawEndCol := (startCol + colSpan - 1 + days)%Z in
        let clampedEndCol := Z.min 6 rawEndCol in
        let clampedSpan := Z.max 1 (clampedEndCol - startCol + 1) in
        Some {| gridColumnStart := startCol + 1;
                gridColumnSpan := clampedSpan;
                gridRow := row + 1;
                extendsBefore := false;
                extendsAfter := (6 <? rawEndCol)%Z |}
    | _, _ => None
    end.

End CalendarEventParts.

(** *** calendar/components/DayView.tsx: sections and drag-to-create *)

Module DayViewParts.
Import JSDate DateFns DateFnsMore Calendar DayView.

Section Sections.

(** [isDayInEventRange] of calendar/utils/calendarHelpers is not among the
    sources: it is a parameter. *)
Variable isDayInEventRange : CalendarEvent -> Date -> bool.

(** [getAllEventsForDay]. *)
Definition getAllEventsForDay (events : list CalendarEvent) (day : Date)
  : list CalendarEvent :=
  List.filter (fun event =>
                 match endDate event with
                 | None => isSameDay (date event) day
                 | Some _ => isDayInEventRange event day
                 end) events.

(** [dayEvents], [allDayEvents], [timedEvents] and [timedEventsLayout] of
    the component. *)
Definition dayEvents (events : list CalendarEvent) (currentDate : Date) :=
  getAllEventsForDay events currentDate.

Definition allDayEvents (events : list CalendarEvent) (currentDate : Date) :=
  List.filter isAllDayEvent (dayEvents events currentDate).

Definition timedEvents (events : list CalendarEvent) (currentDate : Date) :=
  List.filter (fun e => negb (isAllDayEvent e)) (dayEvents events currentDate).

Definition timedEventsLayout (events : list CalendarEvent) (currentDate : Date) :=
  calculateEventLayout (timedEvents events currentDate) currentDate.

End Sections.

(** [positionToMinutes]: a Y position as minutes, snapped down to a quarter
    of an hour. *)
Definition positionToMinutes (y : Q) : Z :=
  let totalMinutes := JS.Math_floor ((y / HOUR_HEIGHT) * 60) in
  (JS.Math_floor (inject_Z totalMinutes / 15) * 15)%Z.

(** [minutesToPosition]. *)
Definition minutesToPosition (minutes : Z) : Q :=
  (inject_Z minutes / 60) * HOUR_HEIGHT.

(** The state of drag-to-create. *)
Record Creation : Type := mkCreation {
  isCreating : bool;
  creationStart : option Q;
  creationEnd : option Q;
  creationStartRef : option Z
}.

(** The events column when it is mounted: the top of its bounding
    rectangle and the [scrollTop] of its parent, if it has one. *)
Record Column : Type := mkColumn {
  rectTop : Q;
  parentScrollTop : option Q
}.

(** [parentElement?.scrollTop || 0]. *)
Definition scrollTopOr0 (c : Column) : Q :=
  match parentScrollTop c with Some s => s | None => 0 end.

(** [handleMouseDown]; [onEvent] tells whether the target lies in a timed
    event. *)
Definition handleMouseDown (column : option Column) (button : Z) (onEvent : bool)
  (clientY : Q) (st : Creation) : Creation :=
  if negb (button =? 0)%Z || onEvent then st
  else
    match column with
    | None => st
    | Some c =>
        let y := (clientY - rectTop c + scrollTopOr0 c)%Q in
        let snappedMinutes := positionToMinutes y in
        let snappedPos := minutesToPosition snappedMinutes in
        {| isCreating := true;
           creationStart := Some snappedPos;
           creationEnd := Some (snappedPos + minutesToPosition 15)%Q;
           creationStartRef := Some snappedMinutes |}
    end.

(** [handleMouseMove], installed while [isCreating]. *)
Definition handleMouseMove (column : option Column) (clientY : Q) (st : Creation)
  : Creation :=
  if negb (isCreating st) then st
  else
    match column, creationStartRef st with
    | Some c, Some startMinutes =>
        let y := (clientY - rectTop c + scrollTopOr0 c)%Q in
        let snappedMinutes :=
          positionToMinutes (Qmax 0 (Qmin y (24 * HOUR_HEIGHT))) in
        let minMinutes := Z.min startMinutes snappedMinutes in
        let maxMinutes := Z.max startMinutes snappedMinutes in
        let endMinutes := Z.max maxMinutes (minMinutes + 15) in
        {| isCreating := isCreating st;
           creationStart := Some (minutesToPosition minMinutes);
           creationEnd := Some (minutesToPosition endMinutes);
           creationStartRef := creationStartRef st |}
    | _, _ => st
    end.

(** [handleMouseUp], installed while [isCreating]: the start and end time
    handed to the new-event dialog, if it opens, and the state afterwards. *)
Definition handleMouseUp (currentDate : Date) (st : Creation)
  : option (Date * Date) * Creation :=
  let idle := {| isCreating := false; creationStart := None;
                 creationEnd := None; creationStartRef := None |} in
  if negb (isCreating st) then (None, st)
  else
    match creationStart st, creationEnd st with
    | Some cs, Some ce =>
        let startMinutes := JS.Math_round ((cs / HOUR_HEIGHT) * 60) in
        let endMinutes := JS.Math_round ((ce / HOUR_HEIGHT) * 60) in
        let startHour := JS.Math_floor (inject_Z startMinutes / 60) in
        let startMinute := Z.rem startMinutes 60 in
        let endHour := JS.Math_floor (inject_Z endMinutes / 60) in
        let endMinute := Z.rem endMinutes 60 in
        let startTime := setMinutes (setHours currentDate startHour) startMinute in
        let endTime := setMinutes (setHours currentDate endHour) endMinute in
        (Some (startTime, endTime), idle)
    | _, _ => (None, idle)
    end.

(** One whole gesture: pointer-down at [y0], the moves [ys], pointer-up. *)
Definition createByDrag (currentDate : Date) (column : option Column)
  (y0 : Q) (ys : list Q) (st : Creation) : option (Date * Date) * Creation :=
  handleMouseUp currentDate
    (foldl (fun s y => handleMouseMove column y s)
           (handleMouseDown column 0 false y0 st) ys).

End DayViewParts.

(** *** board/utils/colorUtils.ts *)

Module ColorUtils.
Local Open Scope Z_scope.

(** A JavaScript string, as its UTF-16 code units. *)
Definition JSString : Type := list Z.

(** The code units of a string of characters below 256. *)
Definition codeUnits (s : string) : JSString :=
  map (fun a => Z.of_nat (Ascii.nat_of_ascii a)) (String.list_ascii_of_string s).

(** [ToInt32] and [ToUint32]. *)
Definition ToInt32 (x : Z) : Z := (x + 2 ^ 31) mod 2 ^ 32 - 2 ^ 31.
Definition ToUint32 (x : Z) : Z := x mod 2 ^ 32.

(** The operators [<<], [^] and [>>> 0] on numbers. *)
Definition shl (x n : Z) : Z := ToInt32 (Z.shiftl (ToInt32 x) n).
Definition xor (x y : Z) : Z := Z.lxor (ToInt32 x) (ToInt32 y).

(** [hashString]. *)
Definition hashString (str : JSString) : Z :=
  ToUint32 (foldl (fun hash c => xor (shl hash 5 + hash) c) 5381 str).

Record BadgeColors : Type := mkColors {
  background : string;
  text : string;
  border : string
}.

Definition NOTION_COLORS : list BadgeColors :=
  [ mkColors "rgba(255, 115, 105, 0.5)" "#ff7369" "rgba(255, 115, 105, 0.3)";
    mkColors "rgba(255, 163, 68, 0.5)" "#ffa344" "rgba(255, 163, 68, 0.3)";
    mkColors "rgba(255, 220, 73, 0.5)" "#ffdc49" "rgba(255, 220, 73, 0.3)";
    mkColors "rgba(77, 171, 154, 0.5)" "#4dab9a" "rgba(77, 171, 154, 0.3)";
    mkColors "rgba(82, 156, 202, 0.5)" "#529cca" "rgba(82, 156, 202, 0.3)";
    mkColors "rgba(154, 109, 215, 0.5)" "#9a6dd7" "rgba(154, 109, 215, 0.3)";
    mkColors "rgba(226, 85, 161, 0.5)" "#e255a1" "rgba(226, 85, 161, 0.3)";
    mkColors "rgba(147, 114, 100, 0.5)" "#937264" "rgba(147, 114, 100, 0.3)";
    mkColors "rgba(68, 131, 170, 0.5)" "#4483aa" "rgba(68, 131, 170, 0.3)";
    mkColors "rgba(255, 134, 111, 0.5)" "#ff866f" "rgba(255, 134, 111, 0.3)";
    mkColors "rgba(133, 211, 108, 0.5)" "#85d36c" "rgba(133, 211, 108, 0.3)";
    mkColors "rgba(130, 80, 223, 0.5)" "#8250df" "rgba(130, 80, 223, 0.3)" ].

(** [generateColorFromValue]; [None] is JavaScript's [undefined] for an
    index outside the palette. *)
Definition generateColorFromValue (value : JSString) : option BadgeColors :=
  let hash := hashString value in
  let colorIndex := Z.rem hash (Z.of_nat (length NOTION_COLORS)) in
  if colorIndex <? 0 then None else NOTION_COLORS !! Z.to_nat colorIndex.

Definition grey : BadgeColors :=
  mkColors "rgba(128, 128, 128, 0.3)" "var(--text-muted)" "rgba(128, 128, 128, 0.2)".

(** The own keys of [PREDEFINED_COLORS]. *)
Definition PREDEFINED_COLORS : list (JSString * BadgeColors) :=
  [ (codeUnits "No Status", grey);
    (codeUnits "Uncategorized", grey);
    (codeUnits "No Category", grey) ].

(** The property names an object literal inherits from [Object.prototype];
    each of them is a truthy value. *)
Definition objectPrototypeKeys : list JSString :=
  map codeUnits
    [ "constructor"; "__defineGetter__"; "__defineSetter__"; "hasOwnProperty";
      "__lookupGetter__"; "__lookupSetter__"; "isPrototypeOf";
      "propertyIsEnumerable"; "toString"; "valueOf"; "__proto__";
      "toLocaleString" ]%string.

(** What [getColorForValue] returns: colors, a member of
    [Object.prototype], or [undefined]. *)
Inductive ColorResult : Type :=
  | Colors (c : BadgeColors)
  | InheritedMember (key : JSString)
  | Undefined.

(** [getColorForValue]. *)
Definition getColorForValue (value : JSString) : ColorResult :=
  match List.find (fun kv => bool_decide (fst kv = value)) PREDEFINED_COLORS with
  | Some kv => Colors (snd kv)
  | None =>
      if bool_decide (value ∈ objectPrototypeKeys) then InheritedMember value
      else match generateColorFromValue value with
           | Some c => Colors c
           | None => Undefined
           end
  end.

(** [getContrastingTextColor]. *)
Definition getContrastingTextColor (bgLightness : Q) : string :=
  if JS.ltb 60 bgLightness then "hsl(0, 0%, 20%)" else "hsl(0, 0%, 95%)".

End ColorUtils.

(** *** board/BoardBasesView.ts, gantt/GanttBasesView.ts *)

Module BasesViews.

(** [String.prototype.split('.')]: the pieces between the dots. *)
Fixpoint splitDot (s : string) : list string :=
  match s with
  | EmptyString => [EmptyString]
  | String c rest =>
      if Ascii.eqb c (Ascii.ascii_of_nat 46) then EmptyString :: splitDot rest
      else match splitDot rest with
           | [] => [String c EmptyString]
           | piece :: pieces => String c piece :: pieces
           end
  end.

(** [Array.prototype.join('.')]. *)
Definition joinDot (parts : list string) : string := String.concat "." parts.

(** [extractPropertyName]; a [propertyId] that is not a string is [None]. *)
Definition extractPropertyName (propertyId : option string) : string :=
  match propertyId with
  | None => ""
  | Some id =>
      if String.eqb id "" then ""
      else
        let parts := splitDot id in
        if (1 <? length parts)%nat then joinDot (drop 1 parts) else id
  end.

(** [x || fallback] on strings. *)
Definition orElse (x fallback : string) : string :=
  if String.eqb x "" then fallback else x.

(** The options [getReactComponent] hands to the board and to the gantt
    view. *)
Definition boardOptions (rawGroupBy rawSubGroupBy : option string) : string * string :=
  (orElse (extractPropertyName rawGroupBy) "status",
   orElse (extractPropertyName rawSubGroupBy) "").

Definition ganttOptions (rawStart rawEnd : option string) : string * string :=
  (orElse (extractPropertyName rawStart) "start",
   orElse (extractPropertyName rawEnd) "end").

(** The options [getReactComponent] of calendar/CalendarBasesView.ts hands
    to the calendar view: the configured values as they are, for values
    that are strings or absent. *)
Definition calendarOptions (rawStart rawEnd : option string) : string * string :=
  (orElse (match rawStart with Some s => s | None => "" end) "start",
   orElse (match rawEnd with Some s => s | None => "" end) "end").

End BasesViews.

(** * Vocabulary of the properties *)

Module DateCalculationsDefs.
Import JS JSDate DateFns Gantt DateCalculations.

(** An item lies at least partially within the window: the two ranges
    intersect. *)
Definition overlapsWindow (taskStart taskEnd timelineStart timelineEnd : Date) : Prop :=
  (taskStart <= timelineEnd)%Z /\ (timelineStart <= taskEnd)%Z.

End DateCalculationsDefs.

Module WindowDefs.
Import JSDate DateFns Gantt DateCalculations.

(** Every start and every end date of the items. *)
Definition allStartsAndEnds (tasks : list Task) : list Date :=
  flat_map (fun t => [startDate t; endDate t]) tasks.

End WindowDefs.

Module TaskDragDefs.
Import JS JSDate DateFns Gantt DateCalculations UseTaskDrag.

(** The rows of a group: [startRow, startRow + rowCount). *)
Definition containsRow (g : TaskGroup) (row : Z) : Prop :=
  (startRow g <= row /\ row < startRow g + rowCount g)%Z.

(** [g], at index [i], is the first group whose rows contain [row]. *)
Definition firstContaining (groups : list TaskGroup) (row : Z) (i : nat)
  (g : TaskGroup) : Prop :=
  groups !! i = Some g /\ containsRow g row
  /\ forall j g', (j < i)%nat -> groups !! j = Some g' -> ~ containsRow g' row.

(** Group row ranges do not overlap. *)
Definition disjointRows (groups : list TaskGroup) : Prop :=
  forall i j g1 g2 row,
    groups !! i = Some g1 -> groups !! j = Some g2 ->
    containsRow g1 row -> containsRow g2 row -> i = j.

(** The value written for a destination group. *)
Definition groupValue (newGroup : string) : string :=
  if String.eqb newGroup "No Group" then ""%string else newGroup.

(** Two groups of two rows, then "No Group"; a task of group "A" released
    over row 4 is moved out of every group. *)
Definition sampleGroups : list TaskGroup :=
  [mkTaskGroup "A" 0 2 false []; mkTaskGroup "B" 2 2 false [];
   mkTaskGroup "No Group" 4 1 false []].

End TaskDragDefs.

Module EventDragDefs.
Import JS JSDate DateFns DateUtils Calendar.
Import UseMultiDayEventDrag.

(** The day delta of the last move of a gesture: what [currentDeltaDays]
    holds at pointer-up. *)
Definition netDelta (containerWidth : option Q) (x0 : Q) (xs : list Q) : Z :=
  match last xs with
  | Some x1 => Math_round ((x1 - x0) / getDayWidth containerWidth)
  | None => 0%Z
  end.

(** The two writes that shift an event by [delta] days. *)
Definition shiftWrites (event : CalendarEvent) (dateProperty endDateProperty : string)
  (delta : Z) : list PropertyWrite :=
  [mkWrite (file event) dateProperty (formatDateString (addDays (date event) delta));
   mkWrite (file event) endDateProperty
           (formatDateString (addDays (endOrStart event) delta))].

(** An event from 2025-01-01 to 2025-01-10, a hook at rest, and an event
    without an end date. *)
Definition sampleEvent : CalendarEvent :=
  mkEvent "e1" "Review" (mk 2025 1 1 0 0) (Some (mk 2025 1 10 0 0)) "e1.md".

Definition idleHook : Hook := mkHook false 0 None false.

Definition singleDayEvent : CalendarEvent :=
  mkEvent "e2" "Standup" (mk 2025 1 15 0 0) None "e2.md".

End EventDragDefs.

Module ResizeDefs.
Import JS JSDate DateFns DateUtils Gantt Calendar DateCalculations.

(** C1 as the specification states it, for the commit of a calendar
    resize: whatever is written keeps the start strictly before the end. *)
Definition strictCommitRule : Prop :=
  forall (event : CalendarEvent) (dateProperty endDateProperty : string)
         (s : UseEventResize.Session),
    UseEventResize.handleMouseUp event dateProperty endDateProperty s <> [] ->
    match UseEventResize.handle s with
    | HStart => (addDays (UseEventResize.originalStartDate s)
                         (UseEventResize.currentDeltaDays s)
                 < UseEventResize.originalEndDate s)%Z
    | HEnd => (UseEventResize.originalStartDate s
               < addDays (UseEventResize.originalEndDate s)
                         (UseEventResize.currentDeltaDays s))%Z
    end.

(** An event from 2025-01-10 to 2025-01-12 in a 700 px wide week row. *)
Definition threeDayEvent : CalendarEvent :=
  mkEvent "e3" "Workshop" (mk 2025 1 10 0 0) (Some (mk 2025 1 12 0 0)) "e3.md".

Definition idleResize : UseEventResize.Hook :=
  UseEventResize.mkHook false None None false.

(** The session and hook after grabbing the start handle at x = 100 and
    moving through the positions [xs]. *)
Definition startHandleAfter (xs : list Q) : UseEventResize.Hook * UseEventResize.Session :=
  let '(h, s) := UseEventResize.handleResizeStart threeDayEvent (Some 700%Q) 100 HStart idleResize in
  UseEventResize.moves s xs h.

(** The task 2025-01-01 .. 2025-01-10, and the session of its start
    handle grabbed at x = 40 in the window January 2025 on a 3100 px chart
    (100 px per day). *)
Definition sampleTask : Task :=
  mkTask "t1" "Plan" (mk 2025 1 1 0 0) (mk 2025 1 10 0 0) "t1.md" "start" "end" None 0.

Definition startHandleSession : UseTaskResize.Session :=
  snd (UseTaskResize.handleResizeStart sampleTask (mk 2025 1 1 0 0)
         (mk 2025 2 1 0 0 - 1)%Z (Some 3100%Q) 40 HStart
         (UseTaskResize.mkHook false None false)).

End ResizeDefs.

Module LayoutDefs.
Import JS JSDate DateFns Calendar DayView.

Definition topLe (a b : EventWithPos) : Prop := (p_top a <= p_top b)%Q.

Definition endOf (r : EventWithLayout) : Q := (top r + height r)%Q.

(** The test the second and third pass apply to two elements. *)
Definition overlap (a b : EventWithLayout) : bool :=
  eventsOverlap (top a) (top a + height a) (top b) (top b + height b).

Definition toPos (r : EventWithLayout) : EventWithPos :=
  mkPos (event r) (top r) (height r).

(** An element never shares its column with an earlier one that has not
    ended when it starts. *)
Definition sweepDistinct (result : list EventWithLayout) : Prop :=
  forall i j a b,
    (i < j)%nat -> result !! i = Some a -> result !! j = Some b ->
    (top b < endOf a)%Q -> column a <> column b.

(** The invariant of the first loop, [T] being the start of the element
    handled last: every element laid out starts at or before [T], and the
    ones still running after [T] are in [activeEvents] with their column. *)
Definition firstPassInv (T : Q) (st : list ActiveEvent * list EventWithLayout) : Prop :=
  (forall r, r ∈ snd st -> (top r <= T)%Q)
  /\ (forall r, r ∈ snd st -> (T < endOf r)%Q ->
        exists ae, ae ∈ fst st /\ endPos ae = endOf r /\ a_column ae = column r)
  /\ sweepDistinct (snd st).

(** Columns of overlapping elements differ, whichever comes first. *)
Definition distinctColumns (result : list EventWithLayout) : Prop :=
  forall i j a b,
    i <> j -> result !! i = Some a -> result !! j = Some b ->
    overlap a b = true -> column a <> column b.

(** Everything of an element but its [totalColumns]. *)
Definition skel (r : EventWithLayout) : CalendarEvent * Q * Q * nat :=
  (event r, top r, height r, column r).

Definition colLt (r : EventWithLayout) : Prop := (column r < totalColumns r)%nat.

(** The two elements at [i] and [j], when they overlap, agree on
    [totalColumns]. *)
Definition pairOk (result : list EventWithLayout) (ij : nat * nat) : Prop :=
  forall a b,
    fst ij <> snd ij -> result !! fst ij = Some a -> result !! snd ij = Some b ->
    overlap a b = true -> totalColumns a = totalColumns b.

(** [result'] is [result] after one assignment of the third pass. *)
Definition raised (result result' : list EventWithLayout) : Prop :=
  exists i j a b,
    i <> j /\ result !! i = Some a /\ result !! j = Some b
    /\ (totalColumns a <> Nat.max (totalColumns a) (totalColumns b)
        \/ totalColumns b <> Nat.max (totalColumns a) (totalColumns b))
    /\ result' = <[j := setTotalColumns (Nat.max (totalColumns a) (totalColumns b)) b]>
                   (<[i := setTotalColumns (Nat.max (totalColumns a) (totalColumns b)) a]>
                      result).

Definition sumTotalColumns (l : list EventWithLayout) : nat :=
  foldr (fun r acc => (totalColumns r + acc)%nat) 0%nat l.

(** The pairs [(i, j)] in the order the nested loops visit them. *)
Definition pairsOf (idxs jdxs : list nat) : list (nat * nat) :=
  flat_map (fun i => map (pair i) jdxs) idxs.

(** A layout on which the third pass has nothing left to do. *)
Definition stable (result : list EventWithLayout) : Prop :=
  forall i j a b,
    i <> j -> result !! i = Some a -> result !! j = Some b ->
    overlap a b = true -> totalColumns a = totalColumns b.

(** The third pass only raises [totalColumns]. *)
Definition onlyRaised (l l' : list EventWithLayout) : Prop :=
  Forall2 (fun r r' => skel r = skel r' /\ (totalColumns r <= totalColumns r')%nat) l l'.

(** [eventsWithPos], before sorting. *)
Definition positioned (events : list CalendarEvent) (currentDate : Date)
  : list EventWithPos :=
  map (fun ev => let '(t, h) := getEventPosition ev currentDate in mkPos ev t h) events.

(** Events on 2025-01-15, from [h1]:[m1] to [h2]:[m2]. *)
Definition timed (i : string) (h1 m1 h2 m2 : Z) : CalendarEvent :=
  mkEvent i i (mk 2025 1 15 h1 m1) (Some (mk 2025 1 15 h2 m2)) (i +:+ ".md").

(** Identifier, column and [totalColumns] of the elements of a layout. *)
Definition columnsOf (o : option (list EventWithLayout))
  : option (list (string * nat * nat)) :=
  (fun l => map (fun r => (id (event r), column r, totalColumns r)) l) <$> o.

(** Two elements overlap directly. *)
Definition overlapAt (layout : list EventWithLayout) (i j : nat) : Prop :=
  exists a b,
    i <> j /\ layout !! i = Some a /\ layout !! j = Some b
    /\ eventsOverlap (top a) (top a + height a) (top b) (top b + height b) = true.

(** Two elements are in one cluster: linked by a chain of overlaps. *)
Definition sameCluster (layout : list EventWithLayout) : nat -> nat -> Prop :=
  rtc (overlapAt layout).

End LayoutDefs.

Module LayoutMoreDefs.
Import JS JSDate DateFns Calendar DayView LayoutDefs.

(** First fit: an element sits in column [c] only if every column below
    [c] is held by an earlier element still running when it starts. *)
Definition firstFit (result : list EventWithLayout) : Prop :=
  forall i a k,
    result !! i = Some a -> (k < column a)%nat ->
    exists j b,
      (j < i)%nat /\ result !! j = Some b /\ column b = k
      /\ (top b <= top a)%Q /\ (top a < endOf b)%Q.

(** The invariant of the first loop that gives first fit: what is in
    [activeEvents] stands for an element already laid out. *)
Definition firstFitInv (T : Q) (st : list ActiveEvent * list EventWithLayout) : Prop :=
  (forall r, r ∈ snd st -> (top r <= T)%Q)
  /\ (forall ae, ae ∈ fst st ->
        exists j r, snd st !! j = Some r /\ endPos ae = endOf r
                    /\ a_column ae = column r)
  /\ firstFit (snd st).

(** The horizontal slice of an element: from [sliceLeft] to [sliceRight]
    percent of the row. *)
Definition sliceLeft (r : EventWithLayout) : Q :=
  leftPercent (column r) (totalColumns r).

Definition sliceRight (r : EventWithLayout) : Q :=
  (leftPercent (column r) (totalColumns r) + widthPercent (totalColumns r))%Q.


(** [r] has the width the second pass estimates at index [i] of [base]:
    one more than the column of [r] itself or of an element that overlaps
    it. *)
Definition estimated (base : list EventWithLayout) (i : nat) (r : EventWithLayout) : Prop :=
  exists k rk,
    base !! k = Some rk
    /\ (k = i \/ (k <> i /\ overlap r rk = true))
    /\ totalColumns r = (column rk + 1)%nat.

(** [result'] is [result] after one assignment of the third pass, made for
    the overlapping elements at [i] and [j]. *)
Definition raisedAt (i j : nat) (result result' : list EventWithLayout) : Prop :=
  exists a b,
    i <> j /\ result !! i = Some a /\ result !! j = Some b
    /\ overlap a b = true
    /\ result' = <[j := setTotalColumns (Nat.max (totalColumns a) (totalColumns b)) b]>
                   (<[i := setTotalColumns (Nat.max (totalColumns a) (totalColumns b)) a]>
                      result).

(** Every [totalColumns] in [cur] is the [totalColumns] some element of the
    same cluster has in [base]. *)
Definition traced (base cur : list EventWithLayout) : Prop :=
  forall i r,
    cur !! i = Some r ->
    exists j rj,
      sameCluster base i j /\ base !! j = Some rj
      /\ totalColumns r = totalColumns rj.

End LayoutMoreDefs.

Module GanttMoreDefs.
Import JS JSDate DateFns Gantt.

(** [g], at index [i], is the first group named [n]. *)
Definition firstNamed (groups : list TaskGroup) (n : string) (i : nat)
  (g : TaskGroup) : Prop :=
  groups !! i = Some g /\ name g = n
  /\ forall j g', (j < i)%nat -> groups !! j = Some g' -> name g' <> n.

(** Some position of a gesture that began at [(x0, y0)] lies more than
    [threshold] pixels away from it, horizontally or vertically. *)
Definition movedBeyond (threshold x0 y0 : Q) (ps : list (Q * Q)) : Prop :=
  exists p, p ∈ ps
    /\ (threshold < Qabs (fst p - x0) \/ threshold < Qabs (snd p - y0))%Q.

(** A task of nine days in January 2025, and two groups with one task
    each. *)
Definition januaryTask : Task :=
  mkTask "t7" "Draft" (mk 2025 1 6 0 0) (mk 2025 1 15 0 0) "t7.md"
         "start" "due" (Some "A"%string) 0.

Definition otherTask : Task :=
  mkTask "t8" "Review" (mk 2025 1 20 0 0) (mk 2025 1 22 0 0) "t8.md"
         "start" "due" (Some "B"%string) 1.

(** The two writes of one move of a task drag that began at [x0]. *)
Definition moveWrites (task : Task) (s : UseTaskDrag.Session) (x0 : Q) (p : Q * Q)
  : list PropertyWrite :=
  let days := Math_round ((fst p - x0) / UseTaskDrag.pixelsPerDay s) in
  [mkWrite (file task) (startDateProperty task)
           (toISOString (addDays (UseTaskDrag.originalStartDate s) days));
   mkWrite (file task) (endDateProperty task)
           (toISOString (addDays (UseTaskDrag.originalEndDate s) days))].

(** A move of a task resize is accepted when the date it proposes differs
    from the date the handle had at the start of the gesture and keeps the
    start before the end. *)
Definition accepted (task : Task) (s : UseTaskResize.Session) (x : Q) : bool :=
  let c := UseTaskResize.candidate s x in
  negb (c =? UseTaskResize.originalDate s)%Z
  && match UseTaskResize.handle s with
     | HStart => (c <? endDate task)%Z
     | HEnd => (startDate task <? c)%Z
     end.

(** The property a handle writes. *)
Definition handleProperty (task : Task) (hd : Handle) : string :=
  match hd with
  | HStart => startDateProperty task
  | HEnd => endDateProperty task
  end.

End GanttMoreDefs.

Module DayViewMoreDefs.
Import JS JSDate DateFns DateFnsMore Calendar DayView DayViewParts.
Local Open Scope Z_scope.

(** The time [m] minutes after the midnight that begins the day of
    [date], with the seconds and milliseconds of [date]. *)
Definition atMinute (date : Date) (m : Z) : Date :=
  startOfDay date + m * msPerMinute + TimeWithinDay date mod msPerMinute.

(** Drag-to-create at rest. *)
Definition idle : Creation := mkCreation false None None None.

(** The state while a range is being dragged out from the quarter of an
    hour [m0]: the range runs from minute [a] to minute [b]. *)
Definition dragging (m0 a b : Z) (st : Creation) : Prop :=
  isCreating st = true /\ creationStartRef st = Some m0
  /\ exists cs ce : Q,
       creationStart st = Some cs /\ creationEnd st = Some ce
       /\ (cs == inject_Z a)%Q /\ (ce == inject_Z b)%Q.

(** A range of whole quarters of an hour within one day, not shorter than
    one quarter, that begins or ends at minute [m0] or has it inside. *)
Definition quarters (m0 a b : Z) : Prop :=
  0 <= a /\ a + 15 <= b /\ b <= 1440 /\ a mod 15 = 0 /\ b mod 15 = 0
  /\ a <= m0 /\ m0 <= b.

End DayViewMoreDefs.

Module DateStringDefs.
Import JSDate.

(** A number as two digits. *)
Definition pad2 (k : Z) : string := padStart0 2 (pretty k).

(** The days of the longest month. *)
Definition days31 : list Z := map Z.of_nat (seq 1 31).

(** Two-digit numbers of the days are two characters long and differ from
    one another. *)
Definition pad2_distinct : bool :=
  forallb (fun a =>
             (String.length (pad2 a) =? 2)%nat
             && forallb (fun b => implb (String.eqb (pad2 a) (pad2 b)) (a =? b)%Z)
                        days31)
          days31.

End DateStringDefs.

Module CalendarMoreDefs.
Import JS JSDate DateFns Calendar.

(** Some position of a gesture that began at [x0] lies more than
    [threshold] pixels away from it. *)
Definition movedBeyondX (threshold x0 : Q) (xs : list Q) : Prop :=
  exists x, x ∈ xs /\ (threshold < Qabs (x - x0))%Q.

(** The first and the last column, counted from 0 in the week shown, that
    an event of [colSpan] columns from [startCol] on would occupy after the
    gesture in progress. *)
Definition projectedRange (isDragging : bool) (dragDelta : Z) (isResizing : bool)
  (resizeDelta : option (Handle * Z)) (startCol colSpan : Z) : option (Z * Z) :=
  if isDragging
  then Some (startCol + dragDelta, startCol + dragDelta + colSpan - 1)%Z
  else match isResizing, resizeDelta with
       | true, Some (HStart, days) => Some (startCol + days, startCol + colSpan - 1)%Z
       | true, Some (HEnd, days) => Some (startCol, startCol + colSpan - 1 + days)%Z
       | _, _ => None
       end.

End CalendarMoreDefs.

Module BoardMoreDefs.
Import ColorUtils BasesViews.
Local Open Scope Z_scope.

(** The hash in unsigned 32-bit arithmetic: multiply by 33, keep the low
    32 bits, exclusive-or the code unit. *)
Definition djb2xor (str : JSString) : Z :=
  foldl (fun h c => Z.lxor ((h * 33) mod 2 ^ 32) c) 5381 str.

(** Every element is a UTF-16 code unit. *)
Definition codeUnitsOnly (str : JSString) : Prop :=
  Forall (fun c => 0 <= c < 65536) str.

(** The string contains a dot. *)
Fixpoint hasDot (s : string) : bool :=
  match s with
  | EmptyString => false
  | String c rest => Ascii.eqb c (Ascii.ascii_of_nat 46) || hasDot rest
  end.

End BoardMoreDefs.

Module LayoutTimeDefs.
Import JS JSDate DateFns Calendar DayView LayoutDefs.

(** A timed event of the day [d] on a grid of [unit] milliseconds: it has
    an end, it starts and ends on [d], and both times of day are multiples
    of [unit]. *)
Definition onDayIn (unit : Z) (d : Date) (ev : CalendarEvent) : Prop :=
  exists e,
    endDate ev = Some e
    /\ Day (date ev) = Day d /\ Day e = Day d
    /\ (TimeWithinDay (date ev) mod unit = 0)%Z
    /\ (TimeWithinDay e mod unit = 0)%Z.

Definition onDayInMinutes : Date -> CalendarEvent -> Prop := onDayIn msPerMinute.

Definition onDayInHours : Date -> CalendarEvent -> Prop := onDayIn msPerHour.

(** The time ranges of two events intersect: [start1 < end2] and
    [end1 > start2]. *)
Definition timesIntersect (a b : CalendarEvent) : Prop :=
  (date a < endOrStart b)%Z /\ (date b < endOrStart a)%Z.

(** The range of [a] ends exactly where the range of [b] begins. *)
Definition touches (a b : CalendarEvent) : Prop :=
  endDate a = Some (date b).

(** The rule for touching ranges as the specification states it: two
    timed events of a day of which the first ends exactly where the second
    begins are not an overlap for the layout. *)
Definition touchingRule : Prop :=
  forall (events : list CalendarEvent) (d : Date)
         (layout : list EventWithLayout) (a b : EventWithLayout),
    (forall ev, ev ∈ events -> onDayInMinutes d ev) ->
    calculateEventLayout events d = Some layout ->
    a ∈ layout -> b ∈ layout ->
    touches (event a) (event b) ->
    (date (event a) < date (event b))%Z ->
    overlap a b = false.

End LayoutTimeDefs.

(** * Properties *)

(** ** Numbers *)

Module JSFacts.
Import JS.

Lemma ltb_lt x y : ltb x y = true <-> (x < y)%Q.
Proof.
  unfold ltb. rewrite Qlt_alt. destruct (x ?= y)%Q; split; congruence.
Qed.

Lemma ltb_ge x y : ltb x y = false <-> (y <= x)%Q.
Proof.
  rewrite <- not_true_iff_false, ltb_lt. split.
  - apply Qnot_lt_le.
  - intros H1 H2. exact (Qlt_not_le _ _ H2 H1).
Qed.

Lemma leb_le x y : leb x y = true <-> (x <= y)%Q.
Proof.
  unfold leb. rewrite Qle_alt. destruct (x ?= y)%Q; split; congruence.
Qed.

Lemma Math_round_Z (k : Z) : Math_round (inject_Z k) = k.
Proof.
  unfold Math_round.
  assert (Hlo : (k <= Qfloor (inject_Z k + (1 # 2)))%Z).
  { rewrite <- (Qfloor_Z k) at 1. apply Qfloor_resp_le. lra. }
  assert (Hhi : (Qfloor (inject_Z k + (1 # 2)) < k + 1)%Z).
  { rewrite Zlt_Qlt.
    eapply Qle_lt_trans; [apply Qfloor_le|].
    rewrite inject_Z_plus. change (inject_Z 1) with 1%Q. lra. }
  lia.
Qed.

Lemma Math_round_comp (x y : Q) : (x == y)%Q -> Math_round x = Math_round y.
Proof. intros H. unfold Math_round. now rewrite H. Qed.

Lemma leb_gt x y : leb x y = false <-> (y < x)%Q.
Proof.
  rewrite <- not_true_iff_false, leb_le. split.
  - apply Qnot_le_lt.
  - intros H1 H2. exact (Qlt_not_le _ _ H1 H2).
Qed.

(** [Math.round] returns the integer nearest to its argument, the upper
    one at a tie. *)
Lemma Math_round_spec (x : Q) (n : Z) :
  Math_round x = n <-> (inject_Z n - (1 # 2) <= x /\ x < inject_Z n + (1 # 2))%Q.
Proof.
  unfold Math_round. split.
  - intros <-. split.
    + pose proof (Qfloor_le (x + (1 # 2))). lra.
    + pose proof (Qlt_floor (x + (1 # 2))) as H.
      rewrite inject_Z_plus in H. change (inject_Z 1) with 1%Q in H. lra.
  - intros [Hlo Hhi].
    assert (H1 : (n <= Qfloor (x + (1 # 2)))%Z).
    { rewrite <- (Qfloor_Z n) at 1. apply Qfloor_resp_le. lra. }
    assert (H2 : (Qfloor (x + (1 # 2)) < n + 1)%Z).
    { rewrite Zlt_Qlt. eapply Qle_lt_trans; [apply Qfloor_le|].
      rewrite inject_Z_plus. change (inject_Z 1) with 1%Q. lra. }
    lia.
Qed.

End JSFacts.

(** ** Geometry-time mapper (gantt/utils/dateCalculations.ts) *)

Module DateCalculationsFacts.
Import JS JSFacts JSDate DateFns Gantt DateCalculations.
Import DateCalculationsDefs.

Lemma addDays_zero (d : Date) : addDays d 0 = d.
Proof. unfold addDays. lia. Qed.

Lemma addDays_add (d : Date) (a b : Z) :
  addDays (addDays d a) b = addDays d (a + b).
Proof. unfold addDays. lia. Qed.

(** C6: the day-granularity delta-to-date mapping adds
    [round(pixelDelta / pixelsPerUnit)] whole days to the original date;
    a zero delta gives the date back and a delta of [k] units gives the
    date [k] whole days later, for every positive [pixelsPerUnit]. *)
Theorem C6_delta_to_date (date : Date) (pixelsPerUnit : Q) :
  (0 < pixelsPerUnit)%Q ->
  calculateDateFromDelta date 0 pixelsPerUnit = date
  /\ (forall k : Z,
        calculateDateFromDelta date (inject_Z k * pixelsPerUnit) pixelsPerUnit
        = (date + k * 86400000)%Z)
  /\ (forall (pixelDelta : Q) (n : Z),
        (inject_Z n - (1 # 2) <= pixelDelta / pixelsPerUnit
         /\ pixelDelta / pixelsPerUnit < inject_Z n + (1 # 2))%Q ->
        calculateDateFromDelta date pixelDelta pixelsPerUnit
        = (date + n * 86400000)%Z).
Proof.
  intros Hpos. unfold calculateDateFromDelta, addDays, msPerDay.
  assert (Hne : ~ (pixelsPerUnit == 0)%Q) by lra.
  split; [|split].
  - rewrite (Math_round_comp (0 / pixelsPerUnit) (inject_Z 0)).
    + rewrite Math_round_Z. lia.
    + change (inject_Z 0) with 0%Q. now field.
  - intros k.
    rewrite (Math_round_comp _ (inject_Z k)).
    + now rewrite Math_round_Z.
    + now field.
  - intros pixelDelta n Hn.
    apply Math_round_spec in Hn. now rewrite Hn.
Qed.

Lemma C6_delta_to_date_witness :
  (0 < 1000 # 31)%Q
  /\ calculateDateFromDelta (mk 2025 1 1 0 0) (inject_Z 3 * (1000 # 31)) (1000 # 31)
     = (mk 2025 1 1 0 0 + 3 * 86400000)%Z.
Proof.
  split; [reflexivity|].
  exact (proj1 (proj2 (C6_delta_to_date (mk 2025 1 1 0 0) (1000 # 31) eq_refl)) 3%Z).
Defined.

(** Truncated division of non-negative differences. *)
Lemma differenceInDays_nonneg (a b : Date) :
  (b <= a)%Z -> (0 <= differenceInDays a b)%Z.
Proof.
  intros H. unfold differenceInDays, msPerDay.
  apply Z.quot_pos; lia.
Qed.

Lemma differenceInDays_split (a b c d : Date) :
  (a <= b)%Z -> (b <= c)%Z -> (c <= d)%Z ->
  (differenceInDays b a + differenceInDays c b <= differenceInDays d a)%Z.
Proof.
  intros Hab Hbc Hcd. unfold differenceInDays, msPerDay.
  rewrite !Z.quot_div_nonneg by lia.
  apply Z.div_le_lower_bound; [lia|].
  pose proof (Z.mul_div_le (b - a) 86400000 ltac:(lia)).
  pose proof (Z.mul_div_le (c - b) 86400000 ltac:(lia)).
  lia.
Qed.

Lemma Qdiv_mul100_le (x s y : Z) :
  (0 < s)%Z -> (x <= y)%Z ->
  (inject_Z x / inject_Z s * 100 <= inject_Z y / inject_Z s * 100)%Q.
Proof.
  intros Hs Hxy.
  assert (Hs' : (0 < inject_Z s)%Q) by (rewrite <- (Zlt_Qlt 0); exact Hs).
  assert (Hxy' : (inject_Z x <= inject_Z y)%Q) by (now rewrite <- Zle_Qle).
  apply Qmult_le_compat_r; [|lra].
  apply Qmult_le_compat_r; [exact Hxy'|].
  apply Qlt_le_weak, Qinv_lt_0_compat, Hs'.
Qed.

Lemma Qdiv_mul100_self (s : Z) :
  (0 < s)%Z -> (inject_Z s / inject_Z s * 100 == 100)%Q.
Proof.
  intros Hs.
  assert (Hs' : (0 < inject_Z s)%Q) by (rewrite <- (Zlt_Qlt 0); exact Hs).
  field. lra.
Qed.

Lemma Qdiv_mul100_zero (s : Z) : (inject_Z 0 / inject_Z s * 100 == 0)%Q.
Proof. change (inject_Z 0) with 0%Q. unfold Qdiv. lra. Qed.

(** C8, counterexample: in the window January 2025, the item
    2024-12-25 .. 2025-01-05 lies partially within the window, and its
    left edge is negative. *)
Lemma C8_counterexample :
  let timelineStart := mk 2025 1 1 0 0 in
  let timelineEnd := (mk 2025 2 1 0 0 - 1)%Z in
  let taskStart := mk 2024 12 25 0 0 in
  let taskEnd := mk 2025 1 5 0 0 in
  (timelineStart <= timelineEnd)%Z
  /\ (taskStart <= taskEnd)%Z
  /\ overlapsWindow taskStart taskEnd timelineStart timelineEnd
  /\ ~ (0 <= left (calculateTaskPosition taskStart taskEnd timelineStart timelineEnd))%Q.
Proof.
  cbv zeta. unfold overlapsWindow.
  repeat split; vm_compute; congruence.
Qed.

(** C8, amended: for every window with start <= end and every item whose
    range lies fully within the window, the position mapping returns
    left in [0, 100], width > 0 and left + width <= 100. *)
Theorem C8_position_within_window
  (taskStart taskEnd timelineStart timelineEnd : Date) :
  (timelineStart <= taskStart)%Z ->
  (taskStart <= taskEnd)%Z ->
  (taskEnd <= timelineEnd)%Z ->
  let p := calculateTaskPosition taskStart taskEnd timelineStart timelineEnd in
  (0 <= left p /\ left p <= 100 /\ 0 < width p /\ left p + width p <= 100)%Q.
Proof.
  intros H1 H2 H3. cbv zeta. unfold calculateTaskPosition; simpl.
  pose proof (differenceInDays_nonneg taskStart timelineStart H1) as Ho.
  pose proof (differenceInDays_nonneg taskEnd taskStart H2) as Ht.
  pose proof (differenceInDays_nonneg timelineEnd timelineStart ltac:(lia)) as Hs.
  pose proof (differenceInDays_split _ _ _ _ H1 H2 H3) as Hsum.
  set (o := differenceInDays taskStart timelineStart) in *.
  set (t := differenceInDays taskEnd taskStart) in *.
  set (s := differenceInDays timelineEnd timelineStart) in *.
  assert (Hs1 : (0 < s + 1)%Z) by lia.
  assert (Hs' : (0 < inject_Z (s + 1))%Q) by (rewrite <- (Zlt_Qlt 0); exact Hs1).
  assert (Hadd : (inject_Z o / inject_Z (s + 1) * 100
                  + inject_Z (t + 1) / inject_Z (s + 1) * 100
                  == inject_Z (o + (t + 1)) / inject_Z (s + 1) * 100)%Q).
  { rewrite (inject_Z_plus o). field. lra. }
  repeat split.
  - rewrite <- (Qdiv_mul100_zero (s + 1)). apply Qdiv_mul100_le; lia.
  - rewrite <- (Qdiv_mul100_self (s + 1)) at 2 by lia. apply Qdiv_mul100_le; lia.
  - eapply Qlt_le_trans with (y := (inject_Z 1 / inject_Z (s + 1) * 100)%Q).
    + change (inject_Z 1) with 1%Q.
      apply Qmult_lt_0_compat; [|lra].
      apply Qmult_lt_0_compat; [lra|]. now apply Qinv_lt_0_compat.
    + apply Qdiv_mul100_le; lia.
  - rewrite Hadd.
    rewrite <- (Qdiv_mul100_self (s + 1)) at 2 by lia. apply Qdiv_mul100_le; lia.
Qed.

Lemma C8_position_within_window_witness :
  let p := calculateTaskPosition (mk 2025 1 1 0 0) (mk 2025 1 10 0 0)
                                 (mk 2025 1 1 0 0) (mk 2025 2 1 0 0 - 1)%Z in
  (0 <= left p /\ left p <= 100 /\ 0 < width p /\ left p + width p <= 100)%Q.
Proof.
  apply (C8_position_within_window (mk 2025 1 1 0 0) (mk 2025 1 10 0 0)
           (mk 2025 1 1 0 0) (mk 2025 2 1 0 0 - 1)%Z); vm_compute; congruence.
Defined.

End DateCalculationsFacts.

(** ** Window derivation (gantt/utils/dateCalculations.ts) *)

Module WindowFacts.
Import JSDate DateFns Gantt DateCalculations.
Import WindowDefs.

Lemma Math_min_spec (x : Z) (xs : list Z) :
  exists m, Math_min (x :: xs) = Some m
            /\ m ∈ x :: xs /\ (forall y, y ∈ x :: xs -> (m <= y)%Z).
Proof.
  revert x. induction xs as [|a xs IH]; intros x.
  - exists x. simpl. split; [reflexivity|]. split; [apply elem_of_cons; now left|].
    intros y Hy. apply list_elem_of_singleton in Hy. lia.
  - destruct (IH a) as (m & Hm & Hin & Hle).
    exists (Z.min x m). split.
    + change (Math_min (x :: a :: xs))
        with (Some (match Math_min (a :: xs) with
                    | Some y => Z.min x y | None => x end)).
      now rewrite Hm.
    + split.
      * destruct (Z.min_spec x m) as [[_ ->]|[_ ->]];
          apply elem_of_cons; [now left | now right].
      * intros y Hy. apply elem_of_cons in Hy as [->|Hy]; [lia|].
        specialize (Hle y Hy). lia.
Qed.

Lemma Math_max_spec (x : Z) (xs : list Z) :
  exists m, Math_max (x :: xs) = Some m
            /\ m ∈ x :: xs /\ (forall y, y ∈ x :: xs -> (y <= m)%Z).
Proof.
  revert x. induction xs as [|a xs IH]; intros x.
  - exists x. simpl. split; [reflexivity|]. split; [apply elem_of_cons; now left|].
    intros y Hy. apply list_elem_of_singleton in Hy. lia.
  - destruct (IH a) as (m & Hm & Hin & Hle).
    exists (Z.max x m). split.
    + change (Math_max (x :: a :: xs))
        with (Some (match Math_max (a :: xs) with
                    | Some y => Z.max x y | None => x end)).
      now rewrite Hm.
    + split.
      * destruct (Z.max_spec x m) as [[_ ->]|[_ ->]];
          apply elem_of_cons; [now right | now left].
      * intros y Hy. apply elem_of_cons in Hy as [->|Hy]; [lia|].
        specialize (Hle y Hy). lia.
Qed.

(** C5: window derivation always returns a window; for zero items it is
    the calendar month of [now], and for one or more items it runs from
    the start of the month of the least of all start and end dates to the
    end of the month of the greatest of them. *)
Theorem C5_window_derivation (now : Date) (tasks : list Task) :
  exists window,
    calculateTimelineRange now tasks = Some window
    /\ match tasks with
       | [] => window = (startOfMonth now, endOfMonth now)
       | _ :: _ =>
           exists lo hi,
             window = (startOfMonth lo, endOfMonth hi)
             /\ lo ∈ allStartsAndEnds tasks
             /\ (forall d, d ∈ allStartsAndEnds tasks -> (lo <= d)%Z)
             /\ hi ∈ allStartsAndEnds tasks
             /\ (forall d, d ∈ allStartsAndEnds tasks -> (d <= hi)%Z)
       end.
Proof.
  destruct tasks as [|t ts].
  - eexists. split; reflexivity.
  - unfold calculateTimelineRange.
    change (length (t :: ts) =? 0)%nat with false. cbv iota.
    unfold getTime. rewrite map_id.
    change (flat_map (fun t0 => [startDate t0; endDate t0]) (t :: ts))
      with (startDate t :: endDate t :: allStartsAndEnds ts).
    destruct (Math_min_spec (startDate t) (endDate t :: allStartsAndEnds ts))
      as (lo & -> & Hlo1 & Hlo2).
    destruct (Math_max_spec (startDate t) (endDate t :: allStartsAndEnds ts))
      as (hi & -> & Hhi1 & Hhi2).
    eexists. split; [reflexivity|].
    exists lo, hi. repeat split; assumption.
Qed.

(** Scenario E, on 2025-03-14 10:30. *)
Example window_of_no_items :
  calculateTimelineRange (mk 2025 3 14 10 30) []
  = Some (mk 2025 3 1 0 0, (mk 2025 4 1 0 0 - 1)%Z).
Proof. vm_compute. reflexivity. Qed.

Example window_of_two_items :
  calculateTimelineRange (mk 2025 3 14 10 30)
    [mkTask "a" "a" (mk 2025 1 20 0 0) (mk 2025 2 3 0 0) "a.md" "start" "end" None 0;
     mkTask "b" "b" (mk 2024 12 31 0 0) (mk 2025 1 2 0 0) "b.md" "start" "end" None 1]
  = Some (mk 2024 12 1 0 0, (mk 2025 3 1 0 0 - 1)%Z).
Proof. vm_compute. reflexivity. Qed.

End WindowFacts.

(** ** Task drag: destination group (gantt/hooks/useTaskDrag.ts) *)

Module TaskDragFacts.
Import JS JSFacts JSDate DateFns Gantt DateCalculations UseTaskDrag.
Import TaskDragDefs.

Lemma containsRow_test (g : TaskGroup) (row : Z) :
  (startRow g <=? row)%Z && (row <? startRow g + rowCount g)%Z = true
  <-> containsRow g row.
Proof.
  unfold containsRow. rewrite andb_true_iff, Z.leb_le, Z.ltb_lt. tauto.
Qed.

Lemma findGroupAtPosition_Some (y rowHeight : Q) (groups : list TaskGroup) (n : string) :
  findGroupAtPosition y groups rowHeight = Some n
  <-> exists i g, firstContaining groups (Math_floor (y / rowHeight)) i g /\ name g = n.
Proof.
  unfold findGroupAtPosition, firstContaining.
  set (row := Math_floor (y / rowHeight)).
  induction groups as [|g gs IH].
  - split; [discriminate|]. intros (i & g & (H & _) & _). destruct i; discriminate.
  - destruct ((startRow g <=? row)%Z && (row <? startRow g + rowCount g)%Z) eqn:E.
    + apply containsRow_test in E. split.
      * intros [= <-]. exists 0%nat, g.
        split; [|reflexivity]. split; [reflexivity|]. split; [exact E|].
        intros j g' Hj. lia.
      * intros (i & g0 & (Hi & Hc & Hfirst) & Hn).
        destruct i as [|i].
        -- simpl in Hi. injection Hi as ->. now rewrite Hn.
        -- exfalso. apply (Hfirst 0%nat g); [lia|reflexivity|exact E].
    + assert (Hn : ~ containsRow g row).
      { rewrite <- containsRow_test. now rewrite E. }
      rewrite IH. split.
      * intros (i & g0 & (Hi & Hc & Hfirst) & Hname).
        exists (S i), g0.
        split; [|exact Hname]. split; [exact Hi|]. split; [exact Hc|].
        intros [|j] g' Hj Hg'.
        -- simpl in Hg'. now injection Hg' as <-.
        -- apply (Hfirst j g'); [lia|exact Hg'].
      * intros (i & g0 & (Hi & Hc & Hfirst) & Hname).
        destruct i as [|i].
        -- simpl in Hi. injection Hi as ->. contradiction.
        -- exists i, g0.
           split; [|exact Hname]. split; [exact Hi|]. split; [exact Hc|].
           intros j g' Hj Hg'. apply (Hfirst (S j) g'); [lia|exact Hg'].
Qed.

Lemma findGroupAtPosition_None (y rowHeight : Q) (groups : list TaskGroup) :
  findGroupAtPosition y groups rowHeight = None
  <-> forall g, g ∈ groups -> ~ containsRow g (Math_floor (y / rowHeight)).
Proof.
  unfold findGroupAtPosition.
  set (row := Math_floor (y / rowHeight)).
  induction groups as [|g gs IH].
  - split; [|reflexivity]. intros _ g Hg. now apply elem_of_nil in Hg.
  - destruct ((startRow g <=? row)%Z && (row <? startRow g + rowCount g)%Z) eqn:E.
    + apply containsRow_test in E. split; [discriminate|].
      intros H. exfalso. apply (H g); [apply elem_of_cons; now left|exact E].
    + assert (Hn : ~ containsRow g row).
      { rewrite <- containsRow_test. now rewrite E. }
      rewrite IH. split.
      * intros H g' Hg'. apply elem_of_cons in Hg' as [->|Hg']; auto.
      * intros H g' Hg'. apply H. apply elem_of_cons. now right.
Qed.

Lemma truthy_true (s : string) : truthy s = true <-> s <> ""%string.
Proof.
  unfold truthy. rewrite negb_true_iff. split.
  - intros H ->. now rewrite String.eqb_refl in H.
  - intros H. now apply String.eqb_neq.
Qed.

(** C7: on pointer-up of a task drag with grouping active, the destination
    is the group whose rows [startRow, startRow + rowCount) contain
    [floor(relativeY / rowHeight)]; the group property is written only
    when that group differs from the original one, and the destination
    "No Group" is written as the empty string. *)
Theorem C7_destination_group (task : Task) (s : Session) (groups : list TaskGroup)
  (groupByProperty : string) (chartTop clientY : Q) (h : Hook) :
  groups <> [] -> groupByProperty <> ""%string ->
  let relativeY := (clientY - chartTop)%Q in
  let row := Math_floor (relativeY / ROW_HEIGHT) in
  let resolved := findGroupAtPosition relativeY groups ROW_HEIGHT in
  let ws := snd (handleMouseUp task s groups groupByProperty (Some chartTop) clientY h) in
  (forall n, resolved = Some n
             <-> exists i g, firstContaining groups row i g /\ name g = n)
  /\ (forall g, disjointRows groups -> g ∈ groups -> containsRow g row ->
                resolved = Some (name g))
  /\ (forall w, w ∈ ws ->
        exists newGroup,
          resolved = Some newGroup /\ Some newGroup <> originalGroup s
          /\ w = mkWrite (file task) groupByProperty (groupValue newGroup)
          /\ ws = [w])
  /\ (forall newGroup, resolved = Some newGroup -> newGroup <> ""%string ->
        Some newGroup <> originalGroup s ->
        ws = [mkWrite (file task) groupByProperty (groupValue newGroup)])
  /\ (resolved = originalGroup s -> ws = [])
  /\ (resolved = Some "No Group"%string -> originalGroup s <> Some "No Group"%string ->
        ws = [mkWrite (file task) groupByProperty ""]).
Proof.
  intros Hgroups Hprop. cbv zeta.
  assert (Hlen : negb (length groups =? 0)%nat = true).
  { destruct groups; [congruence|reflexivity]. }
  assert (Htr : truthy groupByProperty = true) by now apply truthy_true.
  unfold handleMouseUp. rewrite Hlen, Htr. cbn [andb].
  split; [|split; [|split; [|split; [|split]]]].
  - intros n. apply findGroupAtPosition_Some.
  - intros g Hdis Hin Hrow.
    destruct (findGroupAtPosition (clientY - chartTop) groups ROW_HEIGHT) as [n|] eqn:E.
    + apply findGroupAtPosition_Some in E as (i & g0 & (Hi & Hc & _) & <-).
      apply list_elem_of_lookup in Hin as [j Hj].
      assert (i = j) by (eapply Hdis; eauto). subst j.
      rewrite Hi in Hj. now injection Hj as ->.
    + exfalso. rewrite findGroupAtPosition_None in E. exact (E g Hin Hrow).
  - intros w Hw.
    destruct (findGroupAtPosition (clientY - chartTop) groups ROW_HEIGHT) as [n|];
      [|now apply elem_of_nil in Hw].
    destruct (truthy n); cbn [andb] in Hw; [|now apply elem_of_nil in Hw].
    destruct (bool_decide (Some n = originalGroup s)) eqn:Ed; cbn [negb] in Hw;
      [now apply elem_of_nil in Hw|].
    apply bool_decide_eq_false in Ed.
    cbn [snd] in Hw. apply list_elem_of_singleton in Hw. subst w.
    exists n. repeat split; auto.
  - intros n -> Hne Hdiff.
    apply truthy_true in Hne. rewrite Hne. cbn [andb].
    rewrite bool_decide_eq_false_2 by exact Hdiff. reflexivity.
  - intros ->.
    destruct (originalGroup s) as [n|]; [|reflexivity].
    rewrite bool_decide_eq_true_2 by reflexivity.
    now rewrite andb_false_r.
  - intros -> Hdiff.
    rewrite bool_decide_eq_false_2 by congruence. reflexivity.
Qed.

Lemma C7_destination_group_witness :
  snd (handleMouseUp
         (mkTask "t" "t" (mk 2025 1 1 0 0) (mk 2025 1 10 0 0) "t.md" "start" "end" (Some "A"%string) 0)
         (mkSession (mk 2025 1 1 0 0) (mk 2025 1 10 0 0) (Some "A"%string) 32)
         sampleGroups "project" (Some 100%Q) 275 (mkHook true (Some (10%Q, 110%Q)) true))
  = [mkWrite "t.md" "project" ""].
Proof.
  apply (C7_destination_group
           (mkTask "t" "t" (mk 2025 1 1 0 0) (mk 2025 1 10 0 0) "t.md" "start" "end" (Some "A"%string) 0)
           (mkSession (mk 2025 1 1 0 0) (mk 2025 1 10 0 0) (Some "A"%string) 32)
           sampleGroups "project" 100 275 (mkHook true (Some (10%Q, 110%Q)) true));
    [discriminate | discriminate | vm_compute; reflexivity | discriminate].
Defined.

(** Scenario A: the task 2025-01-01 .. 2025-01-10 in the window January
    2025 on a 3100 px chart, dragged 300 px to the right: both bounds are
    written, three days later. *)
Example drag_task_three_days :
  let task := mkTask "t" "t" (mk 2025 1 1 0 0) (mk 2025 1 10 0 0) "t.md"
                     "start" "end" (Some "A"%string) 0 in
  match handleDragStart task (mk 2025 1 1 0 0) (mk 2025 2 1 0 0 - 1)%Z
                        (Some 3100%Q) 0 500 60 (mkHook false None false) with
  | (h, Some s) =>
      snd (handleMouseMove task s 800 61 h)
      = [mkWrite "t.md" "start" "2025-01-04T00:00:00.000Z";
         mkWrite "t.md" "end" "2025-01-13T00:00:00.000Z"]
  | (_, None) => False
  end.
Proof. vm_compute. reflexivity. Qed.

End TaskDragFacts.

(** ** Calendar drag: commit on pointer-up (useMultiDayEventDrag, useEventDrag) *)

Module EventDragFacts.
Import JS JSFacts JSDate DateFns DateUtils Calendar.
Import UseMultiDayEventDrag.
Import EventDragDefs.

Lemma Day_addDays (d : Date) (delta : Z) :
  Day (addDays d delta) = (Day d + delta)%Z
  /\ TimeWithinDay (addDays d delta) = TimeWithinDay d.
Proof.
  unfold Day, TimeWithinDay, addDays, msPerDay. split.
  - now rewrite Z.div_add by lia.
  - now rewrite Z.mod_add by lia.
Qed.

Lemma moves_snoc (s : Session) (xs : list Q) (x1 : Q) (h : Hook) :
  moves s (xs ++ [x1]) h
  = handleMouseMove (snd (moves s xs h)) x1 (fst (moves s xs h)).
Proof. unfold moves. now rewrite foldl_app. Qed.

(** During the moves the drag origin and the day width stay as captured,
    and [currentDeltaDays] is the delta of the last move. *)
Lemma moves_state (s : Session) (xs : list Q) (h : Hook) (ds : DragStart) :
  dragStartRef h = Some ds ->
  dragStartRef (fst (moves s xs h)) = Some ds
  /\ dayWidth (snd (moves s xs h)) = dayWidth s
  /\ currentDeltaDays (snd (moves s xs h))
     = match last xs with
       | Some x1 => Math_round ((x1 - x ds) / dayWidth s)
       | None => currentDeltaDays s
       end.
Proof.
  intros Hds. induction xs as [|x1 xs IH] using rev_ind.
  - simpl. auto.
  - rewrite moves_snoc, last_snoc.
    destruct IH as (IH1 & IH2 & _).
    unfold handleMouseMove. rewrite IH1. simpl. rewrite IH2. auto.
Qed.

(** The whole gesture writes what its net delta decides. *)
Lemma gesture_writes (event : CalendarEvent) (dateProperty endDateProperty : string)
  (containerWidth : option Q) (x0 : Q) (xs : list Q) (h : Hook) :
  gesture event dateProperty endDateProperty containerWidth x0 xs h
  = if (netDelta containerWidth x0 xs =? 0)%Z then []
    else shiftWrites event dateProperty endDateProperty (netDelta containerWidth x0 xs).
Proof.
  unfold gesture, handleDragStart. cbn [Z.eqb negb].
  set (h1 := {| isDragging := true; previewDelta := previewDelta h;
                dragStartRef := Some {| x := x0; startDate := date event;
                                        endDate := endOrStart event |};
                hadMovementRef := false |}).
  set (s1 := {| dayWidth := getDayWidth containerWidth; currentDeltaDays := 0 |}).
  destruct (moves_state s1 xs h1 _ eq_refl) as (H1 & H2 & H3).
  destruct (moves s1 xs h1) as [h2 s2] eqn:E. simpl in H1, H2, H3.
  unfold handleMouseUp. rewrite H1, H3. unfold netDelta. simpl.
  destruct (last xs) as [x1|]; simpl; [|reflexivity].
  destruct (Math_round ((x1 - x0) / getDayWidth containerWidth) =? 0)%Z; reflexivity.
Qed.

(** C4: at pointer-up of a preview-then-commit drag (the container being
    unmounted or of positive width), a non-zero accumulated day delta
    writes both the start and the end date property, each shifted by that
    delta, and a zero net delta writes nothing; the drop handler likewise
    writes nothing when the date is unchanged. *)
Theorem C4_commit_on_pointer_up (event : CalendarEvent)
  (dateProperty endDateProperty : string) (containerWidth : option Q)
  (x0 : Q) (xs : list Q) (h : Hook) (events : list CalendarEvent) (activeId : string) :
  (0 < getDayWidth containerWidth)%Q ->
  let delta := netDelta containerWidth x0 xs in
  let writes := gesture event dateProperty endDateProperty containerWidth x0 xs h in
  (delta <> 0%Z ->
     writes = [mkWrite (file event) dateProperty
                       (formatDateString (addDays (date event) delta));
               mkWrite (file event) endDateProperty
                       (formatDateString (addDays (endOrStart event) delta))]
     /\ Day (addDays (date event) delta) = (Day (date event) + delta)%Z
     /\ Day (addDays (endOrStart event) delta) = (Day (endOrStart event) + delta)%Z)
  /\ (delta = 0%Z -> writes = [])
  /\ (forall s h', dragStartRef h' <> None ->
        snd (handleMouseUp event dateProperty endDateProperty s h')
        = if (currentDeltaDays s =? 0)%Z then []
          else match dragStartRef h' with
               | Some ds =>
                   [mkWrite (file event) dateProperty
                            (formatDateString (addDays (startDate ds) (currentDeltaDays s)));
                    mkWrite (file event) endDateProperty
                            (formatDateString (addDays (endDate ds) (currentDeltaDays s)))]
               | None => []
               end)
  /\ (forall e, find (fun e => String.eqb (id e) activeId) events = Some e ->
        UseEventDrag.handleDragEnd events dateProperty activeId
          (Some (formatDateString (date e))) = []).
Proof.
  intros _. cbv zeta. rewrite gesture_writes.
  split; [|split; [|split]].
  - intros Hd. apply Z.eqb_neq in Hd. rewrite Hd.
    split; [reflexivity|]. split; apply Day_addDays.
  - intros ->. reflexivity.
  - intros s h' Hh'. unfold handleMouseUp.
    destruct (dragStartRef h') as [ds|]; [|congruence].
    destruct (currentDeltaDays s =? 0)%Z; reflexivity.
  - intros e He. unfold UseEventDrag.handleDragEnd. rewrite He.
    now rewrite String.eqb_refl.
Qed.

Lemma C4_commit_on_pointer_up_witness :
  gesture sampleEvent "start" "end" (Some 700%Q) 50 [80%Q; 200%Q; 352%Q] idleHook
  = [mkWrite "e1.md" "start" "2025-01-04"; mkWrite "e1.md" "end" "2025-01-13"].
Proof.
  apply (C4_commit_on_pointer_up sampleEvent "start" "end" (Some 700%Q) 50
           [80%Q; 200%Q; 352%Q] idleHook [] ""); [reflexivity | vm_compute; congruence].
Defined.

(** A drag released where it started writes nothing. *)
Example drag_and_return :
  gesture sampleEvent "start" "end" (Some 700%Q) 50 [80%Q; 200%Q; 52%Q] idleHook = [].
Proof. vm_compute. reflexivity. Qed.

(** C9: committing a multi-day drag of an event without an end date, with
    a non-zero day delta (the container being unmounted or of positive
    width), writes the start property and the end property, both with the
    shifted original start date, and nothing else. *)
Theorem C9_single_day_event_drag (event : CalendarEvent)
  (dateProperty endDateProperty : string) (containerWidth : option Q)
  (x0 : Q) (xs : list Q) (h : Hook) :
  (0 < getDayWidth containerWidth)%Q ->
  Calendar.endDate event = None ->
  netDelta containerWidth x0 xs <> 0%Z ->
  let delta := netDelta containerWidth x0 xs in
  let shifted := formatDateString (addDays (date event) delta) in
  let writes := gesture event dateProperty endDateProperty containerWidth x0 xs h in
  writes = [mkWrite (file event) dateProperty shifted;
            mkWrite (file event) endDateProperty shifted]
  /\ (forall w, w ∈ writes ->
        w_file w = file event
        /\ (w_property w = dateProperty \/ w_property w = endDateProperty)).
Proof.
  intros _ Hend Hd. cbv zeta. rewrite gesture_writes.
  apply Z.eqb_neq in Hd. rewrite Hd.
  unfold shiftWrites, endOrStart. rewrite Hend.
  split; [reflexivity|].
  intros w Hw. apply elem_of_cons in Hw as [->|Hw]; [simpl; auto|].
  apply list_elem_of_singleton in Hw as ->. simpl. auto.
Qed.

Lemma C9_single_day_event_drag_witness :
  gesture singleDayEvent "start" "end" (Some 700%Q) 50 [250%Q] idleHook
  = [mkWrite "e2.md" "start" "2025-01-17"; mkWrite "e2.md" "end" "2025-01-17"].
Proof.
  apply (C9_single_day_event_drag singleDayEvent "start" "end" (Some 700%Q) 50
           [250%Q] idleHook); [reflexivity | reflexivity | vm_compute; congruence].
Defined.

End EventDragFacts.

(** ** Resize validation (useTaskResize, useEventResize) *)

Module ResizeFacts.
Import JS JSFacts JSDate DateFns DateUtils Gantt Calendar DateCalculations.
Import ResizeDefs.

(** *** Gantt task resize: live write *)

Lemma task_move_writes (task : Task) (s : UseTaskResize.Session) (clientX : Q)
  (h : UseTaskResize.Hook) :
  snd (UseTaskResize.handleMouseMove task s clientX h)
  = let c := UseTaskResize.candidate s clientX in
    if (c =? UseTaskResize.originalDate s)%Z then []
    else match UseTaskResize.handle s with
         | HStart =>
             if (c <? Gantt.endDate task)%Z
             then [mkWrite (Gantt.file task) (startDateProperty task) (toISOString c)]
             else []
         | HEnd =>
             if (Gantt.startDate task <? c)%Z
             then [mkWrite (Gantt.file task) (endDateProperty task) (toISOString c)]
             else []
         end.
Proof.
  unfold UseTaskResize.handleMouseMove, UseTaskResize.candidate, getTime. cbv zeta.
  set (c := calculateDateFromDelta _ _ _).
  destruct (c =? UseTaskResize.originalDate s)%Z; cbn [negb]; [reflexivity|].
  destruct (UseTaskResize.handle s).
  - change (bool_decide (HStart = HStart)) with true. cbn [andb].
    rewrite (Z.ltb_antisym (Gantt.endDate task) c).
    destruct (Gantt.endDate task <=? c)%Z; reflexivity.
  - change (bool_decide (HEnd = HStart)) with false.
    change (bool_decide (HEnd = HEnd)) with true. cbn [andb].
    rewrite (Z.ltb_antisym c (Gantt.startDate task)).
    destruct (c <=? Gantt.startDate task)%Z; reflexivity.
Qed.

Lemma task_moves_snoc (task : Task) (s : UseTaskResize.Session) (xs : list Q)
  (x1 : Q) (h : UseTaskResize.Hook) :
  snd (UseTaskResize.moves task s (xs ++ [x1]) h)
  = snd (UseTaskResize.moves task s xs h)
    ++ snd (UseTaskResize.handleMouseMove task s x1
              (fst (UseTaskResize.moves task s xs h))).
Proof.
  unfold UseTaskResize.moves. rewrite foldl_app. cbn [foldl].
  destruct (foldl _ _ xs) as [h1 ws]. cbn [fst snd].
  now destruct (UseTaskResize.handleMouseMove task s x1 h1).
Qed.

(** *** Calendar event resize: preview, then commit *)

Lemma event_commit_writes (event : CalendarEvent) (dateProperty endDateProperty : string)
  (s : UseEventResize.Session) :
  UseEventResize.handleMouseUp event dateProperty endDateProperty s
  = let delta := UseEventResize.currentDeltaDays s in
    if (delta =? 0)%Z then []
    else match UseEventResize.handle s with
         | HStart =>
             let newStart := addDays (UseEventResize.originalStartDate s) delta in
             if (newStart <=? UseEventResize.originalEndDate s)%Z
             then [mkWrite (Calendar.file event) dateProperty (formatDateString newStart)]
             else []
         | HEnd =>
             let newEnd := addDays (UseEventResize.originalEndDate s) delta in
             if (UseEventResize.originalStartDate s <=? newEnd)%Z
             then [mkWrite (Calendar.file event) endDateProperty (formatDateString newEnd)]
             else []
         end.
Proof.
  unfold UseEventResize.handleMouseUp. cbv zeta.
  destruct (UseEventResize.currentDeltaDays s =? 0)%Z; reflexivity.
Qed.

(** C1, counterexample: the start handle of the event 2025-01-10 ..
    2025-01-12 released two day columns to the right proposes a start equal
    to the end, not strictly less, and the start property is written; and a
    move five columns to the right, past the end, still updates the
    preview. *)
Lemma C1_counterexample :
  let s := snd (startHandleAfter [300%Q]) in
  addDays (UseEventResize.originalStartDate s) (UseEventResize.currentDeltaDays s)
  = UseEventResize.originalEndDate s
  /\ UseEventResize.handleMouseUp threeDayEvent "start" "end" s
     = [mkWrite "e3.md" "start" "2025-01-12"]
  /\ (let (h5, s5) := startHandleAfter [300%Q; 600%Q] in
      (UseEventResize.originalEndDate s5
       < addDays (UseEventResize.originalStartDate s5) (UseEventResize.currentDeltaDays s5))%Z
      /\ UseEventResize.previewDelta h5 = Some (HStart, 5%Z))
  /\ ~ strictCommitRule.
Proof.
  cbv zeta.
  split; [vm_compute; reflexivity|].
  split; [vm_compute; reflexivity|].
  split; [vm_compute; auto|].
  intros Hrule.
  specialize (Hrule threeDayEvent "start"%string "end"%string (snd (startHandleAfter [300%Q]))).
  assert (Hw : UseEventResize.handleMouseUp threeDayEvent "start" "end"
                 (snd (startHandleAfter [300%Q])) <> []) by (vm_compute; discriminate).
  specialize (Hrule Hw). vm_compute in Hrule. discriminate.
Qed.

(** C1, amended.  Gantt task resize (live write): a move writes the
    dragged bound only if the proposed start is strictly less than the
    task's end date, respectively the proposed end strictly greater than
    its start date; a violating proposal is not clamped, the move writes
    nothing and the persisted value stays; a start handle moved only to
    dates at or past the end issues no write at all.  Calendar event resize
    (preview, then commit): every move sets the preview delta, unvalidated,
    and writes nothing; at pointer-up a new start is written only if it is
    at most the original end, a new end only if it is at least the original
    start, and a violating proposal is skipped, not clamped. *)
Theorem C1_resize_validation :
  (forall (task : Task) (s : UseTaskResize.Session) (x : Q) (h : UseTaskResize.Hook)
          (w : PropertyWrite),
      w ∈ snd (UseTaskResize.handleMouseMove task s x h) ->
      let c := UseTaskResize.candidate s x in
      match UseTaskResize.handle s with
      | HStart => (c < Gantt.endDate task)%Z
                  /\ w = mkWrite (Gantt.file task) (startDateProperty task) (toISOString c)
      | HEnd => (Gantt.startDate task < c)%Z
                /\ w = mkWrite (Gantt.file task) (endDateProperty task) (toISOString c)
      end)
  /\ (forall (task : Task) (s : UseTaskResize.Session) (x : Q) (h : UseTaskResize.Hook),
        let c := UseTaskResize.candidate s x in
        match UseTaskResize.handle s with
        | HStart => (Gantt.endDate task <= c)%Z
        | HEnd => (c <= Gantt.startDate task)%Z
        end ->
        snd (UseTaskResize.handleMouseMove task s x h) = [])
  /\ (forall (task : Task) (s : UseTaskResize.Session) (xs : list Q)
             (h : UseTaskResize.Hook) (store : gmap (TFile * string) string),
        UseTaskResize.handle s = HStart ->
        (forall x, x ∈ xs -> (Gantt.endDate task <= UseTaskResize.candidate s x)%Z) ->
        snd (UseTaskResize.moves task s xs h) = []
        /\ applyWrites store (snd (UseTaskResize.moves task s xs h)) = store)
  /\ (forall (s : UseEventResize.Session) (x : Q) (h : UseEventResize.Hook),
        (0 < UseEventResize.dayWidth s)%Q ->
        let days := Math_round ((x - UseEventResize.startX s) / UseEventResize.dayWidth s) in
        UseEventResize.previewDelta (fst (UseEventResize.handleMouseMove s x h))
        = Some (UseEventResize.handle s, days)
        /\ UseEventResize.currentDeltaDays (snd (UseEventResize.handleMouseMove s x h))
           = days)
  /\ (forall (event : CalendarEvent) (dateProperty endDateProperty : string)
             (s : UseEventResize.Session) (w : PropertyWrite),
        w ∈ UseEventResize.handleMouseUp event dateProperty endDateProperty s ->
        let delta := UseEventResize.currentDeltaDays s in
        match UseEventResize.handle s with
        | HStart =>
            let newStart := addDays (UseEventResize.originalStartDate s) delta in
            (newStart <= UseEventResize.originalEndDate s)%Z
            /\ w = mkWrite (Calendar.file event) dateProperty (formatDateString newStart)
        | HEnd =>
            let newEnd := addDays (UseEventResize.originalEndDate s) delta in
            (UseEventResize.originalStartDate s <= newEnd)%Z
            /\ w = mkWrite (Calendar.file event) endDateProperty (formatDateString newEnd)
        end)
  /\ (forall (event : CalendarEvent) (dateProperty endDateProperty : string)
             (s : UseEventResize.Session),
        let delta := UseEventResize.currentDeltaDays s in
        match UseEventResize.handle s with
        | HStart => (UseEventResize.originalEndDate s
                     < addDays (UseEventResize.originalStartDate s) delta)%Z
        | HEnd => (addDays (UseEventResize.originalEndDate s) delta
                   < UseEventResize.originalStartDate s)%Z
        end ->
        UseEventResize.handleMouseUp event dateProperty endDateProperty s = []).
Proof.
  split; [|split; [|split; [|split; [|split]]]].
  - intros task s x h w Hw. cbv zeta. rewrite task_move_writes in Hw. cbv zeta in Hw.
    destruct (_ =? _)%Z; [now apply elem_of_nil in Hw|].
    destruct (UseTaskResize.handle s).
    + destruct (Z.ltb_spec (UseTaskResize.candidate s x) (Gantt.endDate task));
        [|now apply elem_of_nil in Hw].
      apply list_elem_of_singleton in Hw. auto.
    + destruct (Z.ltb_spec (Gantt.startDate task) (UseTaskResize.candidate s x));
        [|now apply elem_of_nil in Hw].
      apply list_elem_of_singleton in Hw. auto.
  - intros task s x h. cbv zeta. intros Hv. rewrite task_move_writes. cbv zeta.
    destruct (_ =? _)%Z; [reflexivity|].
    destruct (UseTaskResize.handle s).
    + destruct (Z.ltb_spec (UseTaskResize.candidate s x) (Gantt.endDate task));
        [lia|reflexivity].
    + destruct (Z.ltb_spec (Gantt.startDate task) (UseTaskResize.candidate s x));
        [lia|reflexivity].
  - intros task s xs h store Hh Hall.
    assert (Hnil : snd (UseTaskResize.moves task s xs h) = []).
    { induction xs as [|x1 xs IH] using rev_ind; [reflexivity|].
      rewrite task_moves_snoc, IH.
      - rewrite task_move_writes. cbv zeta. rewrite Hh.
        destruct (_ =? _)%Z; [reflexivity|].
        assert (Gantt.endDate task <= UseTaskResize.candidate s x1)%Z
          by (apply Hall, elem_of_app; right; now apply list_elem_of_singleton).
        destruct (Z.ltb_spec (UseTaskResize.candidate s x1) (Gantt.endDate task));
          [lia|reflexivity].
      - intros x Hx. apply Hall, elem_of_app. now left. }
    now rewrite Hnil.
  - intros s x h _. cbv zeta. split; reflexivity.
  - intros event dp edp s w Hw. cbv zeta. rewrite event_commit_writes in Hw.
    cbv zeta in Hw.
    destruct (_ =? _)%Z; [now apply elem_of_nil in Hw|].
    destruct (UseEventResize.handle s).
    + destruct (Z.leb_spec (addDays (UseEventResize.originalStartDate s)
                              (UseEventResize.currentDeltaDays s))
                           (UseEventResize.originalEndDate s));
        [|now apply elem_of_nil in Hw].
      apply list_elem_of_singleton in Hw. auto.
    + destruct (Z.leb_spec (UseEventResize.originalStartDate s)
                           (addDays (UseEventResize.originalEndDate s)
                              (UseEventResize.currentDeltaDays s)));
        [|now apply elem_of_nil in Hw].
      apply list_elem_of_singleton in Hw. auto.
  - intros event dp edp s. cbv zeta. intros Hv. rewrite event_commit_writes. cbv zeta.
    destruct (_ =? _)%Z; [reflexivity|].
    destruct (UseEventResize.handle s).
    + destruct (Z.leb_spec (addDays (UseEventResize.originalStartDate s)
                              (UseEventResize.currentDeltaDays s))
                           (UseEventResize.originalEndDate s)); [lia|reflexivity].
    + destruct (Z.leb_spec (UseEventResize.originalStartDate s)
                           (addDays (UseEventResize.originalEndDate s)
                              (UseEventResize.currentDeltaDays s))); [lia|reflexivity].
Qed.

(** Scenario B: the start handle is dragged 12, then 15 days to the right,
    past the end: no write.  Dragged back to 5 days, the start is written. *)
Example resize_start_past_end :
  snd (UseTaskResize.moves sampleTask startHandleSession [1240%Q; 1540%Q]
         (UseTaskResize.mkHook true (Some HStart) false)) = [].
Proof. vm_compute. reflexivity. Qed.

Example resize_start_and_recover :
  snd (UseTaskResize.moves sampleTask startHandleSession [1240%Q; 540%Q]
         (UseTaskResize.mkHook true (Some HStart) false))
  = [mkWrite "t1.md" "start" "2025-01-06T00:00:00.000Z"].
Proof. vm_compute. reflexivity. Qed.

End ResizeFacts.

(** ** Overlap layout (calendar/components/DayView.tsx) *)

Module LayoutFacts.
Import JS JSFacts JSDate DateFns Calendar DayView.
Import LayoutDefs.

(** *** Sorting by start *)

Lemma insertByTop_perm (a : EventWithPos) (l : list EventWithPos) :
  insertByTop a l ≡ₚ a :: l.
Proof.
  induction l as [|b l IH]; simpl; [reflexivity|].
  destruct (leb (p_top a) (p_top b)); [reflexivity|].
  rewrite IH. apply Permutation_swap.
Qed.

Lemma sortByTop_perm (l : list EventWithPos) : sortByTop l ≡ₚ l.
Proof.
  induction l as [|a l IH]; simpl; [reflexivity|].
  now rewrite insertByTop_perm, IH.
Qed.

Lemma insertByTop_sorted (a : EventWithPos) (l : list EventWithPos) :
  StronglySorted topLe l -> StronglySorted topLe (insertByTop a l).
Proof.
  induction l as [|b l IH]; intros Hs; simpl.
  - constructor; [constructor|constructor].
  - apply StronglySorted_inv in Hs as [Hl Hb].
    destruct (leb (p_top a) (p_top b)) eqn:E.
    + apply leb_le in E. constructor; [constructor; assumption|].
      constructor; [exact E|].
      eapply Forall_impl; [exact Hb|].
      intros c Hc. unfold topLe in *. lra.
    + apply leb_gt in E. constructor; [now apply IH|].
      rewrite insertByTop_perm. constructor; [|exact Hb].
      unfold topLe. lra.
Qed.

Lemma sortByTop_sorted (l : list EventWithPos) : StronglySorted topLe (sortByTop l).
Proof.
  induction l as [|a l IH]; simpl; [constructor|].
  now apply insertByTop_sorted.
Qed.

(** The sort is stable: elements with the same start keep their order. *)
Lemma insertByTop_stable (a : EventWithPos) (l : list EventWithPos) (t : Q) :
  List.filter (fun e => Qeq_bool (p_top e) t) (insertByTop a l)
  = List.filter (fun e => Qeq_bool (p_top e) t) (a :: l).
Proof.
  induction l as [|b l IH]; [reflexivity|].
  cbn [insertByTop]. destruct (leb (p_top a) (p_top b)) eqn:E; [reflexivity|].
  apply leb_gt in E.
  cbn [List.filter] in *. rewrite IH.
  destruct (Qeq_bool (p_top a) t) eqn:Ea, (Qeq_bool (p_top b) t) eqn:Eb; try reflexivity.
  apply Qeq_bool_iff in Ea, Eb. lra.
Qed.

Lemma sortByTop_stable (l : list EventWithPos) (t : Q) :
  List.filter (fun e => Qeq_bool (p_top e) t) (sortByTop l)
  = List.filter (fun e => Qeq_bool (p_top e) t) l.
Proof.
  induction l as [|a l IH]; [reflexivity|].
  cbn [sortByTop foldr]. fold (sortByTop l).
  rewrite insertByTop_stable. cbn [List.filter]. now rewrite IH.
Qed.

(** *** First free column *)

Lemma firstAvailable_spec (fuel : nat) (occupied : gset nat) (c : nat) :
  (size (filter (fun k => c <= k)%nat occupied) < fuel)%nat ->
  exists r, firstAvailable fuel occupied c = Some r
            /\ (r ∉ occupied) /\ (c <= r)%nat
            /\ forall k, (c <= k)%nat -> (k < r)%nat -> k ∈ occupied.
Proof.
  revert c. induction fuel as [|fuel IH]; intros c Hsize; [lia|].
  cbn [firstAvailable]. case_bool_decide as Hc.
  - destruct (IH (S c)) as (r & Hr & Hfree & Hle & Hbelow).
    + assert (filter (fun k => S c <= k)%nat occupied
              ⊂ filter (fun k => c <= k)%nat occupied) as Hsub.
      { split.
        - intros k Hk. apply elem_of_filter in Hk as [Hk1 Hk2].
          apply elem_of_filter. split; [lia|exact Hk2].
        - intros Hcontra.
          assert (c ∈ filter (fun k => S c <= k)%nat occupied) as Hin.
          { apply Hcontra, elem_of_filter. split; [lia|exact Hc]. }
          apply elem_of_filter in Hin as [Hin _]. lia. }
      apply subset_size in Hsub. lia.
    + exists r. split; [exact Hr|]. split; [exact Hfree|]. split; [lia|].
      intros k Hk1 Hk2. destruct (decide (k = c)) as [->|Hne]; [exact Hc|].
      apply Hbelow; lia.
  - exists c. split; [reflexivity|]. split; [exact Hc|]. split; [lia|].
    intros k Hk1 Hk2. lia.
Qed.

Lemma firstAvailable_total (occupied : gset nat) :
  exists r, firstAvailable (S (size occupied)) occupied 0 = Some r
            /\ (r ∉ occupied) /\ forall k, (k < r)%nat -> k ∈ occupied.
Proof.
  destruct (firstAvailable_spec (S (size occupied)) occupied 0) as (r & H1 & H2 & _ & H3).
  - assert (size (filter (fun k => 0 <= k)%nat occupied) <= size occupied)%nat.
    { apply subseteq_size. intros k Hk. now apply elem_of_filter in Hk as [_ Hk]. }
    lia.
  - exists r. split; [exact H1|]. split; [exact H2|].
    intros k Hk. apply H3; [lia|exact Hk].
Qed.

(** *** First pass: column assignment *)

Lemma elem_of_filter_ltb (t : Q) (ae : ActiveEvent) (l : list ActiveEvent) :
  ae ∈ List.filter (fun ae => ltb t (endPos ae)) l <-> ae ∈ l /\ (t < endPos ae)%Q.
Proof. now rewrite !list_elem_of_In, filter_In, ltb_lt. Qed.

Lemma elem_of_map_column (c : nat) (l : list ActiveEvent) :
  c ∈ (list_to_set (map a_column l) : gset nat) <-> exists ae, ae ∈ l /\ a_column ae = c.
Proof.
  rewrite elem_of_list_to_set, list_elem_of_In, in_map_iff.
  split; intros (ae & H1 & H2); exists ae; [rewrite list_elem_of_In|rewrite <- list_elem_of_In]; auto.
Qed.

Lemma firstPassStep_inv (T : Q) (st : list ActiveEvent * list EventWithLayout)
  (i : nat) (e : EventWithPos) :
  firstPassInv T st -> (T <= p_top e)%Q ->
  exists st' c,
    firstPassStep st i e = Some st'
    /\ snd st' = snd st ++ [mkLayout (p_event e) (p_top e) (p_height e) c 1]
    /\ firstPassInv (p_top e) st'.
Proof.
  destruct st as [active result]. intros (Htop & Hact & Hdis) HT. cbn [fst snd] in *.
  unfold firstPassStep.
  set (stillActive := List.filter (fun ae => ltb (p_top e) (endPos ae)) active).
  set (occupied := list_to_set (map a_column stillActive) : gset nat).
  destruct (firstAvailable_total occupied) as (c & Hc & Hfree & _).
  rewrite Hc. cbn [mbind option_bind].
  eexists _, c. split; [reflexivity|]. cbn [fst snd]. split; [reflexivity|].
  set (new := mkLayout (p_event e) (p_top e) (p_height e) c 1).
  assert (Hold : forall r, r ∈ result -> (p_top e < endOf r)%Q ->
                 exists ae, ae ∈ stillActive /\ endPos ae = endOf r /\ a_column ae = column r).
  { intros r Hr Hlt. destruct (Hact r Hr) as (ae & Hae & He & Hcol).
    - specialize (Htop r Hr). lra.
    - exists ae. split; [|auto]. apply elem_of_filter_ltb. split; [exact Hae|].
      now rewrite He. }
  unfold firstPassInv. cbn [fst snd].
  split; [|split].
  - intros r Hr. apply elem_of_app in Hr as [Hr|Hr].
    + specialize (Htop r Hr). lra.
    + apply list_elem_of_singleton in Hr as ->. simpl. lra.
  - intros r Hr Hlt. apply elem_of_app in Hr as [Hr|Hr].
    + destruct (Hold r Hr Hlt) as (ae & Hae & He).
      exists ae. split; [apply elem_of_app; now left|exact He].
    + apply list_elem_of_singleton in Hr as ->.
      eexists. split; [apply elem_of_app; right; now apply list_elem_of_singleton|].
      split; reflexivity.
  - intros i0 j a b Hij Ha Hb Hlt.
    destruct (decide (j < length result)%nat) as [Hj|Hj].
    + rewrite lookup_app_l in Ha by lia. rewrite lookup_app_l in Hb by lia.
      exact (Hdis i0 j a b Hij Ha Hb Hlt).
    + assert (j = length result) as ->.
      { apply lookup_lt_Some in Hb. rewrite length_app in Hb. simpl in Hb. lia. }
      rewrite lookup_app_l in Ha by lia.
      rewrite lookup_app_r, Nat.sub_diag in Hb by lia.
      injection Hb as <-. cbn [top column new] in *.
      destruct (Hold a (list_elem_of_lookup_2 _ _ _ Ha) Hlt) as (ae & Hae & _ & Hcol).
      intros Heq. apply Hfree. apply elem_of_map_column.
      exists ae. split; [exact Hae|]. now rewrite Hcol.
Qed.

Lemma firstPass_inv (l : list EventWithPos) :
  forall (i : nat) (st : list ActiveEvent * list EventWithLayout) (T : Q),
    StronglySorted topLe l ->
    Forall (fun e => (T <= p_top e)%Q) l ->
    firstPassInv T st ->
    exists st',
      firstPass i l st = Some st'
      /\ map toPos (snd st') = map toPos (snd st) ++ l
      /\ sweepDistinct (snd st').
Proof.
  induction l as [|e rest IH]; intros i st T Hs HT Hinv.
  - exists st. split; [reflexivity|]. split; [now rewrite app_nil_r|]. apply Hinv.
  - apply StronglySorted_inv in Hs as [Hs He].
    apply Forall_cons in HT as [HTe _].
    destruct (firstPassStep_inv T st i e Hinv HTe) as (st1 & c & Hstep & Hres & Hinv1).
    destruct (IH (S i) st1 (p_top e) Hs He Hinv1) as (st' & Hfp & Hmap & Hdis).
    exists st'. cbn [firstPass]. rewrite Hstep. cbn [mbind option_bind].
    split; [exact Hfp|]. split; [|exact Hdis].
    rewrite Hmap, Hres, map_app. cbn [map toPos event top height].
    rewrite <- app_assoc. destruct e; reflexivity.
Qed.

(** The first pass always returns, with the elements of its input in order
    and columns that separate every element from the earlier ones still
    running. *)
Lemma firstPass_spec (l : list EventWithPos) :
  StronglySorted topLe l ->
  exists active result,
    firstPass 0 l ([], []) = Some (active, result)
    /\ map toPos result = l
    /\ sweepDistinct result.
Proof.
  intros Hs.
  assert (Hinit : forall T, firstPassInv T ([], [])).
  { intros T. split; [|split].
    - intros r Hr. now apply elem_of_nil in Hr.
    - intros r Hr. now apply elem_of_nil in Hr.
    - intros i j a b _ Ha. cbn [snd] in Ha. now rewrite lookup_nil in Ha. }
  assert (exists T, Forall (fun e => (T <= p_top e)%Q) l) as [T HT].
  { destruct l as [|e rest]; [exists 0%Q; constructor|].
    exists (p_top e). apply StronglySorted_inv in Hs as [_ He].
    constructor; [lra|exact He]. }
  destruct (firstPass_inv l 0 ([], []) T Hs HT (Hinit T)) as ([active result] & H1 & H2 & H3).
  exists active, result. auto.
Qed.

Lemma overlap_spec (a b : EventWithLayout) :
  overlap a b = true <-> (top a < endOf b)%Q /\ (top b < endOf a)%Q.
Proof.
  unfold overlap, eventsOverlap, endOf. now rewrite andb_true_iff, !ltb_lt.
Qed.

Lemma overlap_sym (a b : EventWithLayout) : overlap a b = overlap b a.
Proof.
  apply eq_true_iff_eq. rewrite !overlap_spec. tauto.
Qed.

Lemma sweepDistinct_distinctColumns (result : list EventWithLayout) :
  sweepDistinct result -> distinctColumns result.
Proof.
  intros Hs i j a b Hij Ha Hb Hov. apply overlap_spec in Hov as [H1 H2].
  destruct (decide (i < j)%nat) as [Hlt|Hge].
  - exact (Hs i j a b Hlt Ha Hb H2).
  - intros Heq. apply (Hs j i b a ltac:(lia) Hb Ha H1). now symmetry.
Qed.

(** *** What the second and third pass leave alone *)

Lemma overlap_skel (a a' b b' : EventWithLayout) :
  skel a = skel a' -> skel b = skel b' -> overlap a b = overlap a' b'.
Proof.
  unfold skel, overlap. intros [= _ -> -> _] [= _ -> -> _]. reflexivity.
Qed.

Lemma insert_setTotalColumns_skel (l : list EventWithLayout) (i n : nat)
  (r : EventWithLayout) :
  l !! i = Some r -> skel <$> <[i := setTotalColumns n r]> l = skel <$> l.
Proof.
  intros H. rewrite list_fmap_insert. apply list_insert_id.
  now rewrite list_lookup_fmap, H.
Qed.

Lemma skel_lookup (l l' : list EventWithLayout) (i : nat) (r' : EventWithLayout) :
  skel <$> l = skel <$> l' -> l' !! i = Some r' ->
  exists r, l !! i = Some r /\ skel r = skel r'.
Proof.
  intros Hs Hr'.
  assert (H : (skel <$> l) !! i = Some (skel r')).
  { now rewrite Hs, list_lookup_fmap, Hr'. }
  rewrite list_lookup_fmap in H.
  destruct (l !! i) as [r|]; [|discriminate].
  exists r. split; [reflexivity|]. cbn in H. congruence.
Qed.

Lemma skel_length (l l' : list EventWithLayout) :
  skel <$> l = skel <$> l' -> length l = length l'.
Proof.
  intros H. apply (f_equal length) in H. now rewrite !length_fmap in H.
Qed.

Lemma skel_distinctColumns (l l' : list EventWithLayout) :
  skel <$> l = skel <$> l' -> distinctColumns l -> distinctColumns l'.
Proof.
  intros Hs Hd i j a' b' Hij Ha' Hb' Hov.
  destruct (skel_lookup l l' i a' Hs Ha') as (a & Ha & Hsa).
  destruct (skel_lookup l l' j b' Hs Hb') as (b & Hb & Hsb).
  rewrite <- (overlap_skel a a' b b' Hsa Hsb) in Hov.
  pose proof (Hd i j a b Hij Ha Hb Hov) as Hne.
  unfold skel in Hsa, Hsb. injection Hsa as _ _ _ <-. injection Hsb as _ _ _ <-.
  exact Hne.
Qed.

(** *** Second pass: local width estimate *)

Lemma maxColumnOf_ge (result : list EventWithLayout) (i : nat)
  (current : EventWithLayout) :
  (column current <= maxColumnOf result i current)%nat.
Proof.
  unfold maxColumnOf.
  generalize (seq 0 (length result)) as js. generalize (column current) as m.
  intros m js. revert m. induction js as [|j js IH]; intros m; [simpl; lia|].
  cbn [foldl]. etransitivity; [|apply IH].
  destruct (i =? j)%nat; [lia|].
  destruct (result !! j) as [other|]; [|lia].
  destruct (eventsOverlap _ _ _ _); lia.
Qed.

Lemma secondPassStep_skel (result : list EventWithLayout) (i : nat) :
  skel <$> secondPassStep result i = skel <$> result.
Proof.
  unfold secondPassStep. destruct (result !! i) as [current|] eqn:E; [|reflexivity].
  now apply insert_setTotalColumns_skel.
Qed.

Lemma secondPassStep_colLt (result : list EventWithLayout) (i k : nat)
  (r : EventWithLayout) :
  secondPassStep result i !! k = Some r ->
  (k = i \/ exists r0, result !! k = Some r0 /\ colLt r0) -> colLt r.
Proof.
  unfold secondPassStep. intros Hr Hk.
  destruct (result !! i) as [current|] eqn:E.
  - destruct (decide (k = i)) as [->|Hne].
    + rewrite list_lookup_insert_eq in Hr by (now apply lookup_lt_Some in E).
      injection Hr as <-. unfold colLt. cbn [column totalColumns setTotalColumns].
      pose proof (maxColumnOf_ge result i current). lia.
    + rewrite list_lookup_insert_ne in Hr by congruence.
      destruct Hk as [->|(r0 & Hr0 & Hlt)]; [congruence|].
      rewrite Hr in Hr0. now injection Hr0 as <-.
  - destruct Hk as [->|(r0 & Hr0 & Hlt)]; [congruence|].
    rewrite Hr in Hr0. now injection Hr0 as <-.
Qed.

Lemma secondPass_fold (idxs : list nat) :
  forall result : list EventWithLayout,
    skel <$> foldl secondPassStep result idxs = skel <$> result
    /\ forall k r, foldl secondPassStep result idxs !! k = Some r ->
         (k ∈ idxs \/ exists r0, result !! k = Some r0 /\ colLt r0) -> colLt r.
Proof.
  induction idxs as [|i idxs IH]; intros result.
  - split; [reflexivity|]. intros k r Hr [Hk|(r0 & Hr0 & Hlt)].
    + now apply elem_of_nil in Hk.
    + cbn [foldl] in Hr. rewrite Hr in Hr0. now injection Hr0 as <-.
  - cbn [foldl]. destruct (IH (secondPassStep result i)) as [IHs IHc].
    split; [now rewrite IHs, secondPassStep_skel|].
    intros k r Hr Hk. apply (IHc k r Hr).
    destruct (decide (k ∈ idxs)) as [Hin|Hnin]; [now left|]. right.
    assert (Hlen : (k < length (secondPassStep result i))%nat).
    { apply lookup_lt_Some in Hr.
      rewrite (skel_length _ _ IHs) in Hr. exact Hr. }
    destruct (lookup_lt_is_Some_2 _ _ Hlen) as [r1 Hr1].
    exists r1. split; [exact Hr1|].
    apply (secondPassStep_colLt result i k r1 Hr1).
    destruct Hk as [Hk|Hk]; [|now right].
    apply elem_of_cons in Hk as [->|Hk]; [now left|contradiction].
Qed.

(** After the second pass every element has [column < totalColumns]. *)
Lemma secondPass_spec (result : list EventWithLayout) :
  skel <$> secondPass result = skel <$> result
  /\ Forall colLt (secondPass result).
Proof.
  unfold secondPass.
  destruct (secondPass_fold (seq 0 (length result)) result) as [Hs Hc].
  split; [exact Hs|].
  apply Forall_lookup. intros k r Hr. apply (Hc k r Hr). left.
  apply elem_of_seq. apply lookup_lt_Some in Hr.
  rewrite (skel_length _ _ Hs) in Hr. lia.
Qed.

(** *** Third pass: cluster consistency *)

Lemma thirdPassStep_cases (result : list EventWithLayout) (changed : bool)
  (ij : nat * nat) :
  (thirdPassStep (result, changed) ij = (result, changed) /\ pairOk result ij)
  \/ (exists result', thirdPassStep (result, changed) ij = (result', true)
                      /\ raised result result').
Proof.
  destruct ij as [i j]. unfold thirdPassStep, pairOk. cbn [fst snd].
  destruct (Nat.eqb_spec i j) as [->|Hij].
  { left. split; [reflexivity|]. intros a b Hne. congruence. }
  destruct (result !! i) as [a|] eqn:Ea; [|left; split; [reflexivity|congruence]].
  destruct (result !! j) as [b|] eqn:Eb; [|left; split; [reflexivity|congruence]].
  fold (overlap a b).
  destruct (overlap a b) eqn:Eo;
    [|left; split; [reflexivity|]; intros a0 b0 _ [= <-] [= <-]; congruence].
  set (m := Nat.max (totalColumns a) (totalColumns b)).
  destruct (Nat.eqb_spec (totalColumns a) m) as [Ha|Ha];
    destruct (Nat.eqb_spec (totalColumns b) m) as [Hb|Hb]; cbn [negb orb].
  - left. split; [reflexivity|]. intros a0 b0 _ [= <-] [= <-] _. congruence.
  - right. eexists. split; [reflexivity|]. exists i, j, a, b. fold m. auto 10.
  - right. eexists. split; [reflexivity|]. exists i, j, a, b. fold m. auto 10.
  - right. eexists. split; [reflexivity|]. exists i, j, a, b. fold m. auto 10.
Qed.

Lemma sumTotalColumns_insert (l : list EventWithLayout) (i : nat)
  (x y : EventWithLayout) :
  l !! i = Some x ->
  (sumTotalColumns (<[i := y]> l) + totalColumns x
   = sumTotalColumns l + totalColumns y)%nat.
Proof.
  revert i. induction l as [|r l IH]; intros [|i] H; try discriminate.
  - injection H as ->. simpl. lia.
  - simpl in *. specialize (IH i H). lia.
Qed.

Lemma sumTotalColumns_bound (l : list EventWithLayout) (M : nat) :
  Forall (fun r => (totalColumns r <= M)%nat) l ->
  (sumTotalColumns l <= length l * M)%nat.
Proof.
  induction 1 as [|r l Hr Hl IH]; simpl; lia.
Qed.

Lemma raised_spec (result result' : list EventWithLayout) :
  raised result result' ->
  skel <$> result' = skel <$> result
  /\ (Forall colLt result -> Forall colLt result')
  /\ (forall M, Forall (fun r => (totalColumns r <= M)%nat) result ->
                Forall (fun r => (totalColumns r <= M)%nat) result')
  /\ (sumTotalColumns result < sumTotalColumns result')%nat.
Proof.
  intros (i & j & a & b & Hij & Ha & Hb & Hne & ->).
  set (m := Nat.max (totalColumns a) (totalColumns b)) in *.
  assert (Hb' : <[i := setTotalColumns m a]> result !! j = Some b).
  { now rewrite list_lookup_insert_ne. }
  split; [|split; [|split]].
  - rewrite insert_setTotalColumns_skel by exact Hb'.
    now apply insert_setTotalColumns_skel.
  - intros Hall.
    pose proof (proj1 (Forall_lookup _ _) Hall i a Ha) as Hca.
    pose proof (proj1 (Forall_lookup _ _) Hall j b Hb) as Hcb.
    apply Forall_insert; [apply Forall_insert; [exact Hall|]|];
      unfold colLt in *; cbn [column totalColumns setTotalColumns]; lia.
  - intros M Hall.
    pose proof (proj1 (Forall_lookup _ _) Hall i a Ha) as Hca.
    pose proof (proj1 (Forall_lookup _ _) Hall j b Hb) as Hcb.
    cbv beta in Hca, Hcb.
    apply Forall_insert; [apply Forall_insert; [exact Hall|]|];
      cbn [totalColumns setTotalColumns]; lia.
  - pose proof (sumTotalColumns_insert result i a (setTotalColumns m a) Ha) as H1.
    pose proof (sumTotalColumns_insert _ j b (setTotalColumns m b) Hb') as H2.
    cbn [totalColumns setTotalColumns] in H1, H2. lia.
Qed.

Lemma nested_loops_flat (idxs jdxs : list nat) :
  forall st : list EventWithLayout * bool,
    foldl (fun st i => foldl (fun st' j => thirdPassStep st' (i, j)) st jdxs) st idxs
    = foldl thirdPassStep st (pairsOf idxs jdxs).
Proof.
  induction idxs as [|i idxs IH]; intros st; [reflexivity|].
  cbn [foldl pairsOf flat_map]. rewrite foldl_app. fold (pairsOf idxs jdxs).
  rewrite <- IH. f_equal.
  clear IH. revert st. induction jdxs as [|j jdxs IHj]; intros st; [reflexivity|].
  cbn [foldl map]. apply IHj.
Qed.

Lemma elem_of_pairsOf (idxs jdxs : list nat) (i j : nat) :
  i ∈ idxs -> j ∈ jdxs -> (i, j) ∈ pairsOf idxs jdxs.
Proof.
  intros Hi Hj. unfold pairsOf. rewrite list_elem_of_In. apply in_flat_map.
  exists i. split; [now apply list_elem_of_In|].
  apply in_map. now apply list_elem_of_In.
Qed.

(** One run over a list of pairs: nothing but [totalColumns] changes, no
    value decreases or passes an upper bound; if the flag stays down nothing
    changed and every pair agreed; if it goes up the sum has grown. *)
Lemma thirdPass_fold (ps : list (nat * nat)) :
  forall (result : list EventWithLayout) (changed : bool),
    let st' := foldl thirdPassStep (result, changed) ps in
    skel <$> fst st' = skel <$> result
    /\ (Forall colLt result -> Forall colLt (fst st'))
    /\ (forall M, Forall (fun r => (totalColumns r <= M)%nat) result ->
                  Forall (fun r => (totalColumns r <= M)%nat) (fst st'))
    /\ (sumTotalColumns result <= sumTotalColumns (fst st'))%nat
    /\ (snd st' = false ->
          changed = false /\ fst st' = result /\ forall p, p ∈ ps -> pairOk result p)
    /\ (snd st' = true ->
          changed = true \/ (sumTotalColumns result < sumTotalColumns (fst st'))%nat).
Proof.
  induction ps as [|p ps IH]; intros result changed; cbv zeta.
  - cbn [foldl fst snd].
    split; [reflexivity|]. split; [auto|]. split; [auto|]. split; [lia|].
    split.
    + intros ->. split; [reflexivity|]. split; [reflexivity|].
      intros p Hp. now apply elem_of_nil in Hp.
    + intros ->. now left.
  - cbn [foldl].
    destruct (thirdPassStep_cases result changed p) as [[-> Hok]|(r1 & -> & Hr)].
    + destruct (IH result changed) as (H1 & H2 & H3 & H4 & H5 & H6).
      cbv zeta in *.
      split; [exact H1|]. split; [exact H2|]. split; [exact H3|]. split; [exact H4|].
      split; [|exact H6].
      intros Hf. destruct (H5 Hf) as (Hc & Hres & Hps).
      split; [exact Hc|]. split; [exact Hres|].
      intros q Hq. apply elem_of_cons in Hq as [->|Hq]; [exact Hok|now apply Hps].
    + destruct (raised_spec _ _ Hr) as (R1 & R2 & R3 & R4).
      destruct (IH r1 true) as (H1 & H2 & H3 & H4 & H5 & H6).
      cbv zeta in *.
      split; [now rewrite H1|]. split; [auto|]. split; [auto|]. split; [lia|].
      split.
      * intros Hf. destruct (H5 Hf) as (Hc & _). discriminate.
      * intros _. right. lia.
Qed.

Lemma thirdPassSweep_spec (result : list EventWithLayout) :
  let st' := thirdPassSweep result in
  skel <$> fst st' = skel <$> result
  /\ (Forall colLt result -> Forall colLt (fst st'))
  /\ (forall M, Forall (fun r => (totalColumns r <= M)%nat) result ->
                Forall (fun r => (totalColumns r <= M)%nat) (fst st'))
  /\ (snd st' = false -> fst st' = result /\ stable result)
  /\ (snd st' = true -> (sumTotalColumns result < sumTotalColumns (fst st'))%nat).
Proof.
  cbv zeta. unfold thirdPassSweep. rewrite nested_loops_flat.
  destruct (thirdPass_fold (pairsOf (seq 0 (length result)) (seq 0 (length result)))
              result false) as (H1 & H2 & H3 & _ & H5 & H6).
  cbv zeta in *.
  split; [exact H1|]. split; [exact H2|]. split; [exact H3|]. split.
  - intros Hf. destruct (H5 Hf) as (_ & Hres & Hps). split; [exact Hres|].
    intros i j a b Hij Ha Hb Hov.
    apply (Hps (i, j)); auto.
    apply elem_of_pairsOf; apply elem_of_seq.
    + apply lookup_lt_Some in Ha. lia.
    + apply lookup_lt_Some in Hb. lia.
  - intros Ht. destruct (H6 Ht) as [Hc|Hlt]; [discriminate|exact Hlt].
Qed.

(** The third pass returns within the iterations granted, and what it
    returns is stable. *)
Lemma thirdPass_terminates (fuel : nat) :
  forall (result : list EventWithLayout) (M : nat),
    Forall (fun r => (totalColumns r <= M)%nat) result ->
    (length result * M < fuel + sumTotalColumns result)%nat ->
    exists result',
      thirdPass fuel result = Some result'
      /\ skel <$> result' = skel <$> result
      /\ (Forall colLt result -> Forall colLt result')
      /\ stable result'.
Proof.
  induction fuel as [|fuel IH]; intros result M HM Hfuel.
  - pose proof (sumTotalColumns_bound result M HM). lia.
  - cbn [thirdPass].
    destruct (thirdPassSweep_spec result) as (H1 & H2 & H3 & H4 & H5).
    cbv zeta in *.
    destruct (thirdPassSweep result) as [result1 [|]]; cbn [fst snd] in *.
    + specialize (H5 eq_refl).
      destruct (IH result1 M (H3 M HM)) as (result' & E & S1 & S2 & S3).
      { rewrite (skel_length _ _ H1). lia. }
      exists result'. split; [exact E|]. split; [now rewrite S1|]. split; [auto|exact S3].
    + destruct (H4 eq_refl) as [-> Hst].
      exists result. auto.
Qed.

Lemma thirdPass_spec (result : list EventWithLayout) :
  exists result',
    thirdPass (thirdPassFuel result) result = Some result'
    /\ skel <$> result' = skel <$> result
    /\ (Forall colLt result -> Forall colLt result')
    /\ stable result'.
Proof.
  apply (thirdPass_terminates _ result (max_list (map totalColumns result))).
  - apply Forall_forall. intros r Hr. apply max_list_elem_of_le.
    apply list_elem_of_In, in_map, list_elem_of_In, Hr.
  - unfold thirdPassFuel. lia.
Qed.

Lemma onlyRaised_refl (l : list EventWithLayout) : onlyRaised l l.
Proof. apply Forall2_same_length_lookup. split; [reflexivity|]. intros i x y Hx Hy.
  rewrite Hx in Hy. injection Hy as <-. auto. Qed.

Lemma onlyRaised_trans (l1 l2 l3 : list EventWithLayout) :
  onlyRaised l1 l2 -> onlyRaised l2 l3 -> onlyRaised l1 l3.
Proof.
  unfold onlyRaised. intros H12 H23.
  eapply Forall2_trans; [|exact H12|exact H23].
  intros x y z [E1 L1] [E2 L2]. split; [congruence|lia].
Qed.

Lemma raised_onlyRaised (result result' : list EventWithLayout) :
  raised result result' -> onlyRaised result result'.
Proof.
  intros (i & j & a & b & Hij & Ha & Hb & _ & ->).
  set (m := Nat.max (totalColumns a) (totalColumns b)).
  rewrite <- (list_insert_id result i a Ha) at 1.
  rewrite <- (list_insert_id (<[i := a]> result) j b) at 1
    by (now rewrite list_lookup_insert_ne).
  apply Forall2_insert; [apply Forall2_insert; [apply onlyRaised_refl|]|];
    (split; [reflexivity|]); cbn [totalColumns setTotalColumns]; lia.
Qed.

Lemma thirdPass_fold_onlyRaised (ps : list (nat * nat)) :
  forall (result : list EventWithLayout) (changed : bool),
    onlyRaised result (fst (foldl thirdPassStep (result, changed) ps)).
Proof.
  induction ps as [|p ps IH]; intros result changed; [apply onlyRaised_refl|].
  cbn [foldl].
  destruct (thirdPassStep_cases result changed p) as [[-> _]|(r1 & -> & Hr)].
  - apply IH.
  - eapply onlyRaised_trans; [apply raised_onlyRaised, Hr|apply IH].
Qed.

Lemma thirdPass_only_raises (fuel : nat) :
  forall result result' : list EventWithLayout,
    thirdPass fuel result = Some result' -> onlyRaised result result'.
Proof.
  induction fuel as [|fuel IH]; intros result result' H; [discriminate|].
  cbn [thirdPass] in H.
  pose proof (thirdPass_fold_onlyRaised
                (pairsOf (seq 0 (length result)) (seq 0 (length result)))
                result false) as Hsweep.
  rewrite <- nested_loops_flat in Hsweep. fold (thirdPassSweep result) in Hsweep.
  destruct (thirdPassSweep result) as [result1 [|]]; cbn [fst] in Hsweep.
  - eapply onlyRaised_trans; [exact Hsweep|now apply IH].
  - now injection H as <-.
Qed.

(** *** The whole layout *)

Lemma toPos_skel (l l' : list EventWithLayout) :
  skel <$> l = skel <$> l' -> map toPos l = map toPos l'.
Proof.
  intros H.
  assert (E : forall k : list EventWithLayout,
             map toPos k = map (fun s => mkPos s.1.1.1 s.1.1.2 s.1.2) (skel <$> k)).
  { induction k as [|r k IH]; [reflexivity|]. cbn. now rewrite IH. }
  now rewrite !E, H.
Qed.

(** [calculateEventLayout] always returns: the elements are the events
    with their positions, sorted by start; overlapping elements have
    different columns; every column is below its [totalColumns]; and
    overlapping elements agree on [totalColumns]. *)
Lemma calculateEventLayout_spec (events : list CalendarEvent) (currentDate : Date) :
  exists layout,
    calculateEventLayout events currentDate = Some layout
    /\ map toPos layout = sortByTop (positioned events currentDate)
    /\ distinctColumns layout
    /\ Forall colLt layout
    /\ stable layout.
Proof.
  unfold calculateEventLayout.
  destruct events as [|ev0 events0].
  { exists []. split; [reflexivity|]. split; [reflexivity|].
    split; [intros i j a b _ Ha; now rewrite lookup_nil in Ha|].
    split; [constructor|].
    intros i j a b _ Ha. now rewrite lookup_nil in Ha. }
  set (events := ev0 :: events0).
  change (length events =? 0)%nat with false. cbv iota.
  fold (positioned events currentDate).
  destruct (firstPass_spec (sortByTop (positioned events currentDate))
              (sortByTop_sorted _)) as (active & result & Hfp & Hpos & Hdis).
  rewrite Hfp. cbn [mbind option_bind].
  destruct (secondPass_spec result) as [Hs2 Hc2].
  destruct (thirdPass_spec (secondPass result)) as (layout & Htp & Hs3 & Hc3 & Hst).
  exists layout. split; [exact Htp|].
  assert (Hs : skel <$> layout = skel <$> result) by now rewrite Hs3.
  split; [now rewrite (toPos_skel _ _ Hs)|].
  split; [|split; [auto|exact Hst]].
  apply (skel_distinctColumns result layout); [now symmetry|].
  now apply sweepDistinct_distinctColumns.
Qed.

Lemma layout_events (events : list CalendarEvent) (currentDate : Date)
  (layout : list EventWithLayout) :
  map toPos layout = sortByTop (positioned events currentDate) ->
  map event layout ≡ₚ events
  /\ forall r, r ∈ layout -> (top r, height r) = getEventPosition (event r) currentDate.
Proof.
  intros H. split.
  - assert (E : map event layout = map p_event (map toPos layout)).
    { rewrite map_map. reflexivity. }
    rewrite E, H.
    change (map p_event (sortByTop (positioned events currentDate)))
      with (p_event <$> sortByTop (positioned events currentDate)).
    rewrite sortByTop_perm.
    unfold positioned. clear. induction events as [|ev events IH]; [reflexivity|].
    cbn. destruct (getEventPosition ev currentDate). cbn. now rewrite IH.
  - intros r Hr.
    assert (Hin : toPos r ∈ sortByTop (positioned events currentDate)).
    { rewrite <- H. apply list_elem_of_In, in_map, list_elem_of_In, Hr. }
    rewrite sortByTop_perm in Hin. unfold positioned in Hin.
    apply list_elem_of_In, in_map_iff in Hin as (ev & Hev & _).
    destruct (getEventPosition ev currentDate) as [t h] eqn:E.
    unfold toPos in Hev. injection Hev as <- <- <-. now rewrite E.
Qed.

(** For an event that ends on the day it starts, the range the layout
    compares is in minutes of the day: from the start to the end, or to 20
    minutes after the start if the event is shorter. *)
Lemma getEventPosition_same_day (ev : CalendarEvent) (currentDate e : Date) :
  endDate ev = Some e -> isSameDay (date ev) e = true ->
  (fst (getEventPosition ev currentDate)
   == inject_Z (getHours (date ev) * 60 + getMinutes (date ev)))%Q
  /\ (snd (getEventPosition ev currentDate)
      == Qmax (inject_Z (differenceInMinutes e (date ev))) 20)%Q.
Proof.
  intros He Hsame. unfold getEventPosition. rewrite He, Hsame. cbn [negb fst snd].
  unfold HOUR_HEIGHT. split.
  - rewrite inject_Z_plus, inject_Z_mult. change (inject_Z 60) with 60%Q. field.
  - apply Q.max_compat; [field|reflexivity].
Qed.

(** C10: every element the layout returns has [0 <= column] and
    [column < totalColumns] (the second pass sets [totalColumns] above the
    element's own column and the third pass only raises it), so its slice,
    at [column * (100 / totalColumns)] percent and [100 / totalColumns]
    percent wide, lies within [0, 100]. *)
Theorem C10_column_below_totalColumns (events : list CalendarEvent) (currentDate : Date) :
  (exists layout,
     calculateEventLayout events currentDate = Some layout
     /\ forall r, r ∈ layout ->
          (0 <= column r)%nat /\ (column r < totalColumns r)%nat
          /\ (0 <= leftPercent (column r) (totalColumns r))%Q
          /\ (leftPercent (column r) (totalColumns r) + widthPercent (totalColumns r)
              <= 100)%Q)
  /\ (forall result r, r ∈ secondPass result -> (column r + 1 <= totalColumns r)%nat)
  /\ (forall fuel result result' i r r',
        thirdPass fuel result = Some result' ->
        result !! i = Some r -> result' !! i = Some r' ->
        column r' = column r /\ (totalColumns r <= totalColumns r')%nat).
Proof.
  split; [|split].
  2:{ intros result r Hr.
      pose proof (proj1 (Forall_forall _ _) (proj2 (secondPass_spec result)) r Hr) as H.
      unfold colLt in H. lia. }
  2:{ intros fuel result result' i r r' Htp Hr Hr'.
      pose proof (thirdPass_only_raises fuel result result' Htp) as Hraise.
      destruct (Forall2_lookup_lr _ _ _ i r r' Hraise Hr Hr') as [Hs Hle].
      split; [|exact Hle]. unfold skel in Hs. now injection Hs. }
  destruct (calculateEventLayout_spec events currentDate)
    as (layout & Hl & _ & _ & Hcol & _).
  exists layout. split; [exact Hl|]. intros r Hr.
  pose proof (proj1 (Forall_forall _ _) Hcol r Hr) as Hlt. unfold colLt in Hlt.
  split; [lia|]. split; [exact Hlt|].
  unfold leftPercent, widthPercent.
  set (c := inject_Z (Z.of_nat (column r))).
  set (t := inject_Z (Z.of_nat (totalColumns r))).
  assert (Hc : (0 <= c)%Q) by (unfold c; rewrite <- (Zle_Qle 0); lia).
  assert (Hct : (c + 1 <= t)%Q).
  { unfold c, t. change 1%Q with (inject_Z 1). rewrite <- inject_Z_plus, <- Zle_Qle. lia. }
  assert (Ht : (0 < t)%Q) by lra.
  assert (Hw : (0 < 100 / t)%Q).
  { apply Qlt_shift_div_l; [exact Ht|lra]. }
  split.
  - apply Qmult_le_0_compat; [exact Hc|lra].
  - assert (E : (c * (100 / t) + 100 / t == (c + 1) * (100 / t))%Q) by ring.
    rewrite E.
    assert (E2 : (t * (100 / t) == 100)%Q) by (field; lra).
    apply Qle_trans with (t * (100 / t))%Q.
    + apply Qmult_le_compat_r; [exact Hct|lra].
    + rewrite E2. lra.
Qed.

(** C3: after the third pass all members of a transitively connected
    overlap cluster have the same [totalColumns]; the three events
    09:00-10:00, 09:00-10:00 and 09:30-10:30 get the columns 0, 1, 2 and
    [totalColumns = 3] each. *)
Theorem C3_cluster_shares_totalColumns :
  (forall (events : list CalendarEvent) (currentDate : Date),
     exists layout,
       calculateEventLayout events currentDate = Some layout
       /\ forall i j a b,
            sameCluster layout i j ->
            layout !! i = Some a -> layout !! j = Some b ->
            totalColumns a = totalColumns b)
  /\ columnsOf (calculateEventLayout
                  [timed "a" 9 0 10 0; timed "b" 9 0 10 0; timed "c" 9 30 10 30]
                  (mk 2025 1 15 0 0))
     = Some [("a"%string, 0%nat, 3%nat); ("b"%string, 1%nat, 3%nat);
             ("c"%string, 2%nat, 3%nat)].
Proof.
  split; [|vm_compute; reflexivity].
  intros events currentDate.
  destruct (calculateEventLayout_spec events currentDate)
    as (layout & Hl & _ & _ & _ & Hst).
  exists layout. split; [exact Hl|].
  intros i j a b Hc. revert a b.
  induction Hc as [i|i k j (a0 & c & Hik & Ha0 & Hc0 & Hov) _ IH]; intros a b Ha Hb.
  - congruence.
  - rewrite Ha0 in Ha. injection Ha as ->.
    rewrite (Hst i k a c Hik Ha0 Hc0 Hov).
    now apply IH.
Qed.

(** Scenario C, and a chain: "a" overlaps "b", "b" overlaps "c", "a" does
    not overlap "c"; "d" joins "c" in column 0 and widens the cluster. *)
Example two_overlapping_events :
  columnsOf (calculateEventLayout [timed "a" 9 0 10 0; timed "b" 9 30 10 30]
                                  (mk 2025 1 15 0 0))
  = Some [("a"%string, 0%nat, 2%nat); ("b"%string, 1%nat, 2%nat)].
Proof. vm_compute. reflexivity. Qed.

Example chain_of_overlaps :
  columnsOf (calculateEventLayout
               [timed "a" 9 0 10 0; timed "b" 9 30 11 0; timed "c" 10 0 12 0;
                timed "d" 10 30 11 30; timed "e" 13 0 14 0]
               (mk 2025 1 15 0 0))
  = Some [("a"%string, 0%nat, 3%nat); ("b"%string, 1%nat, 3%nat);
          ("c"%string, 0%nat, 3%nat); ("d"%string, 2%nat, 3%nat);
          ("e"%string, 0%nat, 1%nat)].
Proof. vm_compute. reflexivity. Qed.

End LayoutFacts.

(** ** Overlap layout: what the columns look like *)

Module LayoutMoreFacts.
Import JS JSFacts JSDate DateFns Calendar DayView.
Import LayoutDefs LayoutFacts LayoutMoreDefs.

Lemma firstPassStep_fit (T : Q) (st : list ActiveEvent * list EventWithLayout)
  (i : nat) (e : EventWithPos) :
  firstFitInv T st -> (T <= p_top e)%Q ->
  exists st', firstPassStep st i e = Some st' /\ firstFitInv (p_top e) st'.
Proof.
  destruct st as [active result]. intros (Htop & Hact & Hfit) HT. cbn [fst snd] in *.
  unfold firstPassStep.
  set (stillActive := List.filter (fun ae => ltb (p_top e) (endPos ae)) active).
  set (occupied := list_to_set (map a_column stillActive) : gset nat).
  destruct (firstAvailable_total occupied) as (c & Hc & _ & Hbelow).
  rewrite Hc. cbn [mbind option_bind].
  eexists. split; [reflexivity|].
  unfold firstFitInv. cbn [fst snd].
  set (new := mkLayout (p_event e) (p_top e) (p_height e) c 1).
  split; [|split].
  - intros r Hr. apply elem_of_app in Hr as [Hr|Hr].
    + specialize (Htop r Hr). lra.
    + apply list_elem_of_singleton in Hr as ->. simpl. lra.
  - intros ae Hae. apply elem_of_app in Hae as [Hae|Hae].
    + apply elem_of_filter_ltb in Hae as [Hae _].
      destruct (Hact ae Hae) as (j & r & Hj & He).
      exists j, r. split; [|exact He].
      rewrite lookup_app_l; [exact Hj|]. now apply lookup_lt_Some in Hj.
    + apply list_elem_of_singleton in Hae as ->.
      exists (length result), new.
      split; [|split; reflexivity].
      rewrite lookup_app_r, Nat.sub_diag by lia. reflexivity.
  - intros i0 a k Ha Hk.
    destruct (decide (i0 < length result)%nat) as [Hi|Hi].
    + rewrite lookup_app_l in Ha by lia.
      destruct (Hfit i0 a k Ha Hk) as (j & b & Hj & Hb & Hrest).
      exists j, b. split; [exact Hj|]. split; [|exact Hrest].
      rewrite lookup_app_l; [exact Hb|lia].
    + assert (i0 = length result) as ->.
      { apply lookup_lt_Some in Ha. rewrite length_app in Ha. simpl in Ha. lia. }
      rewrite lookup_app_r, Nat.sub_diag in Ha by lia.
      injection Ha as <-. cbn [column top new] in *.
      pose proof (Hbelow k Hk) as Hocc.
      apply elem_of_map_column in Hocc as (ae & Hae & Hcol).
      apply elem_of_filter_ltb in Hae as [Hae Hlt].
      destruct (Hact ae Hae) as (j & r & Hj & He & Hcr).
      exists j, r. split; [now apply lookup_lt_Some in Hj|].
      split; [rewrite lookup_app_l; [exact Hj|now apply lookup_lt_Some in Hj]|].
      split; [congruence|].
      split; [|now rewrite <- He].
      specialize (Htop r (list_elem_of_lookup_2 _ _ _ Hj)). lra.
Qed.

Lemma firstPass_fit (l : list EventWithPos) :
  forall (i : nat) (st : list ActiveEvent * list EventWithLayout) (T : Q),
    StronglySorted topLe l ->
    Forall (fun e => (T <= p_top e)%Q) l ->
    firstFitInv T st ->
    exists st', firstPass i l st = Some st' /\ firstFit (snd st').
Proof.
  induction l as [|e rest IH]; intros i st T Hs HT Hinv.
  - exists st. split; [reflexivity|apply Hinv].
  - apply StronglySorted_inv in Hs as [Hs He].
    apply Forall_cons in HT as [HTe _].
    destruct (firstPassStep_fit T st i e Hinv HTe) as (st1 & Hstep & Hinv1).
    destruct (IH (S i) st1 (p_top e) Hs He Hinv1) as (st' & Hfp & Hfit).
    exists st'. cbn [firstPass]. rewrite Hstep. cbn [mbind option_bind]. auto.
Qed.

Lemma firstFit_skel (l l' : list EventWithLayout) :
  skel <$> l = skel <$> l' -> firstFit l -> firstFit l'.
Proof.
  intros Hs Hf i a' k Ha' Hk.
  destruct (skel_lookup l l' i a' Hs Ha') as (a & Ha & Hsa).
  assert (Hca : column a = column a') by (unfold skel in Hsa; congruence).
  destruct (Hf i a k Ha ltac:(lia)) as (j & b & Hj & Hb & Hcb & H1 & H2).
  assert (Hlen : (j < length l')%nat).
  { rewrite <- (skel_length _ _ Hs). now apply lookup_lt_Some in Hb. }
  destruct (lookup_lt_is_Some_2 _ _ Hlen) as [b' Hb'].
  destruct (skel_lookup l l' j b' Hs Hb') as (b0 & Hb0 & Hsb).
  rewrite Hb in Hb0. injection Hb0 as <-.
  exists j, b'. split; [exact Hj|]. split; [exact Hb'|].
  assert (Ea : top a = top a') by (unfold skel in Hsa; congruence).
  assert (Eb1 : top b = top b') by (unfold skel in Hsb; congruence).
  assert (Eb2 : height b = height b') by (unfold skel in Hsb; congruence).
  assert (Eb3 : column b = column b') by (unfold skel in Hsb; congruence).
  unfold endOf in *. rewrite <- Ea, <- Eb1, <- Eb2, <- Eb3. auto.
Qed.

(** The layout returned is first fit. *)
Lemma calculateEventLayout_firstFit (events : list CalendarEvent) (currentDate : Date)
  (layout : list EventWithLayout) :
  calculateEventLayout events currentDate = Some layout -> firstFit layout.
Proof.
  unfold calculateEventLayout.
  destruct events as [|ev0 events0].
  { intros [= <-] i a k Ha. now rewrite lookup_nil in Ha. }
  set (events := ev0 :: events0).
  change (length events =? 0)%nat with false. cbv iota.
  fold (positioned events currentDate).
  set (sorted := sortByTop (positioned events currentDate)).
  assert (Hinit : forall T, firstFitInv T ([], [])).
  { intros T. split; [|split].
    - intros r Hr. now apply elem_of_nil in Hr.
    - intros ae Hae. now apply elem_of_nil in Hae.
    - intros i a k Ha. cbn [snd] in Ha. now rewrite lookup_nil in Ha. }
  assert (exists T, Forall (fun e => (T <= p_top e)%Q) sorted) as [T HT].
  { pose proof (sortByTop_sorted (positioned events currentDate)) as Hs.
    fold sorted in Hs. destruct sorted as [|e rest]; [exists 0%Q; constructor|].
    exists (p_top e). apply StronglySorted_inv in Hs as [_ He].
    constructor; [lra|exact He]. }
  destruct (firstPass_fit sorted 0 ([], []) T (sortByTop_sorted _) HT (Hinit T))
    as ([active result] & Hfp & Hfit).
  rewrite Hfp. cbn [mbind option_bind snd] in *.
  intros Htp.
  destruct (secondPass_spec result) as [Hs2 _].
  pose proof (thirdPass_only_raises _ _ _ Htp) as Hraise.
  assert (Hs3 : skel <$> secondPass result = skel <$> layout).
  { clear -Hraise. induction Hraise as [|x y l k [Hx _] _ IH]; [reflexivity|].
    cbn. now rewrite Hx, IH. }
  apply (firstFit_skel result layout); [now rewrite <- Hs3|exact Hfit].
Qed.


(** X1: the layout is first fit.  An element is in column [c] only when each
    of the columns [0 .. c-1] holds an earlier element that is still
    running at its start; so no more columns are used than events run at
    one time. *)
Theorem layout_is_first_fit (events : list CalendarEvent) (currentDate : Date) :
  exists layout,
    calculateEventLayout events currentDate = Some layout
    /\ forall i a k,
         layout !! i = Some a -> (k < column a)%nat ->
         exists j b,
           (j < i)%nat /\ layout !! j = Some b /\ column b = k
           /\ (top b <= top a)%Q /\ (top a < top b + height b)%Q.
Proof.
  destruct (calculateEventLayout_spec events currentDate) as (layout & Hl & _).
  exists layout. split; [exact Hl|].
  exact (calculateEventLayout_firstFit events currentDate layout Hl).
Qed.

Lemma slice_order (c1 c2 t : nat) :
  (c1 < c2)%nat -> (c2 < t)%nat ->
  (leftPercent c1 t + widthPercent t <= leftPercent c2 t)%Q.
Proof.
  intros H12 H2t. unfold leftPercent, widthPercent.
  set (q := (100 / inject_Z (Z.of_nat t))%Q).
  assert (Ht : (0 < inject_Z (Z.of_nat t))%Q).
  { rewrite <- (Zlt_Qlt 0). lia. }
  assert (Hq : (0 < q)%Q) by (apply Qlt_shift_div_l; [exact Ht|lra]).
  assert (Hc : (inject_Z (Z.of_nat c1) + 1 <= inject_Z (Z.of_nat c2))%Q).
  { change 1%Q with (inject_Z 1). rewrite <- inject_Z_plus, <- Zle_Qle. lia. }
  assert (E : (inject_Z (Z.of_nat c1) * q + q == (inject_Z (Z.of_nat c1) + 1) * q)%Q)
    by ring.
  rewrite E. apply Qmult_le_compat_r; [exact Hc|lra].
Qed.


Lemma StronglySorted_lookup_le {A} (R : A -> A -> Prop) (l : list A) :
  StronglySorted R l ->
  forall i j x y, (i < j)%nat -> l !! i = Some x -> l !! j = Some y -> R x y.
Proof.
  induction 1 as [|a l Hs IH Ha]; intros i j x y Hij Hx Hy.
  - now rewrite lookup_nil in Hx.
  - destruct j as [|j]; [lia|]. cbn in Hy.
    destruct i as [|i].
    + cbn in Hx. injection Hx as <-.
      exact (proj1 (Forall_forall _ _) Ha y (list_elem_of_lookup_2 _ _ _ Hy)).
    + cbn in Hx. apply (IH i j); [lia|exact Hx|exact Hy].
Qed.

Lemma filter_map_event (t : Q) (layout : list EventWithLayout) :
  map event (List.filter (fun r => Qeq_bool (top r) t) layout)
  = map p_event (List.filter (fun e => Qeq_bool (p_top e) t) (map toPos layout)).
Proof.
  induction layout as [|r layout IH]; [reflexivity|].
  cbn [map List.filter toPos p_top].
  destruct (Qeq_bool (top r) t); cbn [map p_event]; now rewrite IH.
Qed.

Lemma filter_positioned (t : Q) (events : list CalendarEvent) (currentDate : Date) :
  map p_event (List.filter (fun e => Qeq_bool (p_top e) t) (positioned events currentDate))
  = List.filter (fun ev => Qeq_bool (fst (getEventPosition ev currentDate)) t) events.
Proof.
  unfold positioned. induction events as [|ev events IH]; [reflexivity|].
  cbn [map List.filter]. destruct (getEventPosition ev currentDate) as [t0 h0].
  cbn [p_top fst]. destruct (Qeq_bool t0 t); cbn [map p_event]; now rewrite IH.
Qed.

(** X3: the layout lists the events by start, earliest first, and events
    with the same start stay in the order they were given. *)
Theorem layout_is_sorted_and_stable (events : list CalendarEvent) (currentDate : Date) :
  exists layout,
    calculateEventLayout events currentDate = Some layout
    /\ (forall i j a b,
          (i < j)%nat -> layout !! i = Some a -> layout !! j = Some b ->
          (top a <= top b)%Q)
    /\ (forall t : Q,
          map event (List.filter (fun r => Qeq_bool (top r) t) layout)
          = List.filter (fun ev => Qeq_bool (fst (getEventPosition ev currentDate)) t)
                        events).
Proof.
  destruct (calculateEventLayout_spec events currentDate) as (layout & Hl & Hpos & _).
  exists layout. split; [exact Hl|]. split.
  - intros i j a b Hij Ha Hb.
    pose proof (sortByTop_sorted (positioned events currentDate)) as Hs.
    rewrite <- Hpos in Hs.
    apply (StronglySorted_lookup_le topLe _ Hs i j (toPos a) (toPos b) Hij).
    + change (map toPos layout) with (toPos <$> layout).
      now rewrite list_lookup_fmap, Ha.
    + change (map toPos layout) with (toPos <$> layout).
      now rewrite list_lookup_fmap, Hb.
  - intros t. rewrite filter_map_event, Hpos, sortByTop_stable.
    apply filter_positioned.
Qed.


(** *** The width of a cluster *)

Lemma overlapAt_skel (l l' : list EventWithLayout) (i j : nat) :
  skel <$> l = skel <$> l' -> overlapAt l i j -> overlapAt l' i j.
Proof.
  intros Hs (a & b & Hij & Ha & Hb & Hov).
  assert (Hi : (i < length l')%nat).
  { rewrite <- (skel_length _ _ Hs). now apply lookup_lt_Some in Ha. }
  assert (Hj : (j < length l')%nat).
  { rewrite <- (skel_length _ _ Hs). now apply lookup_lt_Some in Hb. }
  destruct (lookup_lt_is_Some_2 _ _ Hi) as [a' Ha'].
  destruct (lookup_lt_is_Some_2 _ _ Hj) as [b' Hb'].
  destruct (skel_lookup l l' i a' Hs Ha') as (a0 & Ha0 & Hsa).
  destruct (skel_lookup l l' j b' Hs Hb') as (b0 & Hb0 & Hsb).
  rewrite Ha in Ha0. injection Ha0 as <-. rewrite Hb in Hb0. injection Hb0 as <-.
  exists a', b'. split; [exact Hij|]. split; [exact Ha'|]. split; [exact Hb'|].
  fold (overlap a' b'). rewrite <- (overlap_skel a a' b b' Hsa Hsb). exact Hov.
Qed.

Lemma sameCluster_skel (l l' : list EventWithLayout) (i j : nat) :
  skel <$> l = skel <$> l' -> sameCluster l i j -> sameCluster l' i j.
Proof.
  intros Hs Hc. induction Hc as [i|i k j Hik _ IH]; [apply rtc_refl|].
  eapply rtc_l; [|exact IH]. now apply (overlapAt_skel l l').
Qed.

Lemma stable_cluster (layout : list EventWithLayout) :
  stable layout ->
  forall i j a b,
    sameCluster layout i j -> layout !! i = Some a -> layout !! j = Some b ->
    totalColumns a = totalColumns b.
Proof.
  intros Hst i j a b Hc. revert a b.
  induction Hc as [i|i k j (a0 & c & Hik & Ha0 & Hc0 & Hov) _ IH]; intros a b Ha Hb.
  - congruence.
  - rewrite Ha0 in Ha. injection Ha as ->.
    rewrite (Hst i k a c Hik Ha0 Hc0 Hov). now apply IH.
Qed.

(** The inner loop of the second pass returns the column of the element
    itself or of one that overlaps it. *)
Lemma maxColumnOf_attained (result : list EventWithLayout) (i : nat)
  (current : EventWithLayout) :
  result !! i = Some current ->
  exists k rk,
    result !! k = Some rk
    /\ (k = i \/ (k <> i /\ overlap current rk = true))
    /\ maxColumnOf result i current = column rk.
Proof.
  intros Hi. unfold maxColumnOf.
  generalize (seq 0 (length result)) as js.
  assert (Hinit : exists k rk,
             result !! k = Some rk
             /\ (k = i \/ (k <> i /\ overlap current rk = true))
             /\ column current = column rk).
  { exists i, current. auto. }
  revert Hinit. generalize (column current) as m.
  intros m Hm js. revert m Hm. induction js as [|j js IH]; intros m Hm; [exact Hm|].
  cbn [foldl]. apply IH.
  destruct (Nat.eqb_spec i j) as [->|Hij]; [exact Hm|].
  destruct (result !! j) as [other|] eqn:Ej; [|exact Hm].
  fold (overlap current other).
  destruct (overlap current other) eqn:Eo; [|exact Hm].
  destruct (Nat.max_spec m (column other)) as [[_ ->]|[_ ->]]; [|exact Hm].
  exists j, other. split; [exact Ej|]. split; [right; split; [congruence|exact Eo]|reflexivity].
Qed.

Lemma maxColumnOf_skel (l l' : list EventWithLayout) (i : nat)
  (r r' : EventWithLayout) :
  skel <$> l = skel <$> l' -> skel r = skel r' ->
  maxColumnOf l i r = maxColumnOf l' i r'.
Proof.
  intros Hs Hr. unfold maxColumnOf. rewrite (skel_length _ _ Hs).
  assert (Hc : column r = column r') by (unfold skel in Hr; congruence).
  rewrite Hc. generalize (column r') as m. generalize (seq 0 (length l')) as js.
  induction js as [|j js IH]; intros m; [reflexivity|].
  cbn [foldl]. rewrite <- IH. f_equal.
  destruct (i =? j)%nat; [reflexivity|].
  destruct (l' !! j) as [o'|] eqn:Eo'.
  - destruct (skel_lookup l l' j o' Hs Eo') as (o & Eo & Hso). rewrite Eo.
    fold (overlap r o) (overlap r' o'). rewrite (overlap_skel r r' o o' Hr Hso).
    assert (column o = column o') by (unfold skel in Hso; congruence).
    destruct (overlap r' o'); congruence.
  - assert (l !! j = None) as ->; [|reflexivity].
    apply lookup_ge_None. rewrite (skel_length _ _ Hs). now apply lookup_ge_None.
Qed.

Lemma estimated_skel (base : list EventWithLayout) (i : nat) (r r' : EventWithLayout) :
  skel r = skel r' -> totalColumns r = totalColumns r' ->
  estimated base i r -> estimated base i r'.
Proof.
  intros Hs Ht (k & rk & Hk & Hor & Htc).
  exists k, rk. split; [exact Hk|]. split; [|congruence].
  destruct Hor as [->|[Hne Hov]]; [now left|]. right. split; [exact Hne|].
  now rewrite <- (overlap_skel r r' rk rk Hs eq_refl).
Qed.

Lemma secondPassStep_estimated (base cur : list EventWithLayout) (j i : nat)
  (r : EventWithLayout) :
  skel <$> cur = skel <$> base ->
  secondPassStep cur j !! i = Some r ->
  (i = j \/ exists r0, cur !! i = Some r0 /\ estimated base i r0) ->
  estimated base i r.
Proof.
  intros Hs Hr Hi. unfold secondPassStep in Hr.
  destruct (cur !! j) as [current|] eqn:Ej.
  - destruct (decide (i = j)) as [->|Hne].
    + rewrite list_lookup_insert_eq in Hr by (now apply lookup_lt_Some in Ej).
      injection Hr as <-.
      assert (Hlen : (j < length base)%nat).
      { rewrite <- (skel_length _ _ Hs). now apply lookup_lt_Some in Ej. }
      destruct (lookup_lt_is_Some_2 _ _ Hlen) as [b Hb].
      destruct (skel_lookup cur base j b Hs Hb) as (c0 & Hc0 & Hsb).
      rewrite Ej in Hc0. injection Hc0 as <-.
      destruct (maxColumnOf_attained base j b Hb) as (k & rk & Hk & Hor & Hmax).
      exists k, rk. split; [exact Hk|]. split.
      * destruct Hor as [->|[Hkj Hov]]; [now left|]. right. split; [exact Hkj|].
        rewrite (overlap_skel _ b rk rk); [exact Hov| |reflexivity].
        exact Hsb.
      * cbn [totalColumns setTotalColumns].
        now rewrite (maxColumnOf_skel cur base j current b Hs Hsb), Hmax.
    + rewrite list_lookup_insert_ne in Hr by congruence.
      destruct Hi as [->|(r0 & Hr0 & He)]; [congruence|].
      rewrite Hr in Hr0. now injection Hr0 as <-.
  - destruct Hi as [->|(r0 & Hr0 & He)]; [congruence|].
    rewrite Hr in Hr0. now injection Hr0 as <-.
Qed.

Lemma secondPass_fold_estimated (base : list EventWithLayout) (idxs : list nat) :
  forall cur : list EventWithLayout,
    skel <$> cur = skel <$> base ->
    forall i r, foldl secondPassStep cur idxs !! i = Some r ->
      (i ∈ idxs \/ exists r0, cur !! i = Some r0 /\ estimated base i r0) ->
      estimated base i r.
Proof.
  induction idxs as [|j idxs IH]; intros cur Hs i r Hr Hi.
  - destruct Hi as [Hi|(r0 & Hr0 & He)]; [now apply elem_of_nil in Hi|].
    cbn [foldl] in Hr. rewrite Hr in Hr0. now injection Hr0 as <-.
  - cbn [foldl] in Hr.
    assert (Hs1 : skel <$> secondPassStep cur j = skel <$> base).
    { now rewrite secondPassStep_skel. }
    apply (IH (secondPassStep cur j) Hs1 i r Hr).
    destruct (decide (i ∈ idxs)) as [Hin|Hnin]; [now left|]. right.
    assert (Hlen : (i < length (secondPassStep cur j))%nat).
    { apply lookup_lt_Some in Hr.
      rewrite (skel_length _ _ (proj1 (secondPass_fold idxs (secondPassStep cur j)))) in Hr.
      exact Hr. }
    destruct (lookup_lt_is_Some_2 _ _ Hlen) as [r1 Hr1].
    exists r1. split; [exact Hr1|].
    apply (secondPassStep_estimated base cur j i r1 Hs Hr1).
    destruct Hi as [Hi|Hi]; [|now right].
    apply elem_of_cons in Hi as [->|Hi]; [now left|contradiction].
Qed.

(** After the second pass every [totalColumns] is one more than the column
    of the element or of an element that overlaps it. *)
Lemma secondPass_estimated (result : list EventWithLayout) (i : nat)
  (r : EventWithLayout) :
  secondPass result !! i = Some r -> estimated result i r.
Proof.
  intros Hr. unfold secondPass in Hr.
  apply (secondPass_fold_estimated result (seq 0 (length result)) result eq_refl i r Hr).
  left. apply elem_of_seq. apply lookup_lt_Some in Hr.
  rewrite (skel_length _ _ (proj1 (secondPass_fold _ result))) in Hr. lia.
Qed.


Lemma thirdPassStep_cases_at (result : list EventWithLayout) (changed : bool)
  (i j : nat) :
  thirdPassStep (result, changed) (i, j) = (result, changed)
  \/ (exists result', thirdPassStep (result, changed) (i, j) = (result', true)
                      /\ raisedAt i j result result').
Proof.
  unfold thirdPassStep.
  destruct (Nat.eqb_spec i j) as [->|Hij]; [now left|].
  destruct (result !! i) as [a|] eqn:Ea; [|now left].
  destruct (result !! j) as [b|] eqn:Eb; [|now left].
  fold (overlap a b). destruct (overlap a b) eqn:Eo; [|now left].
  destruct (negb (totalColumns a =? Nat.max (totalColumns a) (totalColumns b))%nat
            || negb (totalColumns b =? Nat.max (totalColumns a) (totalColumns b))%nat);
    [|now left].
  right. eexists. split; [reflexivity|]. exists a, b. auto.
Qed.

Lemma raisedAt_skel (i j : nat) (result result' : list EventWithLayout) :
  raisedAt i j result result' -> skel <$> result' = skel <$> result.
Proof.
  intros (a & b & Hij & Ha & Hb & _ & ->).
  rewrite insert_setTotalColumns_skel by (now rewrite list_lookup_insert_ne).
  now apply insert_setTotalColumns_skel.
Qed.

Lemma raisedAt_traced (base : list EventWithLayout) (i j : nat)
  (result result' : list EventWithLayout) :
  skel <$> result = skel <$> base ->
  raisedAt i j result result' -> traced base result -> traced base result'.
Proof.
  intros Hs (a & b & Hij & Ha & Hb & Hov & ->) Htr k r Hr.
  assert (Hoij : overlapAt base i j).
  { apply (overlapAt_skel result base); [exact Hs|]. exists a, b. auto. }
  assert (Hoji : overlapAt base j i).
  { apply (overlapAt_skel result base); [exact Hs|]. exists b, a.
    split; [congruence|]. split; [exact Hb|]. split; [exact Ha|].
    fold (overlap b a). now rewrite overlap_sym. }
  destruct (Htr i a Ha) as (ia & ra & Hca & Hra & Hta).
  destruct (Htr j b Hb) as (jb & rb & Hcb & Hrb & Htb).
  assert (Hmax : exists k' rk',
             sameCluster base i k' /\ sameCluster base j k' /\ base !! k' = Some rk'
             /\ Nat.max (totalColumns a) (totalColumns b) = totalColumns rk').
  { destruct (Nat.max_spec (totalColumns a) (totalColumns b)) as [[_ ->]|[_ ->]].
    - exists jb, rb. split; [eapply rtc_l; eauto|]. auto.
    - exists ia, ra. split; [exact Hca|]. split; [eapply rtc_l; eauto|]. auto. }
  destruct Hmax as (k' & rk' & Hik' & Hjk' & Hbk' & Hm).
  destruct (decide (k = j)) as [->|Hkj].
  - rewrite list_lookup_insert_eq in Hr
      by (rewrite length_insert; now apply lookup_lt_Some in Hb).
    injection Hr as <-. exists k', rk'. auto.
  - rewrite list_lookup_insert_ne in Hr by congruence.
    destruct (decide (k = i)) as [->|Hki].
    + rewrite list_lookup_insert_eq in Hr by (now apply lookup_lt_Some in Ha).
      injection Hr as <-. exists k', rk'. auto.
    + rewrite list_lookup_insert_ne in Hr by congruence.
      exact (Htr k r Hr).
Qed.

Lemma thirdPass_fold_traced (base : list EventWithLayout) (ps : list (nat * nat)) :
  forall (result : list EventWithLayout) (changed : bool),
    skel <$> result = skel <$> base -> traced base result ->
    traced base (fst (foldl thirdPassStep (result, changed) ps)).
Proof.
  induction ps as [|[i j] ps IH]; intros result changed Hs Htr; [exact Htr|].
  cbn [foldl].
  destruct (thirdPassStep_cases_at result changed i j) as [->|(r1 & -> & Hr)].
  - now apply IH.
  - apply IH.
    + now rewrite (raisedAt_skel i j result r1 Hr).
    + now apply (raisedAt_traced base i j result r1).
Qed.

Lemma thirdPass_traced (base : list EventWithLayout) (fuel : nat) :
  forall result result' : list EventWithLayout,
    skel <$> result = skel <$> base -> traced base result ->
    thirdPass fuel result = Some result' -> traced base result'.
Proof.
  induction fuel as [|fuel IH]; intros result result' Hs Htr H; [discriminate|].
  cbn [thirdPass] in H.
  pose proof (thirdPass_fold_traced base
                (pairsOf (seq 0 (length result)) (seq 0 (length result)))
                result false Hs Htr) as Hsweep.
  pose proof (proj1 (thirdPassSweep_spec result)) as Hskel.
  rewrite <- nested_loops_flat in Hsweep. fold (thirdPassSweep result) in Hsweep.
  destruct (thirdPassSweep result) as [result1 [|]]; cbn [fst] in Hsweep, Hskel.
  - apply (IH result1 result'); [now rewrite Hskel|exact Hsweep|exact H].
  - now injection H as <-.
Qed.

Lemma traced_refl (base : list EventWithLayout) : traced base base.
Proof. intros i r Hr. exists i, r. split; [apply rtc_refl|auto]. Qed.

Lemma cluster_width_attained (events : list CalendarEvent) (currentDate : Date)
  (layout : list EventWithLayout) :
  calculateEventLayout events currentDate = Some layout ->
  forall i a,
    layout !! i = Some a ->
    exists j b, sameCluster layout i j /\ layout !! j = Some b
                /\ totalColumns a = (column b + 1)%nat.
Proof.
  intros Hl i a Ha.
  revert Hl. unfold calculateEventLayout.
  destruct events as [|ev0 events0].
  { intros [= <-]. now rewrite lookup_nil in Ha. }
  set (evs := ev0 :: events0).
  change (length evs =? 0)%nat with false. cbv iota.
  destruct (firstPass 0 _ ([], [])) as [[active result]|]; [|discriminate].
  cbn [mbind option_bind]. intros Htp.
  set (base := secondPass result) in *.
  assert (Hs : skel <$> layout = skel <$> base).
  { pose proof (thirdPass_only_raises _ _ _ Htp) as Hraise. clear -Hraise.
    induction Hraise as [|x y l k [Hx _] _ IH]; [reflexivity|].
    cbn. now rewrite <- Hx, IH. }
  destruct (thirdPass_traced base _ base layout eq_refl (traced_refl base) Htp i a Ha)
    as (j & rj & Hcj & Hrj & Htc).
  destruct (secondPass_estimated result j rj Hrj) as (k & rk & Hk & Hor & Hest).
  assert (Hs2 : skel <$> base = skel <$> result) by apply secondPass_spec.
  assert (Hklen : (k < length layout)%nat).
  { rewrite (skel_length _ _ Hs), (skel_length _ _ Hs2). now apply lookup_lt_Some in Hk. }
  destruct (lookup_lt_is_Some_2 _ _ Hklen) as [b Hb].
  destruct (skel_lookup result layout k b ltac:(now rewrite Hs, Hs2) Hb)
    as (rk0 & Hrk0 & Hsk).
  rewrite Hk in Hrk0. injection Hrk0 as <-.
  exists k, b. split; [|split; [exact Hb|]].
  + apply (sameCluster_skel base layout); [now symmetry|].
    eapply rtc_trans; [exact Hcj|].
    destruct Hor as [->|[Hne Hov]]; [apply rtc_refl|].
    apply rtc_once. apply (overlapAt_skel result base); [now symmetry|].
    destruct (skel_lookup result base j rj ltac:(now symmetry) Hrj) as (r0 & Hr0 & Hs0).
    exists r0, rk. split; [congruence|]. split; [exact Hr0|]. split; [exact Hk|].
    fold (overlap r0 rk). now rewrite (overlap_skel r0 rj rk rk Hs0 eq_refl).
  + rewrite Htc, Hest. unfold skel in Hsk. f_equal. congruence.
Qed.

(** X4: within a cluster of overlapping events the shared [totalColumns] is
    exactly one more than the largest column in use: every member's column
    is below it and some member sits in the last column. *)
Theorem totalColumns_is_cluster_width (events : list CalendarEvent) (currentDate : Date) :
  exists layout,
    calculateEventLayout events currentDate = Some layout
    /\ forall i a,
         layout !! i = Some a ->
         (forall j b, sameCluster layout i j -> layout !! j = Some b ->
                      (column b < totalColumns a)%nat)
         /\ (exists j b, sameCluster layout i j /\ layout !! j = Some b
                         /\ totalColumns a = (column b + 1)%nat).
Proof.
  destruct (calculateEventLayout_spec events currentDate)
    as (layout & Hl & _ & _ & Hcol & Hst).
  exists layout. split; [exact Hl|]. intros i a Ha. split.
  - intros j b Hc Hb.
    rewrite (stable_cluster layout Hst i j a b Hc Ha Hb).
    exact (proj1 (Forall_lookup _ _) Hcol j b Hb).
  - exact (cluster_width_attained events currentDate layout Hl i a Ha).
Qed.

(** X5: an event of positive height that overlaps no other event of the day
    fills the row: it is in column 0 with [totalColumns = 1]. *)
Theorem lone_event_fills_the_row (events : list CalendarEvent) (currentDate : Date) :
  exists layout,
    calculateEventLayout events currentDate = Some layout
    /\ forall i a,
         layout !! i = Some a -> (0 < height a)%Q ->
         (forall j b, j <> i -> layout !! j = Some b ->
                      eventsOverlap (top a) (top a + height a)
                                    (top b) (top b + height b) = false) ->
         column a = 0%nat /\ totalColumns a = 1%nat
         /\ (sliceLeft a == 0)%Q /\ (sliceRight a == 100)%Q.
Proof.
  destruct (calculateEventLayout_spec events currentDate) as (layout & Hl & _).
  exists layout. split; [exact Hl|]. intros i a Ha Hh Hlone.
  assert (Hc0 : column a = 0%nat).
  { destruct (column a) as [|c] eqn:Ec; [reflexivity|]. exfalso.
    destruct (calculateEventLayout_firstFit events currentDate layout Hl i a 0%nat Ha
                ltac:(lia)) as (j & b & Hj & Hb & _ & H1 & H2).
    assert (Hov : eventsOverlap (top a) (top a + height a) (top b) (top b + height b)
                  = true).
    { unfold eventsOverlap. apply andb_true_iff. rewrite !ltb_lt.
      unfold endOf in H2. split; [exact H2|lra]. }
    rewrite (Hlone j b ltac:(lia) Hb) in Hov. discriminate. }
  assert (Ht1 : totalColumns a = 1%nat).
  { destruct (cluster_width_attained events currentDate layout Hl i a Ha)
      as (j & b & Hc & Hb & Htc).
    assert (j = i) as ->.
    { unfold sameCluster in Hc.
      apply rtc_inv in Hc as [->|(k & (a0 & c & Hik & Ha0 & Hc0' & Hov) & _)];
        [reflexivity|].
      rewrite Ha in Ha0. injection Ha0 as <-.
      rewrite (Hlone k c ltac:(congruence) Hc0') in Hov. discriminate. }
    rewrite Ha in Hb. injection Hb as <-. lia. }
  split; [exact Hc0|]. split; [exact Ht1|].
  unfold sliceLeft, sliceRight, leftPercent, widthPercent. rewrite Hc0, Ht1.
  split; reflexivity.
Qed.

End LayoutMoreFacts.

(** ** The civil calendar *)

Module CivilFacts.
Import JSDate DateFns.
Local Open Scope Z_scope.

Lemma doe_range (z : Z) :
  0 <= z - z / 146097 * 146097 <= 146096.
Proof. Z.div_mod_to_equations. lia. Qed.

Lemma yoe_range (doe : Z) :
  0 <= doe <= 146096 ->
  0 <= (doe - doe / 1460 + doe / 36524 - doe / 146096) / 365 <= 399.
Proof. intros H. Z.div_mod_to_equations. lia. Qed.

Lemma doy_range (doe : Z) :
  0 <= doe <= 146096 ->
  let yoe := (doe - doe / 1460 + doe / 36524 - doe / 146096) / 365 in
  0 <= doe - (365 * yoe + yoe / 4 - yoe / 100) <= 365.
Proof. intros H. cbv zeta. Z.div_mod_to_equations. lia. Qed.

Lemma doe_before_next_year (doe : Z) :
  0 <= doe <= 146096 ->
  let yoe := (doe - doe / 1460 + doe / 36524 - doe / 146096) / 365 in
  yoe <= 398 ->
  doe < 365 * (yoe + 1) + (yoe + 1) / 4 - (yoe + 1) / 100.
Proof. intros H. cbv zeta. Z.div_mod_to_equations. lia. Qed.

Lemma mp_range (doy : Z) :
  0 <= doy <= 365 -> 0 <= (5 * doy + 2) / 153 <= 11.
Proof. intros H. Z.div_mod_to_equations. lia. Qed.

Lemma dom_range (doy : Z) :
  0 <= doy <= 365 ->
  let mp := (5 * doy + 2) / 153 in
  1 <= doy - (153 * mp + 2) / 5 + 1 <= 31.
Proof. intros H. cbv zeta. Z.div_mod_to_equations. lia. Qed.

Lemma doy_before_next_month (doy : Z) :
  0 <= doy <= 365 ->
  let mp := (5 * doy + 2) / 153 in
  doy < (153 * (mp + 1) + 2) / 5.
Proof. intros H. cbv zeta. Z.div_mod_to_equations. lia. Qed.

Lemma era_of_year (era yoe : Z) :
  0 <= yoe <= 399 ->
  (yoe + era * 400) / 400 = era.
Proof. intros H. Z.div_mod_to_equations. lia. Qed.

(** The month is 1..12 and the day of the month 1..31. *)
Lemma civilFromDays_range (z : Z) :
  let '(y, m, d) := civilFromDays z in 1 <= m <= 12 /\ 1 <= d <= 31.
Proof.
  unfold civilFromDays.
  pose proof (doe_range (z + 719468)) as Hdoe.
  set (doe := z + 719468 - (z + 719468) / 146097 * 146097) in *.
  pose proof (doy_range doe Hdoe) as Hdoy. cbv zeta in Hdoy.
  set (yoe := (doe - doe / 1460 + doe / 36524 - doe / 146096) / 365) in *.
  set (doy := doe - (365 * yoe + yoe / 4 - yoe / 100)) in *.
  pose proof (mp_range doy Hdoy) as Hmp.
  pose proof (dom_range doy Hdoy) as Hd. cbv zeta in Hd.
  set (mp := (5 * doy + 2) / 153) in *.
  split; [|exact Hd].
  destruct (Z.ltb_spec mp 10); lia.
Qed.

Ltac decide_if :=
  match goal with
  | |- context [Z.ltb ?a ?b] =>
      (replace (Z.ltb a b) with true by (symmetry; apply Z.ltb_lt; lia))
      || (replace (Z.ltb a b) with false by (symmetry; apply Z.ltb_ge; lia))
  | |- context [Z.leb ?a ?b] =>
      (replace (Z.leb a b) with true by (symmetry; apply Z.leb_le; lia))
      || (replace (Z.leb a b) with false by (symmetry; apply Z.leb_gt; lia))
  end; cbv iota.

(** The day number of a date given by its era, year of the era and month
    counted from March. *)
Lemma daysFromCivil_shifted (era yoe mp d : Z) :
  0 <= yoe <= 399 -> 0 <= mp <= 11 ->
  daysFromCivil (if mp <? 10 then yoe + era * 400 else yoe + era * 400 + 1)
                (if mp <? 10 then mp + 3 else mp - 9) d
  = era * 146097 + (yoe * 365 + yoe / 4 - yoe / 100 + ((153 * mp + 2) / 5 + d - 1))
    - 719468.
Proof.
  intros Hyoe Hmp. unfold daysFromCivil.
  destruct (Z.ltb_spec mp 10); repeat decide_if.
  - rewrite (era_of_year era yoe Hyoe).
    replace (yoe + era * 400 - era * 400) with yoe by lia.
    replace (mp + 3 - 3) with mp by lia. reflexivity.
  - replace (yoe + era * 400 + 1 - 1) with (yoe + era * 400) by lia.
    rewrite (era_of_year era yoe Hyoe).
    replace (yoe + era * 400 - era * 400) with yoe by lia.
    replace (mp - 9 + 9) with mp by lia. reflexivity.
Qed.

(** The civil date of a day number, by era, year of the era, day of the
    year and month counted from March. *)
Lemma civilFromDays_shifted (z : Z) :
  exists era yoe doy mp : Z,
    0 <= yoe <= 399 /\ 0 <= doy <= 365 /\ 0 <= mp <= 11
    /\ mp = (5 * doy + 2) / 153
    /\ z = era * 146097 + (yoe * 365 + yoe / 4 - yoe / 100 + doy) - 719468
    /\ (yoe <= 398 ->
        yoe * 365 + yoe / 4 - yoe / 100 + doy
        < (yoe + 1) * 365 + (yoe + 1) / 4 - (yoe + 1) / 100)
    /\ (yoe = 399 -> 145731 + doy <= 146096)
    /\ civilFromDays z
       = (if mp <? 10 then yoe + era * 400 else yoe + era * 400 + 1,
          if mp <? 10 then mp + 3 else mp - 9,
          doy - (153 * mp + 2) / 5 + 1).
Proof.
  unfold civilFromDays.
  pose proof (doe_range (z + 719468)) as Hdoe.
  set (era := (z + 719468) / 146097) in *.
  set (doe := z + 719468 - era * 146097) in *.
  pose proof (yoe_range doe Hdoe) as Hyoe.
  pose proof (doy_range doe Hdoe) as Hdoy. cbv zeta in Hdoy.
  pose proof (doe_before_next_year doe Hdoe) as Hny. cbv zeta in Hny.
  set (yoe := (doe - doe / 1460 + doe / 36524 - doe / 146096) / 365) in *.
  set (doy := doe - (365 * yoe + yoe / 4 - yoe / 100)) in *.
  pose proof (mp_range doy Hdoy) as Hmp.
  set (mp := (5 * doy + 2) / 153) in *.
  exists era, yoe, doy, mp.
  assert (Hz : z = era * 146097 + doe - 719468) by (subst doe; lia).
  assert (Hd : doy = doe - (365 * yoe + yoe / 4 - yoe / 100)) by reflexivity.
  assert (Hm : mp = (5 * doy + 2) / 153) by reflexivity.
  clearbody mp doy yoe doe era.
  split; [exact Hyoe|]. split; [exact Hdoy|]. split; [exact Hmp|].
  split; [exact Hm|]. split; [lia|]. split; [intros Hy; specialize (Hny Hy); lia|].
  split; [intros ->; change (365 * 399 + 399 / 4 - 399 / 100) with 145731 in Hd; lia|].
  destruct (Z.ltb_spec mp 10); repeat decide_if; reflexivity.
Qed.

(** The day number of the civil date of a day number is that day
    number. *)
Lemma daysFromCivil_civilFromDays (z : Z) :
  let '(y, m, d) := civilFromDays z in daysFromCivil y m d = z.
Proof.
  destruct (civilFromDays_shifted z)
    as (era & yoe & doy & mp & Hyoe & Hdoy & Hmp & _ & Hz & _ & _ & ->).
  rewrite (daysFromCivil_shifted era yoe mp _ Hyoe Hmp). lia.
Qed.

(** The day number is linear in the day of the month. *)
Lemma daysFromCivil_day (y m d d' : Z) :
  daysFromCivil y m d' = daysFromCivil y m d + (d' - d).
Proof. unfold daysFromCivil. lia. Qed.

(** [MakeDay] at the fields of a date, on its first day: the day number of
    the first of the month. *)
Lemma MakeDay_first (t : Date) :
  MakeDay (getFullYear t) (getMonth t) 1 = Day t - (getDate t - 1).
Proof.
  unfold MakeDay, getFullYear, getMonth, getDate.
  pose proof (civilFromDays_range (Day t)) as Hr.
  pose proof (daysFromCivil_civilFromDays (Day t)) as Hrt.
  destruct (civilFromDays (Day t)) as [[y m] d]. simpl.
  destruct Hr as [Hm Hd].
  replace ((m - 1) / 12) with 0 by (Z.div_mod_to_equations; lia).
  replace ((m - 1) mod 12 + 1) with m by (Z.div_mod_to_equations; lia).
  rewrite Z.add_0_r, (daysFromCivil_day y m d 1), Hrt. lia.
Qed.

(** The day before the first of the next month is not before the date. *)
Lemma MakeDay_last (t : Date) :
  Day t <= MakeDay (getFullYear t) (getMonth t + 1) 0.
Proof.
  unfold MakeDay, getFullYear, getMonth, getDate.
  destruct (civilFromDays_shifted (Day t))
    as (era & yoe & doy & mp & Hyoe & Hdoy & Hmp & Hmp' & Hz & Hny & Hlast & ->).
  cbn [fst snd]. rewrite Hz.
  pose proof (doy_before_next_month doy Hdoy) as Hnm. cbv zeta in Hnm.
  rewrite <- Hmp' in Hnm. clear Hmp' Hz.
  assert (Hcases : mp <= 8 \/ mp = 9 \/ mp = 10 \/ mp = 11) by lia.
  destruct Hcases as [H8|[E|[E|E]]]; [|subst mp..].
  - (* March .. November: the next month of the same year *)
    repeat decide_if.
    replace (mp + 3 - 1 + 1) with (mp + 3) by lia.
    replace ((mp + 3) / 12) with 0 by (Z.div_mod_to_equations; lia).
    replace ((mp + 3) mod 12 + 1) with (mp + 1 + 3) by (Z.div_mod_to_equations; lia).
    rewrite !Z.add_0_r.
    pose proof (daysFromCivil_shifted era yoe (mp + 1) 1 Hyoe ltac:(lia)) as E.
    replace (mp + 1 <? 10) with true in E by (symmetry; apply Z.ltb_lt; lia).
    rewrite E. lia.
  - (* December: January of the next year *)
    change (9 <? 10) with true. cbv iota.
    change (9 + 3 - 1 + 1) with 12. change (12 / 12) with 1.
    change (12 mod 12 + 1) with 1.
    pose proof (daysFromCivil_shifted era yoe 10 1 Hyoe ltac:(lia)) as E.
    change (10 <? 10) with false in E. cbv iota in E. change (10 - 9) with 1 in E.
    rewrite E. change (9 + 1) with 10 in Hnm. lia.
  - (* January: February *)
    change (10 <? 10) with false. cbv iota.
    change (10 - 9 - 1 + 1) with 1. change (1 / 12) with 0.
    change (1 mod 12 + 1) with 2. rewrite !Z.add_0_r.
    pose proof (daysFromCivil_shifted era yoe 11 1 Hyoe ltac:(lia)) as E.
    change (11 <? 10) with false in E. cbv iota in E. change (11 - 9) with 2 in E.
    rewrite E. change (10 + 1) with 11 in Hnm. lia.
  - (* February: March, the first month of the next shifted year *)
    change (11 <? 10) with false. cbv iota.
    change (11 - 9 - 1 + 1) with 2. change (2 / 12) with 0.
    change (2 mod 12 + 1) with 3. rewrite !Z.add_0_r.
    destruct (Z.eq_dec yoe 399) as [->|E399].
    + specialize (Hlast eq_refl).
      pose proof (daysFromCivil_shifted (era + 1) 0 0 1 ltac:(lia) ltac:(lia)) as E.
      change (0 <? 10) with true in E. cbv iota in E. change (0 + 3) with 3 in E.
      replace (0 + (era + 1) * 400) with (399 + era * 400 + 1) in E by lia.
      rewrite E. change (0 / 4) with 0. change (0 / 100) with 0.
      change ((153 * 0 + 2) / 5) with 0.
      change (399 * 365 + 399 / 4 - 399 / 100) with 145731. lia.
    + specialize (Hny ltac:(lia)).
      pose proof (daysFromCivil_shifted era (yoe + 1) 0 1 ltac:(lia) ltac:(lia)) as E.
      change (0 <? 10) with true in E. cbv iota in E. change (0 + 3) with 3 in E.
      replace (yoe + 1 + era * 400) with (yoe + era * 400 + 1) in E by lia.
      rewrite E. change ((153 * 0 + 2) / 5) with 0. lia.
Qed.

(** [startOfMonth] is the midnight that begins the first day of the
    date's month. *)
Lemma startOfMonth_spec (t : Date) :
  startOfMonth t = (Day t - (getDate t - 1)) * msPerDay.
Proof. unfold startOfMonth. now rewrite MakeDay_first. Qed.

Lemma getDate_range (t : Date) : 1 <= getDate t <= 31.
Proof.
  unfold getDate. pose proof (civilFromDays_range (Day t)) as H.
  destruct (civilFromDays (Day t)) as [[y m] d]. simpl. tauto.
Qed.

Lemma Day_bounds (t : Date) : Day t * msPerDay <= t < Day t * msPerDay + msPerDay.
Proof. unfold Day, msPerDay. Z.div_mod_to_equations. lia. Qed.

Lemma Day_mul (n : Z) : Day (n * msPerDay) = n.
Proof. unfold Day, msPerDay. now rewrite Z.div_mul. Qed.

Lemma startOfMonth_le (t : Date) : startOfMonth t <= t.
Proof.
  rewrite startOfMonth_spec.
  pose proof (getDate_range t). pose proof (Day_bounds t).
  unfold msPerDay in *. lia.
Qed.

Lemma endOfMonth_ge (t : Date) : t <= endOfMonth t.
Proof.
  unfold endOfMonth.
  pose proof (MakeDay_last t). pose proof (Day_bounds t).
  unfold msPerDay, msPerHour, msPerMinute, msPerSecond in *. lia.
Qed.

End CivilFacts.

(** ** The timeline window, its markers and the bars *)

Module WindowMoreFacts.
Import JS JSFacts JSDate DateFns DateFnsMore Gantt DateCalculations TimelineMarkers.
Import WindowDefs DateCalculationsFacts WindowFacts CivilFacts.
Local Open Scope Z_scope.

Lemma TimeWithinDay_startOfMonth (t : Date) : TimeWithinDay (startOfMonth t) = 0.
Proof.
  rewrite startOfMonth_spec. unfold TimeWithinDay, msPerDay. apply Z.mod_mul. lia.
Qed.

Lemma TimeWithinDay_endOfMonth (t : Date) : TimeWithinDay (endOfMonth t) = msPerDay - 1.
Proof.
  unfold endOfMonth, TimeWithinDay, msPerDay, msPerHour, msPerMinute, msPerSecond.
  rewrite Z.add_comm, Z.mod_add by lia. reflexivity.
Qed.

Lemma window_of_bounds (lo hi : Date) :
  lo <= hi ->
  startOfMonth lo <= lo /\ hi <= endOfMonth hi /\ startOfMonth lo < endOfMonth hi.
Proof.
  intros Hle.
  pose proof (startOfMonth_le lo) as H1. pose proof (endOfMonth_ge hi) as H2.
  split; [exact H1|]. split; [exact H2|].
  destruct (Z.eq_dec (startOfMonth lo) (endOfMonth hi)) as [E|E]; [|lia].
  pose proof (TimeWithinDay_startOfMonth lo) as T1.
  pose proof (TimeWithinDay_endOfMonth hi) as T2.
  rewrite E, T2 in T1. unfold msPerDay in T1. lia.
Qed.

Lemma elem_of_allStartsAndEnds (t : Task) (tasks : list Task) :
  t ∈ tasks ->
  startDate t ∈ allStartsAndEnds tasks /\ endDate t ∈ allStartsAndEnds tasks.
Proof.
  intros Ht. unfold allStartsAndEnds.
  split; apply list_elem_of_In, in_flat_map; exists t;
    (split; [now apply list_elem_of_In|]); simpl; auto.
Qed.

(** The window, as the least and the greatest date of the tasks give it. *)
Lemma calculateTimelineRange_bounds (now : Date) (tasks : list Task) :
  exists timelineStart timelineEnd,
    calculateTimelineRange now tasks = Some (timelineStart, timelineEnd)
    /\ timelineStart < timelineEnd
    /\ TimeWithinDay timelineStart = 0
    /\ (tasks = [] -> timelineStart <= now <= timelineEnd)
    /\ (forall d, d ∈ allStartsAndEnds tasks -> timelineStart <= d <= timelineEnd).
Proof.
  destruct tasks as [|t ts].
  - exists (startOfMonth now), (endOfMonth now).
    destruct (window_of_bounds now now ltac:(lia)) as (H1 & H2 & H3).
    split; [reflexivity|]. split; [exact H3|].
    split; [apply TimeWithinDay_startOfMonth|].
    split; [intros _; lia|].
    intros d Hd. unfold allStartsAndEnds in Hd. simpl in Hd.
    now apply elem_of_nil in Hd.
  - unfold calculateTimelineRange.
    change (length (t :: ts) =? 0)%nat with false. cbv iota.
    unfold getTime. rewrite map_id.
    change (flat_map (fun t0 => [startDate t0; endDate t0]) (t :: ts))
      with (startDate t :: endDate t :: allStartsAndEnds ts).
    destruct (Math_min_spec (startDate t) (endDate t :: allStartsAndEnds ts))
      as (lo & -> & Hlo1 & Hlo2).
    destruct (Math_max_spec (startDate t) (endDate t :: allStartsAndEnds ts))
      as (hi & -> & Hhi1 & Hhi2).
    exists (startOfMonth lo), (endOfMonth hi).
    destruct (window_of_bounds lo hi (Hlo2 hi Hhi1)) as (H1 & H2 & H3).
    split; [reflexivity|]. split; [exact H3|].
    split; [apply TimeWithinDay_startOfMonth|].
    split; [discriminate|].
    intros d Hd.
    change (allStartsAndEnds (t :: ts))
      with (startDate t :: endDate t :: allStartsAndEnds ts) in Hd.
    specialize (Hlo2 d Hd). specialize (Hhi2 d Hd). lia.
Qed.

(** X6: the derived window contains every start and end date of the tasks, it
    begins at a midnight and it is not empty; without tasks it contains
    the present moment. *)
Theorem window_contains_every_task (now : Date) (tasks : list Task) :
  exists timelineStart timelineEnd,
    calculateTimelineRange now tasks = Some (timelineStart, timelineEnd)
    /\ timelineStart < timelineEnd
    /\ TimeWithinDay timelineStart = 0
    /\ (tasks = [] -> timelineStart <= now <= timelineEnd)
    /\ (forall t, t ∈ tasks ->
          timelineStart <= startDate t <= timelineEnd
          /\ timelineStart <= endDate t <= timelineEnd).
Proof.
  destruct (calculateTimelineRange_bounds now tasks)
    as (ws & we & Hw & Hlt & Hmid & Hnow & Hall).
  exists ws, we. split; [exact Hw|]. split; [exact Hlt|].
  split; [exact Hmid|]. split; [exact Hnow|].
  intros t Ht. destruct (elem_of_allStartsAndEnds t tasks Ht) as [Hs He].
  split; [apply Hall, Hs | apply Hall, He].
Qed.

(** The bounds of a bar whose dates lie within the window. *)
Lemma position_bounds (taskStart taskEnd timelineStart timelineEnd : Date) :
  timelineStart <= taskStart -> taskStart <= taskEnd -> taskEnd <= timelineEnd ->
  let p := calculateTaskPosition taskStart taskEnd timelineStart timelineEnd in
  (0 <= left p /\ 0 < width p /\ left p + width p <= 100)%Q.
Proof.
  intros H1 H2 H3. cbv zeta. unfold calculateTaskPosition; simpl.
  pose proof (differenceInDays_nonneg taskStart timelineStart H1) as Ho.
  pose proof (differenceInDays_nonneg taskEnd taskStart H2) as Ht.
  pose proof (differenceInDays_nonneg timelineEnd timelineStart ltac:(lia)) as Hs.
  pose proof (differenceInDays_split _ _ _ _ H1 H2 H3) as Hsum.
  set (o := differenceInDays taskStart timelineStart) in *.
  set (t := differenceInDays taskEnd taskStart) in *.
  set (s := differenceInDays timelineEnd timelineStart) in *.
  assert (Hs1 : 0 < s + 1) by lia.
  assert (Hs' : (0 < inject_Z (s + 1))%Q) by (rewrite <- (Zlt_Qlt 0); exact Hs1).
  assert (Hadd : (inject_Z o / inject_Z (s + 1) * 100
                  + inject_Z (t + 1) / inject_Z (s + 1) * 100
                  == inject_Z (o + (t + 1)) / inject_Z (s + 1) * 100)%Q).
  { rewrite (inject_Z_plus o). field. lra. }
  split; [|split].
  - rewrite <- (Qdiv_mul100_zero (s + 1)). apply Qdiv_mul100_le; lia.
  - apply Qmult_lt_0_compat; [|lra].
    apply Qlt_shift_div_l; [exact Hs'|].
    rewrite Qmult_0_l. rewrite <- (Zlt_Qlt 0). lia.
  - rewrite Hadd. rewrite <- (Qdiv_mul100_self (s + 1)) at 2 by lia.
    apply Qdiv_mul100_le; lia.
Qed.

(** X7: in the derived window every task that does not end before it starts
    gets a bar inside the chart: its left edge is not negative, it has a
    positive width and it ends at or before 100 percent. *)
Theorem task_bars_fit_the_derived_window (now : Date) (tasks : list Task) :
  exists timelineStart timelineEnd,
    calculateTimelineRange now tasks = Some (timelineStart, timelineEnd)
    /\ forall t, t ∈ tasks -> startDate t <= endDate t ->
         let p := calculateTaskPosition (startDate t) (endDate t)
                                        timelineStart timelineEnd in
         (0 <= left p /\ 0 < width p /\ left p + width p <= 100)%Q.
Proof.
  destruct (calculateTimelineRange_bounds now tasks)
    as (ws & we & Hw & Hlt & Hmid & Hnow & Hall).
  exists ws, we. split; [exact Hw|].
  intros t Ht Hle.
  destruct (elem_of_allStartsAndEnds t tasks Ht) as [Hs He].
  apply position_bounds; [apply Hall, Hs | exact Hle | apply Hall, He].
Qed.

(** The loop lists the days from [date] on, one per step, up to
    [endTime], whenever the bound on the iterations is large enough. *)
Lemma eachDayLoop_spec (fuel : nat) (date endTime : Date) :
  (endTime - date) / msPerDay + 1 <= Z.of_nat fuel ->
  eachDayLoop fuel date endTime
  = map (fun k : nat => addDays date (Z.of_nat k))
        (seq 0 (Z.to_nat ((endTime - date) / msPerDay + 1))).
Proof.
  revert date. induction fuel as [|fuel IH]; intros date Hfuel.
  - replace (Z.to_nat ((endTime - date) / msPerDay + 1)) with 0%nat by lia.
    reflexivity.
  - cbn [eachDayLoop].
    destruct (Z.leb_spec date endTime) as [Hle|Hgt].
    + assert (Hstep : (endTime - (date + msPerDay)) / msPerDay
                      = (endTime - date) / msPerDay - 1).
      { unfold msPerDay. Z.div_mod_to_equations. lia. }
      assert (Hpos : 0 <= (endTime - date) / msPerDay).
      { apply Z.div_pos; unfold msPerDay; lia. }
      rewrite IH by lia. rewrite Hstep.
      replace (Z.to_nat ((endTime - date) / msPerDay + 1))
        with (S (Z.to_nat ((endTime - date) / msPerDay - 1 + 1))) by lia.
      cbn [seq map]. f_equal; [unfold addDays; lia|].
      rewrite <- seq_shift, map_map.
      apply map_ext. intros k. unfold addDays. lia.
    + assert (Hneg : (endTime - date) / msPerDay < 0).
      { apply Z.div_lt_upper_bound; unfold msPerDay; lia. }
      replace (Z.to_nat ((endTime - date) / msPerDay + 1)) with 0%nat by lia.
      reflexivity.
Qed.

Lemma differenceInDays_from_midnight (a ws : Date) :
  TimeWithinDay ws = 0 -> ws <= a ->
  differenceInDays a ws = Day a - Day ws
  /\ (a - ws) / msPerDay = Day a - Day ws.
Proof.
  unfold TimeWithinDay, differenceInDays, Day, msPerDay. intros Hmid Hle.
  rewrite Z.quot_div_nonneg by lia.
  split; Z.div_mod_to_equations; lia.
Qed.

(** The markers of a window that begins at a midnight. *)
Lemma generateTimelineMarkers_spec (timelineStart timelineEnd : Date) :
  TimeWithinDay timelineStart = 0 -> timelineStart <= timelineEnd ->
  exists markers,
    generateTimelineMarkers timelineStart timelineEnd = Some markers
    /\ Z.of_nat (length markers) = differenceInDays timelineEnd timelineStart + 1
    /\ (forall (k : nat) m, markers !! k = Some m ->
          m_date m = addDays timelineStart (Z.of_nat k))
    /\ (forall k : nat, Z.of_nat k <= differenceInDays timelineEnd timelineStart ->
          exists m, markers !! k = Some m).
Proof.
  intros Hmid Hle.
  destruct (differenceInDays_from_midnight timelineEnd timelineStart Hmid Hle)
    as [Hdiff Hdiv].
  assert (Hsod : startOfDay timelineStart = timelineStart).
  { unfold startOfDay. unfold TimeWithinDay, Day, msPerDay in *.
    Z.div_mod_to_equations. lia. }
  assert (Hn : 0 <= Day timelineEnd - Day timelineStart).
  { rewrite <- Hdiff. apply differenceInDays_nonneg, Hle. }
  unfold generateTimelineMarkers, eachDayOfInterval.
  replace (timelineEnd <? timelineStart) with false
    by (symmetry; apply Z.ltb_ge; lia).
  cbn [mbind option_bind]. rewrite Hsod.
  rewrite eachDayLoop_spec by (rewrite Hdiv; lia).
  rewrite Hdiv, Hdiff.
  eexists. split; [reflexivity|].
  split; [|split].
  - rewrite !length_map, length_seq. lia.
  - intros k m Hk. rewrite !list_lookup_fmap in Hk.
    destruct (seq 0 _ !! k) as [k'|] eqn:Ek; [|discriminate].
    apply lookup_seq in Ek as [-> _]. simpl in Hk.
    injection Hk as <-. reflexivity.
  - intros k Hk. rewrite !list_lookup_fmap.
    rewrite (lookup_seq_lt 0) by lia. simpl. eexists. reflexivity.
Qed.

(** X8: the derived window has one marker per day, as many as the span that
    the bar positions divide by; marker [k] is the [k]-th day of the
    window, and a task's bar begins at the left edge of the marker of its
    start day, when all markers are equally wide. *)
Theorem markers_are_the_days_of_the_window (now : Date) (tasks : list Task) :
  exists timelineStart timelineEnd markers,
    calculateTimelineRange now tasks = Some (timelineStart, timelineEnd)
    /\ generateTimelineMarkers timelineStart timelineEnd = Some markers
    /\ Z.of_nat (length markers) = differenceInDays timelineEnd timelineStart + 1
    /\ (forall (k : nat) m, markers !! k = Some m ->
          m_date m = addDays timelineStart (Z.of_nat k))
    /\ (forall t, t ∈ tasks ->
          exists (k : nat) m,
            markers !! k = Some m
            /\ isSameDay (m_date m) (startDate t) = true
            /\ (left (calculateTaskPosition (startDate t) (endDate t)
                                            timelineStart timelineEnd)
                == inject_Z (Z.of_nat k) / inject_Z (Z.of_nat (length markers)) * 100)%Q).
Proof.
  destruct (calculateTimelineRange_bounds now tasks)
    as (ws & we & Hw & Hlt & Hmid & Hnow & Hall).
  destruct (generateTimelineMarkers_spec ws we Hmid ltac:(lia))
    as (markers & Hm & Hlen & Hdate & Hex).
  exists ws, we, markers.
  split; [exact Hw|]. split; [exact Hm|]. split; [exact Hlen|].
  split; [exact Hdate|].
  intros t Ht. destruct (elem_of_allStartsAndEnds t tasks Ht) as [Hs _].
  apply Hall in Hs.
  destruct (differenceInDays_from_midnight (startDate t) ws Hmid ltac:(lia))
    as [Hdiff _].
  pose proof (differenceInDays_nonneg (startDate t) ws ltac:(lia)) as Hpos.
  pose proof (differenceInDays_split ws ws (startDate t) we
                ltac:(lia) ltac:(lia) ltac:(lia)) as Hsplit.
  assert (H0 : differenceInDays ws ws = 0).
  { unfold differenceInDays. now rewrite Z.sub_diag. }
  rewrite H0 in Hsplit.
  set (k := Z.to_nat (differenceInDays (startDate t) ws)).
  destruct (Hex k ltac:(lia)) as (m & Hk).
  exists k, m. split; [exact Hk|]. split.
  - rewrite (Hdate k m Hk). unfold isSameDay. apply Z.eqb_eq.
    unfold addDays. subst k. rewrite Z2Nat.id by lia. rewrite Hdiff.
    unfold TimeWithinDay, Day, msPerDay in *.
    Z.div_mod_to_equations. lia.
  - unfold calculateTaskPosition; simpl. rewrite Hlen.
    subst k. rewrite Z2Nat.id by lia. reflexivity.
Qed.

End WindowMoreFacts.

(** ** Gantt view: renaming, chart height, double click and task drag *)

Module GanttMoreFacts.
Import JS JSFacts JSDate DateFns Gantt DateCalculations.
Import GanttView UseTaskDrag UseTaskDragGesture.
Import TaskDragDefs TaskDragFacts DateCalculationsFacts GanttMoreDefs.

Lemma find_firstNamed (groups : list TaskGroup) (n : string) (g : TaskGroup) :
  find (fun g => String.eqb (name g) n) groups = Some g
  <-> exists i, firstNamed groups n i g.
Proof.
  unfold firstNamed. induction groups as [|g0 gs IH]; simpl.
  - split; [discriminate|]. intros (i & H & _). destruct i; discriminate.
  - destruct (String.eqb_spec (name g0) n) as [E|E].
    + split.
      * intros [= <-]. exists 0%nat. split; [reflexivity|]. split; [exact E|].
        intros j g' Hj. lia.
      * intros ([|i] & Hi & Hn & Hfirst).
        -- simpl in Hi. now injection Hi as ->.
        -- exfalso. apply (Hfirst 0%nat g0); [lia|reflexivity|exact E].
    + rewrite IH. split.
      * intros (i & Hi & Hn & Hfirst). exists (S i).
        split; [exact Hi|]. split; [exact Hn|].
        intros [|j] g' Hj Hg'.
        -- simpl in Hg'. now injection Hg' as <-.
        -- apply (Hfirst j g'); [lia|exact Hg'].
      * intros ([|i] & Hi & Hn & Hfirst).
        -- simpl in Hi. injection Hi as ->. contradiction.
        -- exists i. split; [exact Hi|]. split; [exact Hn|].
           intros j g' Hj Hg'. apply (Hfirst (S j) g'); [lia|exact Hg'].
Qed.

(** The store after the same value is written to one property of the
    files of a list of tasks. *)
Lemma applyWrites_same_value (ts : list Task) (prop value : string)
  (store : gmap (TFile * string) string) (f : TFile) (p : string) :
  let store' := applyWrites store (map (fun t => mkWrite (file t) prop value) ts) in
  (p = prop /\ (exists t, t ∈ ts /\ file t = f) /\ store' !! (f, p) = Some value)
  \/ (~ (p = prop /\ exists t, t ∈ ts /\ file t = f)
      /\ store' !! (f, p) = store !! (f, p)).
Proof.
  cbv zeta. unfold applyWrites. revert store.
  induction ts as [|t ts IH]; intros store.
  - right. split; [|reflexivity].
    intros (_ & t & Ht & _). now apply elem_of_nil in Ht.
  - cbn [map foldl].
    destruct (IH (applyWrite store (mkWrite (file t) prop value)))
      as [(Hp & (t' & Ht' & Hf) & Hs)|(Hn & Hs)].
    + left. split; [exact Hp|]. split; [|exact Hs].
      exists t'. split; [apply elem_of_cons; now right|exact Hf].
    + rewrite Hs. unfold applyWrite. cbn [w_file w_property w_value].
      destruct (decide ((file t, prop) = (f, p))) as [E|E].
      * injection E as Ef Ep. left. split; [now symmetry|].
        split; [exists t; split; [apply elem_of_cons; now left|exact Ef]|].
        subst f p. apply lookup_insert_eq.
      * right. split.
        -- intros (Hp & t' & Ht' & Hf). apply elem_of_cons in Ht' as [->|Ht'].
           ++ apply E. now rewrite Hf, Hp.
           ++ apply Hn. split; [exact Hp|]. now exists t'.
        -- now apply lookup_insert_ne.
Qed.

(** X9: renaming a group writes the new name to the grouping property of
    every task of the first group that bears the old name, and changes
    nothing else; without a grouping property it changes nothing. *)
Theorem rename_group_rewrites_its_tasks (groups : list TaskGroup)
  (groupByProperty oldName newName : string)
  (store : gmap (TFile * string) string) :
  let store' :=
    applyWrites store (handleRenameGroup groups groupByProperty oldName newName) in
  (groupByProperty <> ""%string ->
   forall i g t, firstNamed groups oldName i g -> t ∈ tasks g ->
     store' !! (file t, groupByProperty) = Some newName)
  /\ (forall f p, store' !! (f, p) <> store !! (f, p) ->
        groupByProperty <> ""%string /\ p = groupByProperty
        /\ store' !! (f, p) = Some newName
        /\ exists i g t, firstNamed groups oldName i g /\ t ∈ tasks g /\ file t = f).
Proof.
  cbv zeta. unfold handleRenameGroup. split.
  - intros Hprop i g t Hfirst Ht.
    destruct (String.eqb_spec groupByProperty "") as [E|_]; [contradiction|].
    assert (Hfind : find (fun g => String.eqb (name g) oldName) groups = Some g)
      by (apply find_firstNamed; now exists i).
    rewrite Hfind.
    destruct (applyWrites_same_value (tasks g) groupByProperty newName store
                (file t) groupByProperty) as [(_ & _ & Hs)|(Hn & _)].
    + exact Hs.
    + exfalso. apply Hn. split; [reflexivity|]. now exists t.
  - intros f p Hdiff.
    destruct (String.eqb_spec groupByProperty "") as [E|E]; [now contradiction Hdiff|].
    destruct (find (fun g => String.eqb (name g) oldName) groups) as [g|] eqn:Hfind;
      [|now contradiction Hdiff].
    apply find_firstNamed in Hfind as (i & Hfirst).
    destruct (applyWrites_same_value (tasks g) groupByProperty newName store f p)
      as [(Hp & (t & Ht & Hf) & Hs)|(_ & Hs)].
    + split; [exact E|]. split; [exact Hp|]. split; [exact Hs|].
      now exists i, g, t.
    + contradiction.
Qed.

Lemma maxWith0_ge (xs : list Z) :
  (0 <= maxWith0 xs)%Z /\ forall x, x ∈ xs -> (x <= maxWith0 xs)%Z.
Proof.
  unfold maxWith0. induction xs as [|a xs [IH0 IH]]; simpl.
  - split; [lia|]. intros x Hx. now apply elem_of_nil in Hx.
  - split; [lia|]. intros x Hx. apply elem_of_cons in Hx as [->|Hx]; [lia|].
    specialize (IH x Hx). lia.
Qed.

(** X10: the chart is at least one row high and tall enough for every row of
    every group, or of every task when there are no groups; so every
    position that [findGroupAtPosition] resolves to a group lies above the
    bottom of the chart. *)
Theorem chart_is_tall_enough (groups : list TaskGroup) (tasks : list Task) :
  (40 <= chartHeight groups tasks)%Z
  /\ (forall g, g ∈ groups ->
        ((startRow g + rowCount g) * 40 <= chartHeight groups tasks)%Z)
  /\ (groups = [] -> forall t, t ∈ tasks ->
        ((row t + 1) * 40 <= chartHeight groups tasks)%Z)
  /\ (forall (y : Q) (n : string),
        findGroupAtPosition y groups ROW_HEIGHT = Some n ->
        (y < inject_Z (chartHeight groups tasks))%Q).
Proof.
  assert (H0 : (0 <= maxRow groups tasks)%Z).
  { unfold maxRow. destruct (negb (length groups =? 0)%nat).
    - apply (proj1 (maxWith0_ge _)).
    - destruct (negb (length tasks =? 0)%nat); [apply (proj1 (maxWith0_ge _))|lia]. }
  assert (Hg : forall g, g ∈ groups ->
             (startRow g + rowCount g - 1 <= maxRow groups tasks)%Z).
  { intros g Hin. unfold maxRow. destruct groups as [|g0 gs].
    - now apply elem_of_nil in Hin.
    - change (negb (length (g0 :: gs) =? 0)%nat) with true. cbv iota.
      apply (proj2 (maxWith0_ge _)).
      apply (list_elem_of_fmap_2 (fun g => (startRow g + rowCount g - 1)%Z)), Hin. }
  unfold chartHeight. split; [lia|]. split; [|split].
  - intros g Hin. specialize (Hg g Hin). lia.
  - intros -> t Hin. unfold maxRow. simpl. destruct tasks as [|t0 ts].
    + now apply elem_of_nil in Hin.
    + change (negb (length (t0 :: ts) =? 0)%nat) with true. cbv iota.
      pose proof (proj2 (maxWith0_ge (map (fun t => row t) (t0 :: ts))) (row t)
                    (list_elem_of_fmap_2 (fun t => row t) _ _ Hin)).
      lia.
  - intros y n Hfind.
    apply findGroupAtPosition_Some in Hfind as (i & g & (Hi & [_ Hrow] & _) & _).
    apply list_elem_of_lookup_2 in Hi. specialize (Hg g Hi).
    unfold ROW_HEIGHT, Math_floor in Hrow.
    assert (Hfl : (Qfloor (y / 40) + 1 <= maxRow groups tasks + 1)%Z) by lia.
    pose proof (Qlt_floor (y / 40)) as Hlt.
    assert (Hq : (inject_Z (Qfloor (y / 40) + 1)
                  <= inject_Z (maxRow groups tasks + 1))%Q)
      by (rewrite <- Zle_Qle; exact Hfl).
    rewrite inject_Z_mult. change (inject_Z 40) with 40%Q.
    assert (Hy : (y / 40 < inject_Z (maxRow groups tasks + 1))%Q) by lra.
    assert (Hyy : (y == y / 40 * 40)%Q) by field.
    lra.
Qed.

(** X11: a double click inside a chart of positive width on a window that does
    not end before it starts proposes a task of seven days that starts
    within the window, never after the day of the column under the
    pointer and, in a window of two days or more, never on its last
    day. *)
Theorem double_click_proposes_a_day_of_the_window
  (timelineStart timelineEnd : Date) (chartLeft chartWidth clientX : Q) :
  (timelineStart <= timelineEnd)%Z -> (0 < chartWidth)%Q ->
  (chartLeft <= clientX)%Q -> (clientX < chartLeft + chartWidth)%Q ->
  let totalDays := differenceInDays timelineEnd timelineStart in
  let column :=
    Math_floor ((clientX - chartLeft) / chartWidth * inject_Z (totalDays + 1)) in
  exists offset : Z,
    handleChartDoubleClick timelineStart timelineEnd
                           (Some (chartLeft, chartWidth)) false clientX
    = Some (addDays timelineStart offset, addDays timelineStart (offset + 7))
    /\ (0 <= offset <= column)%Z
    /\ (column <= totalDays)%Z
    /\ (0 < totalDays -> offset < totalDays)%Z
    /\ (timelineStart <= addDays timelineStart offset <= timelineEnd)%Z.
Proof.
  intros Hwin Hw Hlo Hhi. cbv zeta.
  pose proof (differenceInDays_nonneg timelineEnd timelineStart Hwin) as HT.
  set (T := differenceInDays timelineEnd timelineStart) in *.
  set (r := ((clientX - chartLeft) / chartWidth)%Q).
  assert (Hr0 : (0 <= r)%Q).
  { unfold r. apply Qle_shift_div_l; [exact Hw|]. lra. }
  assert (Hr1 : (r < 1)%Q).
  { unfold r. apply Qlt_shift_div_r; [exact Hw|]. lra. }
  assert (HTq : (0 <= inject_Z T)%Q) by (rewrite <- (Zle_Qle 0); exact HT).
  assert (HT1 : (inject_Z (T + 1) == inject_Z T + 1)%Q)
    by (rewrite inject_Z_plus; reflexivity).
  exists (Math_floor (r * inject_Z T)).
  unfold Math_floor.
  assert (H0 : (0 <= Qfloor (r * inject_Z T))%Z).
  { change 0%Z with (Qfloor 0). apply Qfloor_resp_le. nra. }
  assert (Hcol : (Qfloor (r * inject_Z T) <= Qfloor (r * inject_Z (T + 1)))%Z).
  { apply Qfloor_resp_le. rewrite HT1. nra. }
  assert (HcolT : (Qfloor (r * inject_Z (T + 1)) <= T)%Z).
  { apply Z.lt_succ_r. rewrite Zlt_Qlt.
    eapply Qle_lt_trans; [apply Qfloor_le|].
    unfold Z.succ. rewrite HT1. nra. }
  assert (HltT : (0 < T -> Qfloor (r * inject_Z T) < T)%Z).
  { intros HposT. rewrite Zlt_Qlt.
    eapply Qle_lt_trans; [apply Qfloor_le|].
    assert ((0 < inject_Z T)%Q) by (rewrite <- (Zlt_Qlt 0); exact HposT). nra. }
  assert (HleT : (Qfloor (r * inject_Z T) <= T)%Z) by lia.
  split.
  - unfold handleChartDoubleClick, Math_floor. fold T. fold r.
    rewrite addDays_add. reflexivity.
  - split; [lia|]. split; [exact HcolT|]. split; [exact HltT|].
    assert (Hspan : (T * msPerDay <= timelineEnd - timelineStart)%Z).
    { unfold T, differenceInDays, msPerDay. rewrite Z.quot_div_nonneg by lia.
      rewrite Z.mul_comm. apply Z.mul_div_le. lia. }
    unfold addDays, msPerDay in *. nia.
Qed.

Lemma double_click_proposes_a_day_of_the_window_witness :
  exists offset : Z,
    handleChartDoubleClick (mk 2025 1 1 0 0) (mk 2025 2 1 0 0 - 1)%Z
                           (Some (100%Q, 3100%Q)) false 3150
    = Some (addDays (mk 2025 1 1 0 0) offset, addDays (mk 2025 1 1 0 0) (offset + 7))
    /\ (0 <= offset
        <= Math_floor ((3150 - 100) / 3100
                       * inject_Z (differenceInDays (mk 2025 2 1 0 0 - 1)%Z
                                                    (mk 2025 1 1 0 0) + 1)))%Z
    /\ (Math_floor ((3150 - 100) / 3100
                    * inject_Z (differenceInDays (mk 2025 2 1 0 0 - 1)%Z
                                                 (mk 2025 1 1 0 0) + 1))
        <= differenceInDays (mk 2025 2 1 0 0 - 1)%Z (mk 2025 1 1 0 0))%Z
    /\ (0 < differenceInDays (mk 2025 2 1 0 0 - 1)%Z (mk 2025 1 1 0 0)
        -> offset < differenceInDays (mk 2025 2 1 0 0 - 1)%Z (mk 2025 1 1 0 0))%Z
    /\ (mk 2025 1 1 0 0 <= addDays (mk 2025 1 1 0 0) offset <= mk 2025 2 1 0 0 - 1)%Z.
Proof.
  apply (double_click_proposes_a_day_of_the_window
           (mk 2025 1 1 0 0) (mk 2025 2 1 0 0 - 1)%Z 100 3100 3150);
    [vm_compute; congruence | reflexivity | vm_compute; congruence | reflexivity].
Defined.

(** A double click in the last day column of January 2025 proposes the
    30th. *)
Example double_click_in_the_last_column :
  handleChartDoubleClick (mk 2025 1 1 0 0) (mk 2025 2 1 0 0 - 1)%Z
                         (Some (100%Q, 3100%Q)) false 3150
  = Some (mk 2025 1 30 0 0, mk 2025 2 6 0 0).
Proof. vm_compute. reflexivity. Qed.

(** *** Task drag *)

Lemma applyWrites_app (store : gmap (TFile * string) string)
  (ws1 ws2 : list PropertyWrite) :
  applyWrites store (ws1 ++ ws2) = applyWrites (applyWrites store ws1) ws2.
Proof. unfold applyWrites. apply foldl_app. Qed.

Lemma applyWrites_lookup_other (ws : list PropertyWrite)
  (store : gmap (TFile * string) string) (k : TFile * string) :
  (forall w, w ∈ ws -> (w_file w, w_property w) <> k) ->
  applyWrites store ws !! k = store !! k.
Proof.
  unfold applyWrites. revert store.
  induction ws as [|w ws IH]; intros store Hall; [reflexivity|].
  cbn [foldl]. rewrite IH.
  - unfold applyWrite. apply lookup_insert_ne, Hall, elem_of_cons. now left.
  - intros w' Hw'. apply Hall, elem_of_cons. now right.
Qed.

Lemma drag_moves_snoc (task : Task) (s : Session) (ps : list (Q * Q)) (p : Q * Q)
  (h : Hook) :
  moves task s (ps ++ [p]) h
  = (fst (handleMouseMove task s (fst p) (snd p) (fst (moves task s ps h))),
     snd (moves task s ps h)
     ++ snd (handleMouseMove task s (fst p) (snd p) (fst (moves task s ps h)))).
Proof.
  unfold moves. rewrite foldl_app. cbn [foldl].
  destruct (foldl _ _ ps) as [h1 ws]. cbn [fst snd].
  now destruct (handleMouseMove task s (fst p) (snd p) h1).
Qed.

Lemma ltb_Qlt (x y : Q) : ltb x y = true <-> (x < y)%Q.
Proof.
  split; [apply ltb_lt|]. intros H. destruct (ltb x y) eqn:E; [reflexivity|].
  apply ltb_ge in E. lra.
Qed.

(** The moves of a drag that began at [(x0, y0)]: the hook keeps the start
    position, the flag records a move beyond 3 pixels, and every move
    writes both dates. *)
Lemma drag_moves_spec (task : Task) (s : Session) (x0 y0 : Q)
  (ps : list (Q * Q)) (h : Hook) :
  dragStartRef h = Some (x0, y0) ->
  dragStartRef (fst (moves task s ps h)) = Some (x0, y0)
  /\ isDragging (fst (moves task s ps h)) = isDragging h
  /\ (hadMovementRef (fst (moves task s ps h)) = true
      <-> hadMovementRef h = true \/ movedBeyond 3 x0 y0 ps)
  /\ snd (moves task s ps h) = flat_map (moveWrites task s x0) ps.
Proof.
  intros Hstart. induction ps as [|p ps IH] using rev_ind.
  - cbn. split; [exact Hstart|]. split; [reflexivity|]. split; [|reflexivity].
    split; [now left|]. intros [H|(p & Hp & _)]; [exact H|].
    now apply elem_of_nil in Hp.
  - destruct IH as (Hs & Hd & Hm & Hw).
    rewrite drag_moves_snoc. cbn [fst snd].
    set (h1 := fst (moves task s ps h)) in *.
    unfold handleMouseMove. rewrite Hs.
    assert (Hflag :
      ltb 3 (Math_abs (fst p - x0)) || ltb 3 (Math_abs (snd p - y0)) = true
      <-> (3 < Qabs (fst p - x0) \/ 3 < Qabs (snd p - y0))%Q).
    { rewrite orb_true_iff, !ltb_Qlt. reflexivity. }
    destruct (ltb 3 (Math_abs (fst p - x0)) || ltb 3 (Math_abs (snd p - y0))) eqn:E;
      cbn [fst snd isDragging dragStartRef hadMovementRef].
    + split; [first [exact Hs|reflexivity]|]. split; [exact Hd|]. split.
      * split; [|reflexivity]. intros _. right. exists p.
        split; [apply elem_of_app; right; apply list_elem_of_singleton; reflexivity|].
        now apply Hflag.
      * rewrite flat_map_app. cbn [flat_map]. rewrite app_nil_r, Hw. reflexivity.
    + split; [first [exact Hs|reflexivity]|]. split; [exact Hd|]. split.
      * rewrite Hm. split.
        -- intros [H|(q & Hq & Hb)]; [now left|]. right. exists q.
           split; [apply elem_of_app; now left|exact Hb].
        -- intros [H|(q & Hq & Hb)]; [now left|].
           apply elem_of_app in Hq as [Hq|Hq]; [right; now exists q|].
           apply list_elem_of_singleton in Hq as ->.
           apply Hflag in Hb. discriminate.
      * rewrite flat_map_app. cbn [flat_map]. rewrite app_nil_r, Hw. reflexivity.
Qed.

Lemma moveWrites_keys (task : Task) (s : Session) (x0 : Q) (ps : list (Q * Q))
  (w : PropertyWrite) :
  w ∈ flat_map (moveWrites task s x0) ps ->
  (w_file w, w_property w) = (file task, startDateProperty task)
  \/ (w_file w, w_property w) = (file task, endDateProperty task).
Proof.
  intros Hw. apply list_elem_of_In, in_flat_map in Hw as (p & _ & Hw).
  unfold moveWrites in Hw. simpl in Hw.
  destruct Hw as [<-|[<-|[]]]; [now left|now right].
Qed.

(** X12: a drag of a task whose two date properties differ, in a window that
    does not end before it starts: every move writes both dates, and after
    the last move the store holds the original start and the original end,
    both shifted by the whole number of days of that move alone; nothing
    else has changed. *)
Theorem task_drag_shifts_both_dates (task : Task) (timelineStart timelineEnd : Date)
  (chartWidth : option Q) (x0 y0 : Q) (h : Hook) (ps : list (Q * Q)) (x1 y1 : Q)
  (store : gmap (TFile * string) string) :
  (timelineStart <= timelineEnd)%Z ->
  startDateProperty task <> endDateProperty task ->
  exists h1 s h2 writes,
    handleDragStart task timelineStart timelineEnd chartWidth 0 x0 y0 h = (h1, Some s)
    /\ moves task s (ps ++ [(x1, y1)]) h1 = (h2, writes)
    /\ length writes = (2 * (length ps + 1))%nat
    /\ let days :=
         Math_round ((x1 - x0) / getPixelsPerDay timelineStart timelineEnd chartWidth) in
       let store' := applyWrites store writes in
       store' !! (file task, startDateProperty task)
       = Some (toISOString (addDays (startDate task) days))
       /\ store' !! (file task, endDateProperty task)
          = Some (toISOString (addDays (endDate task) days))
       /\ (forall f p,
             (f, p) <> (file task, startDateProperty task) ->
             (f, p) <> (file task, endDateProperty task) ->
             store' !! (f, p) = store !! (f, p)).
Proof.
  intros _ Hprops.
  set (h1 := mkHook true (Some (x0, y0)) false).
  set (s := mkSession (startDate task) (endDate task) (group task)
                      (getPixelsPerDay timelineStart timelineEnd chartWidth)).
  exists h1, s, (fst (moves task s (ps ++ [(x1, y1)]) h1)),
         (snd (moves task s (ps ++ [(x1, y1)]) h1)).
  split; [reflexivity|].
  destruct (drag_moves_spec task s x0 y0 (ps ++ [(x1, y1)]) h1 eq_refl)
    as (_ & _ & _ & Hw).
  split; [apply surjective_pairing|].
  rewrite Hw. rewrite flat_map_app. cbn [flat_map]. rewrite app_nil_r.
  split.
  - rewrite length_app. cbn [length moveWrites].
    assert (Hlen : forall l : list (Q * Q),
               length (flat_map (moveWrites task s x0) l) = (2 * length l)%nat).
    { induction l as [|q l IHl]; [reflexivity|].
      cbn [flat_map length]. rewrite length_app, IHl. cbn [moveWrites length]. lia. }
    rewrite Hlen. lia.
  - cbv zeta. rewrite applyWrites_app.
    unfold moveWrites at 2 4 6. cbn [fst snd pixelsPerDay originalStartDate originalEndDate s].
    unfold applyWrites at 1 3 5. cbn [foldl]. unfold applyWrite.
    cbn [w_file w_property w_value].
    split; [|split].
    + rewrite lookup_insert_ne by congruence. apply lookup_insert_eq.
    + apply lookup_insert_eq.
    + intros f p H1 H2.
      rewrite lookup_insert_ne by congruence.
      rewrite lookup_insert_ne by congruence.
      apply applyWrites_lookup_other.
      intros w Hin. destruct (moveWrites_keys task s x0 ps w Hin) as [->| ->];
        congruence.
Qed.

Lemma task_drag_shifts_both_dates_witness :
  exists h1 s h2 writes,
    handleDragStart januaryTask (mk 2025 1 1 0 0) (mk 2025 2 1 0 0 - 1)%Z
                    (Some 3100%Q) 0 500 60 (mkHook false None false) = (h1, Some s)
    /\ moves januaryTask s ([(650%Q, 60%Q)] ++ [(800%Q, 61%Q)]) h1 = (h2, writes)
    /\ length writes = (2 * (length [(650%Q, 60%Q)] + 1))%nat
    /\ let days :=
         Math_round ((800 - 500)
                     / getPixelsPerDay (mk 2025 1 1 0 0) (mk 2025 2 1 0 0 - 1)%Z
                                       (Some 3100%Q)) in
       let store' := applyWrites ∅ writes in
       store' !! (file januaryTask, startDateProperty januaryTask)
       = Some (toISOString (addDays (startDate januaryTask) days))
       /\ store' !! (file januaryTask, endDateProperty januaryTask)
          = Some (toISOString (addDays (endDate januaryTask) days))
       /\ (forall f p,
             (f, p) <> (file januaryTask, startDateProperty januaryTask) ->
             (f, p) <> (file januaryTask, endDateProperty januaryTask) ->
             store' !! (f, p) = (∅ : gmap (TFile * string) string) !! (f, p)).
Proof.
  apply (task_drag_shifts_both_dates januaryTask (mk 2025 1 1 0 0)
           (mk 2025 2 1 0 0 - 1)%Z (Some 3100%Q) 500 60 (mkHook false None false)
           [(650%Q, 60%Q)] 800 61 ∅);
    [vm_compute; congruence | discriminate].
Defined.

(** X13: after a drag the movement flag is set exactly when some position of the
    gesture lay more than 3 pixels from the start, horizontally or
    vertically; releasing the pointer keeps the flag, reading it clears
    it. *)
Theorem task_drag_flag_records_movement (task : Task)
  (timelineStart timelineEnd : Date) (chartWidth : option Q) (x0 y0 : Q)
  (h : Hook) (ps : list (Q * Q)) (groups : list TaskGroup)
  (groupByProperty : string) (chartTop : option Q) (clientY : Q) :
  exists h1 s,
    handleDragStart task timelineStart timelineEnd chartWidth 0 x0 y0 h = (h1, Some s)
    /\ let h2 := fst (moves task s ps h1) in
       let h3 := fst (handleMouseUp task s groups groupByProperty chartTop clientY h2) in
       (fst (consumeHadMovement h3) = true <-> movedBeyond 3 x0 y0 ps)
       /\ fst (consumeHadMovement (snd (consumeHadMovement h3))) = false
       /\ isDragging h3 = false.
Proof.
  set (h1 := mkHook true (Some (x0, y0)) false).
  set (s := mkSession (startDate task) (endDate task) (group task)
                      (getPixelsPerDay timelineStart timelineEnd chartWidth)).
  exists h1, s. split; [reflexivity|].
  destruct (drag_moves_spec task s x0 y0 ps h1 eq_refl) as (_ & _ & Hm & _).
  cbv zeta. set (h2 := fst (moves task s ps h1)) in *.
  assert (Hup : forall h', 
    hadMovementRef (fst (handleMouseUp task s groups groupByProperty chartTop clientY h'))
    = hadMovementRef h'
    /\ isDragging (fst (handleMouseUp task s groups groupByProperty chartTop clientY h'))
       = false).
  { intros h'. unfold handleMouseUp.
    destruct chartTop as [top|]; [|now split].
    destruct (negb (length groups =? 0)%nat && truthy groupByProperty); [|now split].
    destruct (findGroupAtPosition _ _ _) as [g|]; [|now split].
    destruct (truthy g && negb (bool_decide (Some g = originalGroup s))); now split. }
  destruct (Hup h2) as [Hflag Hdrag].
  unfold consumeHadMovement. cbn [fst snd hadMovementRef].
  rewrite Hflag. split; [|split; [reflexivity|exact Hdrag]].
  rewrite Hm. cbn [hadMovementRef h1]. split.
  - intros [H|H]; [discriminate|exact H].
  - intros H. now right.
Qed.

(** *** Task resize *)

Lemma resize_move_writes (task : Task) (s : UseTaskResize.Session) (x : Q)
  (h : UseTaskResize.Hook) :
  snd (UseTaskResize.handleMouseMove task s x h)
  = if accepted task s x
    then [mkWrite (file task) (handleProperty task (UseTaskResize.handle s))
                  (toISOString (UseTaskResize.candidate s x))]
    else [].
Proof.
  unfold UseTaskResize.handleMouseMove, accepted, UseTaskResize.candidate, getTime,
    handleProperty.
  cbv zeta. set (c := calculateDateFromDelta _ _ _).
  destruct (c =? UseTaskResize.originalDate s)%Z; cbn [negb andb]; [reflexivity|].
  destruct (UseTaskResize.handle s).
  - change (bool_decide (HStart = HStart)) with true. cbn [andb].
    rewrite (Z.ltb_antisym (endDate task) c).
    destruct (endDate task <=? c)%Z; reflexivity.
  - change (bool_decide (HEnd = HStart)) with false.
    change (bool_decide (HEnd = HEnd)) with true. cbn [andb].
    rewrite (Z.ltb_antisym c (startDate task)).
    destruct (c <=? startDate task)%Z; reflexivity.
Qed.

Lemma resize_moves_writes (task : Task) (s : UseTaskResize.Session) (xs : list Q)
  (h : UseTaskResize.Hook) :
  snd (UseTaskResize.moves task s xs h)
  = map (fun x => mkWrite (file task) (handleProperty task (UseTaskResize.handle s))
                          (toISOString (UseTaskResize.candidate s x)))
        (List.filter (accepted task s) xs).
Proof.
  induction xs as [|x xs IH] using rev_ind; [reflexivity|].
  unfold UseTaskResize.moves in *. rewrite foldl_app. cbn [foldl].
  destruct (foldl _ _ xs) as [h1 ws]. cbn [snd] in IH.
  pose proof (resize_move_writes task s x h1) as Hx.
  destruct (UseTaskResize.handleMouseMove task s x h1) as [h2 ws']. cbn [snd] in *.
  rewrite IH, Hx, List.filter_app, map_app. cbn [List.filter].
  destruct (accepted task s x); reflexivity.
Qed.

Lemma applyWrites_last_value (xs : list Q) (f : TFile) (prop : string)
  (value : Q -> string) (store : gmap (TFile * string) string) :
  let store' := applyWrites store (map (fun x => mkWrite f prop (value x)) xs) in
  store' !! (f, prop)
  = match last xs with Some x => Some (value x) | None => store !! (f, prop) end
  /\ forall k, k <> (f, prop) -> store' !! k = store !! k.
Proof.
  cbv zeta. induction xs as [|x xs IH] using rev_ind.
  - split; [reflexivity|]. intros k _. reflexivity.
  - rewrite map_app, applyWrites_app, last_snoc. cbn [map].
    set (inner := applyWrites store _) in *.
    unfold applyWrites. cbn [foldl]. unfold applyWrite.
    cbn [w_file w_property w_value]. split.
    + apply lookup_insert_eq.
    + intros k Hk. rewrite lookup_insert_ne by congruence. now apply IH.
Qed.

Lemma resize_store (task : Task) (s : UseTaskResize.Session) (xs : list Q)
  (h : UseTaskResize.Hook) (store : gmap (TFile * string) string) :
  let key := (file task, handleProperty task (UseTaskResize.handle s)) in
  let store' := applyWrites store (snd (UseTaskResize.moves task s xs h)) in
  store' !! key
  = match last (List.filter (accepted task s) xs) with
    | Some x => Some (toISOString (UseTaskResize.candidate s x))
    | None => store !! key
    end
  /\ (forall k, k <> key -> store' !! k = store !! k)
  /\ accepted task s (UseTaskResize.startX s) = false
  /\ applyWrites store
       (snd (UseTaskResize.moves task s (xs ++ [UseTaskResize.startX s]) h))
     = store'.
Proof.
  cbv zeta. rewrite !resize_moves_writes.
  assert (Hback : accepted task s (UseTaskResize.startX s) = false).
  { unfold accepted, UseTaskResize.candidate, calculateDateFromDelta.
    rewrite (Math_round_comp _ (inject_Z 0)).
    - rewrite Math_round_Z, addDays_zero, Z.eqb_refl. reflexivity.
    - change (inject_Z 0) with 0%Q. unfold Qdiv. ring. }
  destruct (applyWrites_last_value (List.filter (accepted task s) xs) (file task)
              (handleProperty task (UseTaskResize.handle s))
              (fun x => toISOString (UseTaskResize.candidate s x)) store)
    as [H1 H2].
  split; [exact H1|]. split; [exact H2|]. split; [exact Hback|].
  rewrite List.filter_app. cbn [List.filter]. rewrite Hback, app_nil_r. reflexivity.
Qed.

(** X14: a resize of a task, in a window that does not end before it
    starts, persists the date of the last accepted move and nothing else:
    moves that propose the date the handle started from, or a date across
    the other bound, leave the store as it is.  So a handle that is dragged
    away and back to where it was grabbed keeps the date of the move
    before, not its original date. *)
Theorem task_resize_keeps_the_last_accepted_date (task : Task)
  (timelineStart timelineEnd : Date) (chartWidth : option Q) (x0 : Q) (hd : Handle)
  (h0 h : UseTaskResize.Hook) (xs : list Q)
  (store : gmap (TFile * string) string) :
  (timelineStart <= timelineEnd)%Z ->
  let s := snd (UseTaskResize.handleResizeStart task timelineStart timelineEnd
                  chartWidth x0 hd h0) in
  let key := (file task, handleProperty task hd) in
  let store' := applyWrites store (snd (UseTaskResize.moves task s xs h)) in
  store' !! key
  = match last (List.filter (accepted task s) xs) with
    | Some x => Some (toISOString (UseTaskResize.candidate s x))
    | None => store !! key
    end
  /\ (forall k, k <> key -> store' !! k = store !! k)
  /\ accepted task s x0 = false
  /\ applyWrites store (snd (UseTaskResize.moves task s (xs ++ [x0]) h)) = store'.
Proof.
  intros _. cbv zeta.
  exact (resize_store task
           (snd (UseTaskResize.handleResizeStart task timelineStart timelineEnd
                   chartWidth x0 hd h0)) xs h store).
Qed.

Lemma task_resize_keeps_the_last_accepted_date_witness :
  let s := snd (UseTaskResize.handleResizeStart januaryTask (mk 2025 1 1 0 0)
                  (mk 2025 2 1 0 0 - 1)%Z (Some 3100%Q) 600 HStart
                  (UseTaskResize.mkHook false None false)) in
  applyWrites ∅
    (snd (UseTaskResize.moves januaryTask s ([900%Q] ++ [600%Q])
            (UseTaskResize.mkHook true (Some HStart) false)))
  = applyWrites ∅
      (snd (UseTaskResize.moves januaryTask s [900%Q]
              (UseTaskResize.mkHook true (Some HStart) false))).
Proof.
  apply (task_resize_keeps_the_last_accepted_date januaryTask (mk 2025 1 1 0 0)
           (mk 2025 2 1 0 0 - 1)%Z (Some 3100%Q) 600 HStart
           (UseTaskResize.mkHook false None false)
           (UseTaskResize.mkHook true (Some HStart) false) [900%Q] ∅).
  vm_compute. congruence.
Defined.

(** The start handle of a task is dragged three days to the right and back
    to where it was grabbed: the start stays three days later. *)
Example resize_and_return_keeps_the_change :
  snd (UseTaskResize.moves januaryTask
         (snd (UseTaskResize.handleResizeStart januaryTask (mk 2025 1 1 0 0)
                 (mk 2025 2 1 0 0 - 1)%Z (Some 3100%Q) 600 HStart
                 (UseTaskResize.mkHook false None false)))
         [900%Q; 600%Q] (UseTaskResize.mkHook true (Some HStart) false))
  = [mkWrite "t7.md" "start" "2025-01-09T00:00:00.000Z"].
Proof. vm_compute. reflexivity. Qed.

End GanttMoreFacts.

(** ** Day view: snapping and drag-to-create *)

Module DayViewMoreFacts.
Import JS JSFacts JSDate DateFns DateFnsMore Calendar DayView DayViewParts.
Import DayViewMoreDefs.
Local Open Scope Z_scope.

Lemma Qfloor_div_pos (n : Z) (p : positive) :
  Qfloor (inject_Z n / inject_Z (Zpos p)) = n / Zpos p.
Proof.
  unfold Qdiv, Qinv, Qmult, inject_Z, Qfloor. simpl.
  now rewrite Z.mul_1_r.
Qed.

Lemma scale_hour (y : Q) : (y / HOUR_HEIGHT * 60 == y)%Q.
Proof. unfold HOUR_HEIGHT. field. Qed.

Lemma positionToMinutes_eq (y : Q) : positionToMinutes y = Qfloor y / 15 * 15.
Proof.
  unfold positionToMinutes, Math_floor.
  rewrite (Qfloor_comp _ _ (scale_hour y)).
  now rewrite (Qfloor_div_pos _ 15).
Qed.

Lemma minutesToPosition_eq (m : Z) : (minutesToPosition m == inject_Z m)%Q.
Proof. unfold minutesToPosition, HOUR_HEIGHT. field. Qed.

Lemma positionToMinutes_bounds (y : Q) :
  positionToMinutes y mod 15 = 0
  /\ (inject_Z (positionToMinutes y) <= y)%Q
  /\ (y < inject_Z (positionToMinutes y + 15))%Q.
Proof.
  rewrite positionToMinutes_eq.
  pose proof (Qfloor_le y) as Hle. pose proof (Qlt_floor y) as Hlt.
  split; [apply Z.mod_mul; lia|].
  assert (H1 : Qfloor y / 15 * 15 <= Qfloor y)
    by (Z.div_mod_to_equations; lia).
  assert (H2 : Qfloor y + 1 <= Qfloor y / 15 * 15 + 15)
    by (Z.div_mod_to_equations; lia).
  rewrite Zle_Qle in H1, H2. repeat rewrite inject_Z_plus in *.
  change (inject_Z 15) with 15%Q in *. change (inject_Z 1) with 1%Q in *.
  split; lra.
Qed.

Lemma positionToMinutes_inject (m : Z) :
  m mod 15 = 0 -> forall y : Q, (y == inject_Z m)%Q -> positionToMinutes y = m.
Proof.
  intros Hm y Hy. rewrite positionToMinutes_eq.
  rewrite (Qfloor_comp _ _ Hy), Qfloor_Z.
  Z.div_mod_to_equations. lia.
Qed.

(** X15: snapping: [positionToMinutes] gives the quarter of an hour that
    contains the position, and [minutesToPosition] gives the position back
    at which a quarter begins. *)
Theorem positions_snap_to_quarter_hours (y : Q) :
  let m := positionToMinutes y in
  m mod 15 = 0
  /\ (minutesToPosition m <= y)%Q
  /\ (y < minutesToPosition (m + 15))%Q
  /\ positionToMinutes (minutesToPosition m) = m
  /\ (forall k : Z, k mod 15 = 0 -> positionToMinutes (minutesToPosition k) = k).
Proof.
  cbv zeta. destruct (positionToMinutes_bounds y) as (Hm & Hle & Hlt).
  pose proof (minutesToPosition_eq (positionToMinutes y)) as E1.
  pose proof (minutesToPosition_eq (positionToMinutes y + 15)) as E2.
  split; [exact Hm|]. split; [lra|]. split; [lra|].
  split; [|intros k Hk]; apply positionToMinutes_inject;
    auto using minutesToPosition_eq.
Qed.

Lemma positionToMinutes_in_day (y : Q) :
  (0 <= y)%Q -> (y <= 1440)%Q ->
  0 <= positionToMinutes y <= 1440.
Proof.
  intros H0 H1. destruct (positionToMinutes_bounds y) as (Hm & Hle & Hlt).
  assert (Hup : (inject_Z (positionToMinutes y) <= inject_Z 1440)%Q)
    by (change (inject_Z 1440) with 1440%Q; lra).
  assert (Hlo : (inject_Z (-15) < inject_Z (positionToMinutes y))%Q).
  { rewrite inject_Z_plus in Hlt.
    change (inject_Z 15) with 15%Q in Hlt. change (inject_Z (-15)) with (-15)%Q. lra. }
  rewrite <- Zle_Qle in Hup. rewrite <- Zlt_Qlt in Hlo.
  split; [|exact Hup]. Z.div_mod_to_equations. lia.
Qed.

Lemma mod_mod_hour (x : Z) : (x mod msPerDay) mod msPerHour = x mod msPerHour.
Proof. unfold msPerDay, msPerHour. Z.div_mod_to_equations. lia. Qed.

Lemma mod_mod_minute (x : Z) : (x mod msPerDay) mod msPerMinute = x mod msPerMinute.
Proof. unfold msPerDay, msPerMinute. Z.div_mod_to_equations. lia. Qed.

Lemma mod_hour_minute (x : Z) : (x mod msPerHour) mod msPerMinute = x mod msPerMinute.
Proof. unfold msPerHour, msPerMinute. Z.div_mod_to_equations. lia. Qed.

(** [setMinutes(setHours(date, h), mi)] is minute [60 h + mi] of the day of
    [date]. *)
Lemma setMinutes_setHours (date : Date) (h mi : Z) :
  setMinutes (setHours date h) mi = atMinute date (60 * h + mi).
Proof.
  unfold setMinutes, atMinute, startOfDay, JSDate.getHours, TimeWithinDay, Day.
  set (X := setHours date h).
  rewrite (mod_mod_minute X), (mod_mod_minute date).
  assert (H1 : X / msPerDay * msPerDay + X mod msPerDay / msPerHour * msPerHour
               = X - X mod msPerHour).
  { rewrite <- (mod_mod_hour X). generalize X. intros Y.
    unfold msPerDay, msPerHour. Z.div_mod_to_equations. lia. }
  rewrite H1.
  assert (H2 : X mod msPerHour = date mod msPerHour).
  { subst X. unfold setHours, TimeWithinDay, Day. rewrite (mod_mod_hour date).
    unfold msPerDay, msPerHour. Z.div_mod_to_equations. lia. }
  assert (H3 : X mod msPerMinute = date mod msPerMinute).
  { rewrite <- (mod_hour_minute X), H2. apply mod_hour_minute. }
  rewrite H2, H3. subst X. unfold setHours, TimeWithinDay, Day.
  rewrite (mod_mod_hour date). unfold msPerDay, msPerHour, msPerMinute. lia.
Qed.

Lemma handleMouseDown_dragging (c : Column) (clientY : Q) (st : Creation) :
  let y := (clientY - rectTop c + scrollTopOr0 c)%Q in
  (0 <= y)%Q -> (y < 1440)%Q ->
  let m0 := positionToMinutes y in
  0 <= m0 <= 1425 /\ m0 mod 15 = 0
  /\ dragging m0 m0 (m0 + 15) (handleMouseDown (Some c) 0 false clientY st).
Proof.
  cbv zeta. intros H0 H1.
  set (y := (clientY - rectTop c + scrollTopOr0 c)%Q) in *.
  destruct (positionToMinutes_bounds y) as (Hm & Hle & Hlt).
  destruct (positionToMinutes_in_day y H0 ltac:(lra)) as [Hlo Hhi].
  assert (Hlt' : (inject_Z (positionToMinutes y) < inject_Z 1440)%Q)
    by (change (inject_Z 1440) with 1440%Q; lra).
  rewrite <- Zlt_Qlt in Hlt'.
  split; [split; [exact Hlo|Z.div_mod_to_equations; lia]|].
  split; [exact Hm|].
  unfold handleMouseDown, dragging. change (negb (0 =? 0) || false) with false.
  cbv iota. fold y. cbn [isCreating creationStart creationEnd creationStartRef].
  split; [reflexivity|]. split; [reflexivity|].
  eexists _, _. split; [reflexivity|]. split; [reflexivity|].
  split; [apply minutesToPosition_eq|].
  pose proof (minutesToPosition_eq (positionToMinutes y)) as E1.
  pose proof (minutesToPosition_eq 15) as E2.
  rewrite inject_Z_plus. lra.
Qed.

Lemma handleMouseMove_dragging (c : Column) (clientY : Q) (st : Creation)
  (m0 a b : Z) :
  0 <= m0 <= 1425 -> m0 mod 15 = 0 ->
  dragging m0 a b st ->
  exists a' b',
    dragging m0 a' b' (handleMouseMove (Some c) clientY st)
    /\ quarters m0 a' b'.
Proof.
  intros Hm0 Hmod (Hc & Href & cs & ce & Hcs & Hce & _ & _).
  unfold handleMouseMove. rewrite Hc, Href. cbn [negb].
  set (y := (clientY - rectTop c + scrollTopOr0 c)%Q).
  set (z := Qmax 0 (Qmin y (24 * HOUR_HEIGHT))).
  assert (Hz0 : (0 <= z)%Q) by apply Q.le_max_l.
  assert (Hz1 : (z <= 1440)%Q).
  { unfold z. apply Q.max_lub; [discriminate|].
    eapply Qle_trans; [apply Q.le_min_r|]. unfold HOUR_HEIGHT. discriminate. }
  destruct (positionToMinutes_in_day z Hz0 Hz1) as [Hlo Hhi].
  destruct (positionToMinutes_bounds z) as (Hsm & _ & _).
  set (sn := positionToMinutes z) in *.
  exists (Z.min m0 sn), (Z.max (Z.max m0 sn) (Z.min m0 sn + 15)).
  split.
  - unfold dragging. cbn [isCreating creationStart creationEnd creationStartRef].
    split; [first [exact Hc|reflexivity]|].
    split; [first [exact Href|reflexivity]|].
    eexists _, _. split; [reflexivity|]. split; [reflexivity|].
    split; apply minutesToPosition_eq.
  - unfold quarters.
    assert (Ha : Z.min m0 sn mod 15 = 0)
      by (destruct (Z.min_spec m0 sn) as [[_ ->]|[_ ->]]; assumption).
    assert (Hb : Z.max (Z.max m0 sn) (Z.min m0 sn + 15) mod 15 = 0).
    { destruct (Z.max_spec (Z.max m0 sn) (Z.min m0 sn + 15)) as [[_ ->]|[_ ->]].
      - revert Ha. generalize (Z.min m0 sn). intros n Hn.
        Z.div_mod_to_equations. lia.
      - destruct (Z.max_spec m0 sn) as [[_ ->]|[_ ->]]; assumption. }
    repeat split; try assumption; lia.
Qed.

Lemma moves_dragging (c : Column) (ys : list Q) (st : Creation) (m0 a b : Z) :
  0 <= m0 <= 1425 -> m0 mod 15 = 0 ->
  dragging m0 a b st -> quarters m0 a b ->
  exists a' b',
    dragging m0 a' b' (foldl (fun s y => handleMouseMove (Some c) y s) st ys)
    /\ quarters m0 a' b'.
Proof.
  intros Hm0 Hmod. revert st a b.
  induction ys as [|y ys IH]; intros st a b Hd Hq.
  - exists a, b. now split.
  - cbn [foldl].
    destruct (handleMouseMove_dragging c y st m0 a b Hm0 Hmod Hd)
      as (a1 & b1 & Hd1 & Hq1).
    exact (IH _ a1 b1 Hd1 Hq1).
Qed.

Lemma handleMouseUp_dragging (currentDate : Date) (st : Creation) (m0 a b : Z) :
  dragging m0 a b st -> 0 <= a -> 0 <= b ->
  handleMouseUp currentDate st
  = (Some (atMinute currentDate a, atMinute currentDate b), idle).
Proof.
  intros (Hc & Href & cs & ce & Hcs & Hce & Ea & Eb) Ha Hb.
  unfold handleMouseUp. rewrite Hc, Hcs, Hce. cbn [negb].
  assert (Hround : forall (x : Q) (n : Z), (x == inject_Z n)%Q ->
            Math_round (x / HOUR_HEIGHT * 60) = n).
  { intros x n Hx. rewrite (Math_round_comp _ (inject_Z n)).
    - apply Math_round_Z.
    - rewrite scale_hour. exact Hx. }
  rewrite (Hround cs a Ea), (Hround ce b Eb).
  unfold Math_floor. rewrite !(Qfloor_div_pos _ 60).
  rewrite !Z.rem_mod_nonneg by lia.
  rewrite !setMinutes_setHours.
  replace (60 * (a / 60) + a mod 60) with a by (Z.div_mod_to_equations; lia).
  replace (60 * (b / 60) + b mod 60) with b by (Z.div_mod_to_equations; lia).
  reflexivity.
Qed.

(** X16: drag-to-create that begins inside the hourly grid proposes an event on
    the day shown: it begins and ends on quarters of an hour, lasts at
    least a quarter of an hour, ends at the next midnight at the latest and
    reaches the quarter in which the pointer went down; afterwards the
    gesture is at rest. *)
Theorem drag_to_create_proposes_quarter_hours (currentDate : Date) (c : Column)
  (y0 : Q) (ys : list Q) (st : Creation) :
  let y := (y0 - rectTop c + scrollTopOr0 c)%Q in
  (0 <= y)%Q -> (y < 1440)%Q ->
  exists a b : Z,
    createByDrag currentDate (Some c) y0 ys st
    = (Some (atMinute currentDate a, atMinute currentDate b), idle)
    /\ quarters (positionToMinutes y) a b.
Proof.
  cbv zeta. intros H0 H1.
  destruct (handleMouseDown_dragging c y0 st H0 H1) as (Hm0 & Hmod & Hd).
  set (m0 := positionToMinutes (y0 - rectTop c + scrollTopOr0 c)) in *.
  assert (Hq : quarters m0 m0 (m0 + 15)).
  { unfold quarters. repeat split; try lia. Z.div_mod_to_equations. lia. }
  destruct (moves_dragging c ys _ m0 m0 (m0 + 15) Hm0 Hmod Hd Hq)
    as (a & b & Hd' & Hq').
  exists a, b. split; [|exact Hq'].
  unfold createByDrag. destruct Hq' as (Ha & Hab & _).
  apply (handleMouseUp_dragging currentDate _ m0 a b Hd'); lia.
Qed.

Lemma drag_to_create_proposes_quarter_hours_witness :
  exists a b : Z,
    createByDrag (mk 2025 3 14 0 0) (Some (mkColumn 120 (Some 300%Q))) 370
                 [400%Q; 455%Q] idle
    = (Some (atMinute (mk 2025 3 14 0 0) a, atMinute (mk 2025 3 14 0 0) b), idle)
    /\ quarters (positionToMinutes (370 - 120 + 300)) a b.
Proof.
  apply (drag_to_create_proposes_quarter_hours (mk 2025 3 14 0 0)
           (mkColumn 120 (Some 300%Q)) 370 [400%Q; 455%Q] idle);
    [vm_compute; congruence | reflexivity].
Defined.

(** Pressing at 09:10 and dragging down to 10:35 proposes 09:00 to
    10:30. *)
Example drag_to_create_a_morning_event :
  fst (createByDrag (mk 2025 3 14 0 0) (Some (mkColumn 120 (Some 300%Q))) 370
                    [400%Q; 455%Q] idle)
  = Some (mk 2025 3 14 9 0, mk 2025 3 14 10 30).
Proof. vm_compute. reflexivity. Qed.

(** *** Positions and sections *)

Lemma getHours_range (t : Date) : 0 <= JSDate.getHours t <= 23.
Proof.
  unfold JSDate.getHours, TimeWithinDay, msPerDay, msPerHour.
  Z.div_mod_to_equations. lia.
Qed.

Lemma getMinutes_range (t : Date) : 0 <= JSDate.getMinutes t <= 59.
Proof.
  unfold JSDate.getMinutes, TimeWithinDay, msPerDay, msPerMinute.
  Z.div_mod_to_equations. lia.
Qed.

Lemma minute_of_day (t : Date) :
  JSDate.getHours t * 60 + JSDate.getMinutes t = TimeWithinDay t / msPerMinute.
Proof.
  unfold JSDate.getHours, JSDate.getMinutes, TimeWithinDay, msPerDay, msPerHour,
    msPerMinute.
  Z.div_mod_to_equations. lia.
Qed.

(** The pixels of a time of day, one per minute. *)
Lemma pixels_of_time (t : Date) :
  (inject_Z (getHours t) * HOUR_HEIGHT + inject_Z (getMinutes t) / 60 * HOUR_HEIGHT
   == inject_Z (TimeWithinDay t / msPerMinute))%Q.
Proof.
  rewrite <- minute_of_day. unfold getHours, getMinutes, HOUR_HEIGHT.
  rewrite inject_Z_plus, inject_Z_mult. change (inject_Z 60) with 60%Q. field.
Qed.

Lemma minute_of_day_range (t : Date) : 0 <= TimeWithinDay t / msPerMinute <= 1439.
Proof.
  unfold TimeWithinDay, msPerDay, msPerMinute. Z.div_mod_to_equations. lia.
Qed.

(** X17: the top of an event lies within the day, at one pixel per minute, and
    its height is never negative; the part of an event of several days
    that a day shows ends at the bottom of the grid at the latest, and an
    event of a single day is at least 20 pixels high. *)
Theorem event_position_is_inside_the_day (event : CalendarEvent) (currentDate : Date) :
  let top := fst (getEventPosition event currentDate) in
  let height := snd (getEventPosition event currentDate) in
  (0 <= top /\ top < 1440 /\ 0 <= height)%Q
  /\ match endDate event with
     | Some e =>
         if isSameDay (date event) e
         then (top == inject_Z (TimeWithinDay (date event) / msPerMinute)
               /\ 20 <= height)%Q
         else ((top == 0 \/ top == inject_Z (TimeWithinDay (date event) / msPerMinute))
               /\ top + height <= 1440)%Q
     | None =>
         (top == inject_Z (TimeWithinDay (date event) / msPerMinute)
          /\ height == 60)%Q
     end.
Proof.
  cbv zeta. unfold getEventPosition.
  pose proof (pixels_of_time (date event)) as Hs.
  pose proof (minute_of_day_range (date event)) as Hr.
  set (sm := TimeWithinDay (date event) / msPerMinute) in *.
  assert (Hs0 : (0 <= inject_Z sm)%Q) by (rewrite <- (Zle_Qle 0); lia).
  assert (Hs1 : (inject_Z sm <= 1439)%Q)
    by (change 1439%Q with (inject_Z 1439); rewrite <- Zle_Qle; lia).
  set (top := (inject_Z (getHours (date event)) * HOUR_HEIGHT
               + inject_Z (getMinutes (date event)) / 60 * HOUR_HEIGHT)%Q) in *.
  destruct (endDate event) as [e|].
  - destruct (isSameDay (date event) e) eqn:Esame; cbn [negb].
    + cbn [fst snd].
      pose proof (Q.le_max_r (inject_Z (differenceInMinutes e (date event)) / 60
                              * HOUR_HEIGHT) 20) as Hmax.
      repeat split; lra.
    + pose proof (pixels_of_time e) as He.
      pose proof (minute_of_day_range e) as Hre.
      set (em := TimeWithinDay e / msPerMinute) in *.
      assert (He0 : (0 <= inject_Z em)%Q) by (rewrite <- (Zle_Qle 0); lia).
      assert (He1 : (inject_Z em <= 1439)%Q)
        by (change 1439%Q with (inject_Z 1439); rewrite <- Zle_Qle; lia).
      unfold HOUR_HEIGHT in *.
      destruct (isSameDay (date event) currentDate);
        [|destruct (isSameDay e currentDate)]; cbn [fst snd].
      * split; [repeat split; lra|]. split; [right; lra|lra].
      * split; [repeat split; lra|]. split; [left; reflexivity|lra].
      * split; [repeat split; lra|]. split; [left; reflexivity|lra].
  - cbn [fst snd]. unfold HOUR_HEIGHT in *. repeat split; lra.
Qed.

Lemma filter_partition {A} (p : A -> bool) (l : list A) :
  List.filter p l ++ List.filter (fun x => negb (p x)) l ≡ₚ l.
Proof.
  induction l as [|x l IH]; [reflexivity|].
  cbn [List.filter]. destruct (p x); cbn [negb].
  - cbn. now rewrite IH.
  - rewrite <- Permutation_middle. now rewrite IH.
Qed.

(** X18: every event of the day is shown exactly once: in the all-day section
    when [isAllDayEvent] holds of it, and otherwise in the hourly grid,
    with the position [getEventPosition] gives it. *)
Theorem day_sections_split_the_events
  (isDayInEventRange : CalendarEvent -> Date -> bool)
  (events : list CalendarEvent) (currentDate : Date) :
  exists layout,
    timedEventsLayout isDayInEventRange events currentDate = Some layout
    /\ allDayEvents isDayInEventRange events currentDate ++ map DayView.event layout
       ≡ₚ dayEvents isDayInEventRange events currentDate
    /\ (forall e, e ∈ allDayEvents isDayInEventRange events currentDate ->
          isAllDayEvent e = true)
    /\ (forall r, r ∈ layout ->
          isAllDayEvent (DayView.event r) = false
          /\ (top r, height r) = getEventPosition (DayView.event r) currentDate).
Proof.
  unfold timedEventsLayout.
  destruct (LayoutFacts.calculateEventLayout_spec
              (timedEvents isDayInEventRange events currentDate) currentDate)
    as (layout & Hl & Hpos & _).
  destruct (LayoutFacts.layout_events _ _ _ Hpos) as [Hperm Hgeo].
  exists layout. split; [exact Hl|]. split; [|split].
  - rewrite Hperm. unfold allDayEvents, timedEvents. apply filter_partition.
  - intros e He. unfold allDayEvents in He.
    apply list_elem_of_In, filter_In in He. tauto.
  - intros r Hr. split; [|now apply Hgeo].
    assert (Hin : DayView.event r ∈ timedEvents isDayInEventRange events currentDate).
    { rewrite <- Hperm. apply list_elem_of_In, in_map, list_elem_of_In, Hr. }
    unfold timedEvents in Hin. apply list_elem_of_In, filter_In in Hin as [_ Hn].
    now apply negb_true_iff in Hn.
Qed.

End DayViewMoreFacts.

(** ** Date strings and the drop on a day cell *)

Module DateStringFacts.
Import JSDate DateFns DateUtils Calendar.
Import CivilFacts DateStringDefs.
Local Open Scope Z_scope.

Lemma append_nil_l (t : string) : "" +:+ t = t.
Proof. reflexivity. Qed.

Lemma append_cons (c : Ascii.ascii) (s t : string) :
  String c s +:+ t = String c (s +:+ t).
Proof. reflexivity. Qed.

Lemma length_append (s t : string) :
  String.length (s +:+ t) = (String.length s + String.length t)%nat.
Proof.
  induction s as [|c s IH]; [reflexivity|].
  rewrite append_cons. simpl. now rewrite IH.
Qed.

Lemma append_inj_suffix (s1 s2 t1 t2 : string) :
  String.length t1 = String.length t2 ->
  s1 +:+ t1 = s2 +:+ t2 -> s1 = s2 /\ t1 = t2.
Proof.
  revert s2. induction s1 as [|c s1 IH]; intros [|c2 s2] Hlen H;
    rewrite ?append_nil_l, ?append_cons in H.
  - now split.
  - exfalso. rewrite H in Hlen. simpl in Hlen. rewrite length_append in Hlen. lia.
  - exfalso. rewrite <- H in Hlen. simpl in Hlen. rewrite length_append in Hlen. lia.
  - injection H as -> H. destruct (IH s2 Hlen H) as [-> ->]. now split.
Qed.

Lemma pad2_spec (a b : Z) :
  1 <= a <= 31 -> 1 <= b <= 31 ->
  String.length (pad2 a) = 2%nat /\ (pad2 a = pad2 b -> a = b).
Proof.
  intros Ha Hb.
  assert (Hin : forall k, 1 <= k <= 31 -> In k days31).
  { intros k Hk. unfold days31. apply in_map_iff. exists (Z.to_nat k).
    split; [lia|]. apply in_seq. lia. }
  assert (Hall : pad2_distinct = true) by (vm_compute; reflexivity).
  unfold pad2_distinct in Hall. rewrite forallb_forall in Hall.
  specialize (Hall a (Hin a Ha)). apply andb_true_iff in Hall as [Hl Hd].
  split; [now apply Nat.eqb_eq|].
  rewrite forallb_forall in Hd. specialize (Hd b (Hin b Hb)).
  intros E. rewrite E, String.eqb_refl in Hd. simpl in Hd. now apply Z.eqb_eq.
Qed.

Lemma formatDateString_civil (t : Date) :
  formatDateString t
  = let '(y, m, d) := civilFromDays (Day t) in
    pretty y +:+ ("-" +:+ (pad2 m +:+ ("-" +:+ pad2 d))).
Proof.
  unfold formatDateString, getFullYear, getMonth, getDate, pad2.
  destruct (civilFromDays (Day t)) as [[y m] d]. cbn [fst snd].
  replace (m - 1 + 1) with m by lia. reflexivity.
Qed.

(** Two dates have the same date string exactly when they lie on the same
    day. *)
Lemma formatDateString_inj (a b : Date) :
  formatDateString a = formatDateString b <-> Day a = Day b.
Proof.
  split.
  - rewrite !formatDateString_civil.
    pose proof (civilFromDays_range (Day a)) as Ra.
    pose proof (civilFromDays_range (Day b)) as Rb.
    pose proof (daysFromCivil_civilFromDays (Day a)) as Ea.
    pose proof (daysFromCivil_civilFromDays (Day b)) as Eb.
    destruct (civilFromDays (Day a)) as [[ya ma] da].
    destruct (civilFromDays (Day b)) as [[yb mb] db].
    destruct Ra as [Rma Rda], Rb as [Rmb Rdb].
    destruct (pad2_spec ma mb ltac:(lia) ltac:(lia)) as [Lma Ima].
    destruct (pad2_spec mb ma ltac:(lia) ltac:(lia)) as [Lmb _].
    destruct (pad2_spec da db Rda Rdb) as [Lda Ida].
    destruct (pad2_spec db da Rdb Rda) as [Ldb _].
    intros H.
    apply append_inj_suffix in H as [Hy H].
    2:{ repeat (rewrite ?length_append, ?append_cons, ?append_nil_l; simpl). lia. }
    rewrite ?append_cons, ?append_nil_l in H. injection H as H.
    apply append_inj_suffix in H as [Hm H].
    2:{ repeat (rewrite ?length_append, ?append_cons, ?append_nil_l; simpl). lia. }
    rewrite ?append_cons, ?append_nil_l in H. injection H as H.
    apply (inj pretty) in Hy. apply Ima in Hm. apply Ida in H.
    subst. congruence.
  - intros H. unfold formatDateString, getFullYear, getMonth, getDate.
    now rewrite H.
Qed.

(** X19: dropping an event on the cell of a day writes the date string of that
    day to the date property when the event begins on another day, and
    nothing when it begins on that day, whatever the times of day. *)
Theorem drop_on_a_day_cell_moves_the_event (events : list CalendarEvent)
  (dateProperty activeId : string) (cellDate : Date) :
  UseEventDrag.handleDragEnd events dateProperty activeId
                             (Some (formatDateString cellDate))
  = match find (fun e => String.eqb (id e) activeId) events with
    | Some e =>
        if isSameDay (date e) cellDate then []
        else [mkWrite (file e) dateProperty (formatDateString cellDate)]
    | None => []
    end.
Proof.
  unfold UseEventDrag.handleDragEnd.
  destruct (find _ events) as [e|]; [|reflexivity].
  unfold isSameDay.
  destruct (String.eqb_spec (formatDateString (date e)) (formatDateString cellDate))
    as [E|E].
  - apply formatDateString_inj in E. rewrite E, Z.eqb_refl. reflexivity.
  - destruct (Z.eqb_spec (Day (date e)) (Day cellDate)) as [D|D]; [|reflexivity].
    exfalso. apply E. now apply formatDateString_inj.
Qed.

End DateStringFacts.

(** ** Calendar events: click after a gesture, phantom in the week grid *)

Module CalendarMoreFacts.
Import JS JSFacts JSDate DateFns Calendar CalendarEventParts.
Import CalendarMoreDefs.

Lemma ltb_iff_Qlt (x y : Q) : ltb x y = true <-> (x < y)%Q.
Proof.
  split; [apply ltb_lt|]. intros H. destruct (ltb x y) eqn:E; [reflexivity|].
  apply ltb_ge in E. lra.
Qed.

(** The movement flag of a calendar drag after its moves. *)
Lemma drag_flag_after_moves (s : UseMultiDayEventDrag.Session) (xs : list Q)
  (h : UseMultiDayEventDrag.Hook) (ds : UseMultiDayEventDrag.DragStart) :
  UseMultiDayEventDrag.dragStartRef h = Some ds ->
  UseMultiDayEventDrag.dragStartRef (fst (UseMultiDayEventDrag.moves s xs h)) = Some ds
  /\ (UseMultiDayEventDrag.hadMovementRef (fst (UseMultiDayEventDrag.moves s xs h)) = true
      <-> UseMultiDayEventDrag.hadMovementRef h = true
          \/ movedBeyondX 5 (UseMultiDayEventDrag.x ds) xs).
Proof.
  intros Hds. induction xs as [|x1 xs IH] using rev_ind.
  - cbn. split; [exact Hds|]. split; [now left|].
    intros [H|(x & Hx & _)]; [exact H|]. now apply elem_of_nil in Hx.
  - destruct IH as [IH1 IH2].
    unfold UseMultiDayEventDrag.moves in *. rewrite foldl_app. cbn [foldl].
    destruct (foldl _ (h, s) xs) as [h1 s1]. cbn [fst snd] in *.
    unfold UseMultiDayEventDrag.handleMouseMove. rewrite IH1. cbn [fst].
    cbn [UseMultiDayEventDrag.dragStartRef UseMultiDayEventDrag.hadMovementRef].
    split; [first [exact IH1|reflexivity]|].
    destruct (ltb 5 (Math_abs (x1 - UseMultiDayEventDrag.x ds))) eqn:E.
    + split; [|reflexivity]. intros _. right. exists x1.
      split; [apply elem_of_app; right; now apply list_elem_of_singleton|].
      now apply ltb_iff_Qlt.
    + rewrite IH2. split.
      * intros [H|(x & Hx & Hb)]; [now left|]. right. exists x.
        split; [apply elem_of_app; now left|exact Hb].
      * intros [H|(x & Hx & Hb)]; [now left|].
        apply elem_of_app in Hx as [Hx|Hx]; [right; now exists x|].
        apply list_elem_of_singleton in Hx as ->.
        apply ltb_iff_Qlt in Hb. unfold Math_abs in E. congruence.
Qed.

(** X20: the click that follows a drag of an event opens the note only if no
    position of the drag lay more than 5 pixels from its start and no
    resize has left its flag set; that click clears both flags, so the
    next click opens the note. *)
Theorem click_after_a_drag_is_suppressed (event : CalendarEvent)
  (dateProperty endDateProperty : string) (containerWidth : option Q)
  (x0 : Q) (xs : list Q) (h : UseMultiDayEventDrag.Hook)
  (resize : UseEventResize.Hook) :
  exists h1 s,
    UseMultiDayEventDrag.handleDragStart event containerWidth 0 x0 h = (h1, Some s)
    /\ let h2 := fst (UseMultiDayEventDrag.moves s xs h1) in
       let s2 := snd (UseMultiDayEventDrag.moves s xs h1) in
       let h3 := fst (UseMultiDayEventDrag.handleMouseUp
                        event dateProperty endDateProperty s2 h2) in
       let first := handleClick h3 resize in
       let second := handleClick (snd (fst first)) (snd first) in
       (fst (fst first) = true
        <-> ~ movedBeyondX 5 x0 xs /\ UseEventResize.hadMovementRef resize = false)
       /\ fst (fst second) = true.
Proof.
  unfold UseMultiDayEventDrag.handleDragStart.
  change (negb (0 =? 0)%Z) with false. cbv iota.
  eexists _, _. split; [reflexivity|]. cbv zeta.
  match goal with
  | |- context [UseMultiDayEventDrag.moves ?s0 xs ?h0] =>
      set (s1 := s0); set (h1 := h0)
  end.
  destruct (drag_flag_after_moves s1 xs h1 _ eq_refl) as [_ Hflag].
  cbn [UseMultiDayEventDrag.x UseMultiDayEventDrag.hadMovementRef h1] in Hflag.
  set (h2 := fst (UseMultiDayEventDrag.moves s1 xs h1)) in *.
  set (s2 := snd (UseMultiDayEventDrag.moves s1 xs h1)).
  assert (Hup : UseMultiDayEventDrag.hadMovementRef
                  (fst (UseMultiDayEventDrag.handleMouseUp
                          event dateProperty endDateProperty s2 h2))
                = UseMultiDayEventDrag.hadMovementRef h2).
  { unfold UseMultiDayEventDrag.handleMouseUp.
    destruct (UseMultiDayEventDrag.dragStartRef h2); [|reflexivity].
    destruct (negb (UseMultiDayEventDrag.currentDeltaDays s2 =? 0)%Z); reflexivity. }
  set (h3 := fst (UseMultiDayEventDrag.handleMouseUp
                    event dateProperty endDateProperty s2 h2)) in *.
  unfold handleClick, UseMultiDayEventDrag.consumeHadMovement,
    UseEventResize.consumeHadMovement.
  rewrite Hup.
  destruct (UseMultiDayEventDrag.hadMovementRef h2) eqn:E2;
    destruct (UseEventResize.hadMovementRef resize) eqn:Er;
    cbn [orb fst snd UseMultiDayEventDrag.hadMovementRef UseEventResize.hadMovementRef];
    (split; [|reflexivity]).
  - split; [discriminate|]. intros [_ H]. discriminate.
  - split; [discriminate|]. intros [Hn _]. exfalso. apply Hn.
    destruct (proj1 Hflag eq_refl) as [H|H]; [discriminate|exact H].
  - split; [discriminate|]. intros [_ H]. discriminate.
  - split; [|reflexivity]. intros _. split; [|reflexivity].
    intros Hm. assert (Hc : false = true) by (apply Hflag; now right).
    discriminate.
Qed.

(** X21: while an event is dragged or resized so that the columns it would
    occupy meet the week shown, its phantom spans exactly the part of those
    columns that lies within the week, in the row of the event. *)
Theorem phantom_is_clamped_to_the_week (isDragging : bool) (dragDelta : Z)
  (isResizing : bool) (resizeDelta : option (Handle * Z)) (startCol colSpan row : Z)
  (lo hi : Z) :
  projectedRange isDragging dragDelta isResizing resizeDelta startCol colSpan
  = Some (lo, hi) ->
  (0 <= startCol)%Z -> (lo <= hi)%Z -> (lo <= 6)%Z -> (0 <= hi)%Z ->
  exists p,
    phantomData isDragging dragDelta isResizing resizeDelta startCol colSpan row = Some p
    /\ gridColumnStart p = (Z.max 0 lo + 1)%Z
    /\ (gridColumnStart p + gridColumnSpan p - 1 = Z.min 6 hi + 1)%Z
    /\ (1 <= gridColumnStart p)%Z /\ (1 <= gridColumnSpan p)%Z
    /\ (gridColumnStart p + gridColumnSpan p - 1 <= 7)%Z
    /\ gridRow p = (row + 1)%Z
    /\ (extendsBefore p = true -> lo < 0)%Z
    /\ (extendsAfter p = true -> 6 < hi)%Z.
Proof.
  unfold projectedRange, phantomData. intros Hp Hs Hle Hlo Hhi.
  destruct isDragging.
  - injection Hp as <- <-. eexists. split; [reflexivity|].
    cbn [gridColumnStart gridColumnSpan gridRow extendsBefore extendsAfter].
    rewrite Z.ltb_lt, Z.ltb_lt. repeat split; lia.
  - destruct isResizing; [|discriminate].
    destruct resizeDelta as [[[|] days]|]; [| |discriminate].
    + injection Hp as <- <-. eexists. split; [reflexivity|].
      cbn [gridColumnStart gridColumnSpan gridRow extendsBefore extendsAfter].
      rewrite Z.ltb_lt. repeat split; try lia; try discriminate.
    + injection Hp as <- <-. eexists. split; [reflexivity|].
      cbn [gridColumnStart gridColumnSpan gridRow extendsBefore extendsAfter].
      rewrite Z.ltb_lt. repeat split; try lia; try discriminate.
Qed.

Lemma phantom_is_clamped_to_the_week_witness :
  exists p,
    phantomData true (-7) false None 5 4 2 = Some p
    /\ gridColumnStart p = (Z.max 0 (-2) + 1)%Z
    /\ (gridColumnStart p + gridColumnSpan p - 1 = Z.min 6 1 + 1)%Z
    /\ (1 <= gridColumnStart p)%Z /\ (1 <= gridColumnSpan p)%Z
    /\ (gridColumnStart p + gridColumnSpan p - 1 <= 7)%Z
    /\ gridRow p = (2 + 1)%Z
    /\ (extendsBefore p = true -> -2 < 0)%Z
    /\ (extendsAfter p = true -> 6 < 1)%Z.
Proof.
  apply (phantom_is_clamped_to_the_week true (-7) false None 5 4 2 (-2) 1);
    [reflexivity | lia | lia | lia | lia].
Defined.

(** *** Calendar resize, as one gesture *)

Lemma resize_moves_state (s : UseEventResize.Session) (xs : list Q)
  (h : UseEventResize.Hook) :
  let s2 := snd (UseEventResize.moves s xs h) in
  UseEventResize.handle s2 = UseEventResize.handle s
  /\ UseEventResize.startX s2 = UseEventResize.startX s
  /\ UseEventResize.originalStartDate s2 = UseEventResize.originalStartDate s
  /\ UseEventResize.originalEndDate s2 = UseEventResize.originalEndDate s
  /\ UseEventResize.dayWidth s2 = UseEventResize.dayWidth s
  /\ UseEventResize.currentDeltaDays s2
     = match last xs with
       | Some x1 => Math_round ((x1 - UseEventResize.startX s) / UseEventResize.dayWidth s)
       | None => UseEventResize.currentDeltaDays s
       end.
Proof.
  cbv zeta. induction xs as [|x1 xs IH] using rev_ind.
  - cbn. repeat split; reflexivity.
  - unfold UseEventResize.moves in *. rewrite foldl_app, last_snoc. cbn [foldl].
    destruct (foldl _ (h, s) xs) as [h1 s1]. cbn [fst snd] in *.
    destruct IH as (H1 & H2 & H3 & H4 & H5 & _).
    unfold UseEventResize.handleMouseMove. cbn [snd].
    cbn [UseEventResize.handle UseEventResize.startX UseEventResize.originalStartDate
         UseEventResize.originalEndDate UseEventResize.dayWidth
         UseEventResize.currentDeltaDays].
    rewrite H2, H5. repeat split; assumption.
Qed.

(** X22: a resize of a calendar event in a row of positive width writes at
    pointer-up only, and what the last move decides: nothing for a delta of
    zero days; otherwise only the property of the handle, with the date
    string of the bound moved by that many days, and only if the start
    stays at or before the end.  So the start of an event without an end
    date cannot be moved later, nor its end earlier. *)
Theorem event_resize_commits_the_last_preview (event : CalendarEvent)
  (dateProperty endDateProperty : string) (containerWidth : option Q)
  (x0 : Q) (hd : Handle) (xs : list Q) (x1 : Q) (h : UseEventResize.Hook) :
  (0 < getDayWidth containerWidth)%Q ->
  let delta := Math_round ((x1 - x0) / getDayWidth containerWidth) in
  let writes :=
    UseEventResizeGesture.gesture event dateProperty endDateProperty
                                  containerWidth x0 hd (xs ++ [x1]) h in
  writes
  = match hd with
    | HStart =>
        if negb (delta =? 0)%Z && (addDays (date event) delta <=? endOrStart event)%Z
        then [mkWrite (file event) dateProperty
                      (DateUtils.formatDateString (addDays (date event) delta))]
        else []
    | HEnd =>
        if negb (delta =? 0)%Z && (date event <=? addDays (endOrStart event) delta)%Z
        then [mkWrite (file event) endDateProperty
                      (DateUtils.formatDateString (addDays (endOrStart event) delta))]
        else []
    end
  /\ UseEventResizeGesture.gesture event dateProperty endDateProperty
                                   containerWidth x0 hd [] h = []
  /\ (endDate event = None ->
      match hd with
      | HStart => (0 < delta)%Z -> writes = []
      | HEnd => (delta < 0)%Z -> writes = []
      end).
Proof.
  intros _. cbv zeta.
  unfold UseEventResizeGesture.gesture, UseEventResize.handleResizeStart.
  match goal with
  | |- context [UseEventResize.moves ?s0 (xs ++ [x1]) ?h0] =>
      set (s1 := s0); set (h1 := h0)
  end.
  destruct (resize_moves_state s1 (xs ++ [x1]) h1) as (H1 & _ & H3 & H4 & _ & H6).
  rewrite last_snoc in H6.
  cbn [UseEventResize.handle UseEventResize.startX UseEventResize.originalStartDate
       UseEventResize.originalEndDate UseEventResize.dayWidth s1] in H1, H3, H4, H6.
  set (delta := Math_round ((x1 - x0) / getDayWidth containerWidth)) in *.
  assert (Hw : UseEventResize.handleMouseUp event dateProperty endDateProperty
                 (snd (UseEventResize.moves s1 (xs ++ [x1]) h1))
               = match hd with
                 | HStart =>
                     if negb (delta =? 0)%Z
                        && (addDays (date event) delta <=? endOrStart event)%Z
                     then [mkWrite (file event) dateProperty
                             (DateUtils.formatDateString (addDays (date event) delta))]
                     else []
                 | HEnd =>
                     if negb (delta =? 0)%Z
                        && (date event <=? addDays (endOrStart event) delta)%Z
                     then [mkWrite (file event) endDateProperty
                             (DateUtils.formatDateString
                                (addDays (endOrStart event) delta))]
                     else []
                 end).
  { unfold UseEventResize.handleMouseUp. rewrite H1, H3, H4, H6.
    destruct (delta =? 0)%Z; cbn [negb andb]; destruct hd; reflexivity. }
  split; [exact Hw|]. split; [reflexivity|].
  intros Hnone. rewrite Hw. unfold endOrStart. rewrite Hnone.
  destruct hd; intros Hd.
  - replace (addDays (date event) delta <=? date event)%Z with false.
    + now rewrite andb_false_r.
    + symmetry. apply Z.leb_gt. unfold addDays, msPerDay. lia.
  - replace (date event <=? addDays (date event) delta)%Z with false.
    + now rewrite andb_false_r.
    + symmetry. apply Z.leb_gt. unfold addDays, msPerDay. lia.
Qed.

Lemma event_resize_commits_the_last_preview_witness :
  UseEventResizeGesture.gesture
    (mkEvent "e5" "Sprint" (mk 2025 1 10 0 0) (Some (mk 2025 1 12 0 0)) "e5.md")
    "start" "end" (Some 700%Q) 100 HStart ([250%Q] ++ [-90%Q])
    (UseEventResize.mkHook false None None false)
  = [mkWrite "e5.md" "start" "2025-01-08"].
Proof.
  apply (event_resize_commits_the_last_preview
           (mkEvent "e5" "Sprint" (mk 2025 1 10 0 0) (Some (mk 2025 1 12 0 0)) "e5.md")
           "start" "end" (Some 700%Q) 100 HStart [250%Q] (-90)
           (UseEventResize.mkHook false None None false)).
  reflexivity.
Defined.

End CalendarMoreFacts.

(** ** Board: badge colours and property names *)

Module BoardMoreFacts.
Import ColorUtils BasesViews BoardMoreDefs.
Local Open Scope Z_scope.

Lemma ToInt32_mod (x : Z) : ToInt32 x mod 2 ^ 32 = x mod 2 ^ 32.
Proof. unfold ToInt32. change (2 ^ 31) with 2147483648. change (2 ^ 32) with 4294967296.
  Z.div_mod_to_equations. lia.
Qed.

Lemma lxor_mod (a b : Z) :
  Z.lxor a b mod 2 ^ 32 = Z.lxor (a mod 2 ^ 32) (b mod 2 ^ 32).
Proof.
  rewrite <- !Z.land_ones by lia.
  apply Z.bits_inj'. intros i Hi.
  rewrite !Z.land_spec, !Z.lxor_spec, !Z.land_spec.
  destruct (Z.testbit a i), (Z.testbit b i), (Z.testbit (Z.ones 32) i); reflexivity.
Qed.

Lemma mod_small_unit (c : Z) : 0 <= c < 65536 -> c mod 2 ^ 32 = c.
Proof. intros H. apply Z.mod_small. change (2 ^ 32) with 4294967296. lia. Qed.

(** One step of the hash, modulo [2 ^ 32]. *)
Lemma hash_step (h u c : Z) :
  h mod 2 ^ 32 = u mod 2 ^ 32 -> 0 <= c < 65536 ->
  xor (shl h 5 + h) c mod 2 ^ 32 = Z.lxor ((u * 33) mod 2 ^ 32) c.
Proof.
  intros Hhu Hc. unfold xor, shl.
  rewrite lxor_mod, !ToInt32_mod, (mod_small_unit c Hc). f_equal.
  rewrite Z.shiftl_mul_pow2 by lia. change (2 ^ 5) with 32.
  rewrite Z.add_mod, ToInt32_mod by (change (2 ^ 32) with 4294967296; lia).
  rewrite Z.mul_mod, ToInt32_mod by (change (2 ^ 32) with 4294967296; lia).
  rewrite Hhu.
  rewrite <- Z.mul_mod, <- Z.add_mod by (change (2 ^ 32) with 4294967296; lia).
  f_equal. lia.
Qed.

Lemma lxor_mod_range (a c : Z) :
  0 <= c < 65536 ->
  0 <= Z.lxor (a mod 2 ^ 32) c < 2 ^ 32.
Proof.
  intros Hc.
  assert (E : Z.lxor (a mod 2 ^ 32) c mod 2 ^ 32 = Z.lxor (a mod 2 ^ 32) c).
  { rewrite lxor_mod, Z.mod_mod, (mod_small_unit c Hc)
      by (change (2 ^ 32) with 4294967296; lia). reflexivity. }
  rewrite <- E. apply Z.mod_pos_bound. change (2 ^ 32) with 4294967296. lia.
Qed.

Lemma hash_fold (str : JSString) (h u : Z) :
  codeUnitsOnly str ->
  h mod 2 ^ 32 = u -> 0 <= u < 2 ^ 32 ->
  let u' := foldl (fun h c => Z.lxor ((h * 33) mod 2 ^ 32) c) u str in
  foldl (fun hash c => xor (shl hash 5 + hash) c) h str mod 2 ^ 32 = u'
  /\ 0 <= u' < 2 ^ 32.
Proof.
  cbv zeta. intros Hstr. revert h u.
  induction Hstr as [|c str Hc _ IH]; intros h u Hhu Hu; cbn [foldl].
  - now split.
  - apply IH.
    + apply hash_step; [|exact Hc]. rewrite Hhu. symmetry. now apply Z.mod_small.
    + now apply lxor_mod_range.
Qed.

(** X23: the hash of a string is the unsigned 32-bit number that the
    multiply-by-33-and-xor recurrence gives in unsigned arithmetic: the
    signed intermediate results of the shifts and exclusive-ors of
    JavaScript do not show in it. *)
Theorem hashString_is_unsigned_djb2 (str : JSString) :
  0 <= hashString str < 2 ^ 32
  /\ (codeUnitsOnly str -> hashString str = djb2xor str).
Proof.
  split.
  - unfold hashString, ToUint32. apply Z.mod_pos_bound.
    change (2 ^ 32) with 4294967296. lia.
  - intros Hstr. unfold hashString, ToUint32, djb2xor.
    apply (hash_fold str 5381 5381 Hstr); [reflexivity|].
    change (2 ^ 32) with 4294967296. lia.
Qed.

Lemma hashString_nonneg (value : JSString) : 0 <= hashString value.
Proof.
  unfold hashString, ToUint32.
  apply Z.mod_pos_bound. change (2 ^ 32) with 4294967296. lia.
Qed.

Lemma generateColorFromValue_total (value : JSString) :
  exists c, generateColorFromValue value = Some c /\ c ∈ NOTION_COLORS
    /\ NOTION_COLORS !! Z.to_nat (hashString value mod 12) = Some c.
Proof.
  unfold generateColorFromValue.
  pose proof (hashString_nonneg value) as H0.
  change (Z.of_nat (length NOTION_COLORS)) with 12.
  rewrite Z.rem_mod_nonneg by lia.
  pose proof (Z.mod_pos_bound (hashString value) 12 ltac:(lia)) as Hr.
  replace (hashString value mod 12 <? 0) with false
    by (symmetry; apply Z.ltb_ge; lia).
  destruct (NOTION_COLORS !! Z.to_nat (hashString value mod 12)) as [c|] eqn:E.
  - exists c. split; [reflexivity|]. split; [|reflexivity].
    now apply list_elem_of_lookup_2 in E.
  - exfalso. apply lookup_ge_None in E.
    change (length NOTION_COLORS) with 12%nat in E. lia.
Qed.

(** X24: every value gets badge colours, unless it names a member that an
    object inherits: the three predefined values get grey, any other value
    the entry of the palette that its hash selects; for an inherited name
    the function returns that member and no colours. *)
Theorem every_value_gets_badge_colours (value : JSString) :
  (value ∉ objectPrototypeKeys ->
   exists c, getColorForValue value = Colors c
     /\ (value ∈ map fst PREDEFINED_COLORS -> c = grey)
     /\ (value ∉ map fst PREDEFINED_COLORS ->
         NOTION_COLORS !! Z.to_nat (hashString value mod 12) = Some c))
  /\ (value ∈ objectPrototypeKeys -> getColorForValue value = InheritedMember value).
Proof.
  unfold getColorForValue. split.
  - intros Hn.
    destruct (List.find _ PREDEFINED_COLORS) as [kv|] eqn:Ef.
    + apply find_some in Ef as [Hin Hk].
      apply bool_decide_eq_true in Hk.
      exists (snd kv). split; [reflexivity|]. split.
      * intros _. simpl in Hin.
        destruct Hin as [<-|[<-|[<-|[]]]]; reflexivity.
      * intros Hnot. exfalso. apply Hnot. rewrite <- Hk.
        apply list_elem_of_In, in_map, Hin.
    + rewrite bool_decide_eq_false_2 by exact Hn.
      destruct (generateColorFromValue_total value) as (c & -> & _ & Hc).
      exists c. split; [reflexivity|]. split; [|intros _; exact Hc].
      intros Hin. exfalso.
      apply list_elem_of_In, in_map_iff in Hin as (kv & Hk & Hin).
      pose proof (find_none _ _ Ef kv Hin) as Hf. simpl in Hf.
      apply bool_decide_eq_false in Hf. contradiction.
  - intros Hin.
    destruct (List.find _ PREDEFINED_COLORS) as [kv|] eqn:Ef.
    + exfalso. apply find_some in Ef as [Hkv Hk].
      apply bool_decide_eq_true in Hk. subst value.
      simpl in Hkv. destruct Hkv as [<-|[<-|[<-|[]]]];
        vm_compute in Hin; repeat (apply elem_of_cons in Hin as [Hin|Hin];
                                   [discriminate|]); now apply elem_of_nil in Hin.
    + now rewrite bool_decide_eq_true_2 by exact Hin.
Qed.

(** *** Property names *)

Lemma splitDot_nonempty (s : string) : splitDot s <> [].
Proof.
  induction s as [|c s IH]; simpl; [discriminate|].
  destruct (Ascii.eqb c _); [discriminate|].
  destruct (splitDot s); discriminate.
Qed.

Lemma splitDot_noDot (s : string) : hasDot s = false -> splitDot s = [s].
Proof.
  induction s as [|c s IH]; simpl; [reflexivity|].
  destruct (Ascii.eqb c _); [discriminate|]. simpl.
  intros H. now rewrite (IH H).
Qed.

Lemma splitDot_prefix (ty rest : string) :
  hasDot ty = false ->
  splitDot (ty +:+ String (Ascii.ascii_of_nat 46) rest) = ty :: splitDot rest.
Proof.
  induction ty as [|c ty IH]; intros H.
  - reflexivity.
  - simpl in H. change (String c ty +:+ ?t) with (String c (ty +:+ t)).
    cbn [splitDot].
    destruct (Ascii.eqb c (Ascii.ascii_of_nat 46)); [discriminate|].
    simpl in H. now rewrite (IH H).
Qed.

Lemma joinDot_splitDot (s : string) : joinDot (splitDot s) = s.
Proof.
  unfold joinDot. induction s as [|c s IH]; [reflexivity|].
  cbn [splitDot].
  destruct (Ascii.eqb_spec c (Ascii.ascii_of_nat 46)) as [->|_].
  - pose proof (splitDot_nonempty s) as Hne.
    destruct (splitDot s) as [|p ps] eqn:E; [contradiction|].
    change (String.concat "." ("" :: p :: ps))
      with ("" +:+ "." +:+ String.concat "." (p :: ps)).
    now rewrite IH.
  - pose proof (splitDot_nonempty s) as Hne.
    destruct (splitDot s) as [|p ps] eqn:E; [contradiction|].
    destruct ps as [|q qs].
    + simpl in IH. simpl. now rewrite IH.
    + change (String.concat "." (String c p :: q :: qs))
        with (String c p +:+ "." +:+ String.concat "." (q :: qs)).
      change (String.concat "." (p :: q :: qs))
        with (p +:+ "." +:+ String.concat "." (q :: qs)) in IH.
      now rewrite <- IH.
Qed.

Lemma extractPropertyName_type_and_name :
  (forall ty name : string, hasDot ty = false ->
     extractPropertyName (Some (ty +:+ String (Ascii.ascii_of_nat 46) name)) = name)
  /\ (forall id : string, hasDot id = false -> extractPropertyName (Some id) = id).
Proof.
  split.
  - intros ty name Hty. unfold extractPropertyName.
    destruct (String.eqb_spec (ty +:+ String (Ascii.ascii_of_nat 46) name) "") as [E|_].
    { destruct ty; discriminate. }
    rewrite (splitDot_prefix ty name Hty).
    pose proof (splitDot_nonempty name) as Hne.
    destruct (splitDot name) as [|p ps] eqn:E; [contradiction|].
    cbn [length Nat.ltb Nat.leb drop]. rewrite <- E. apply joinDot_splitDot.
  - intros id Hid. unfold extractPropertyName.
    destruct (String.eqb_spec id "") as [->|_]; [reflexivity|].
    now rewrite (splitDot_noDot id Hid).
Qed.

(** X25: a property id of the form type, dot, name is reduced to the name,
    whatever dots the name contains; an id without a dot is kept, and
    what is not a string gives the empty string.  The options of the views
    therefore always name a property. *)
Theorem extractPropertyName_strips_the_type :
  (forall ty name : string, hasDot ty = false ->
     extractPropertyName (Some (ty +:+ String (Ascii.ascii_of_nat 46) name)) = name)
  /\ (forall id : string, hasDot id = false -> extractPropertyName (Some id) = id)
  /\ extractPropertyName None = ""%string
  /\ (forall a b, fst (boardOptions a b) <> ""%string)
  /\ (forall a b, fst (ganttOptions a b) <> ""%string
                  /\ snd (ganttOptions a b) <> ""%string).
Proof.
  split; [|split; [|split; [reflexivity|split]]].
  - apply extractPropertyName_type_and_name.
  - apply extractPropertyName_type_and_name.
  - intros a b. unfold boardOptions, orElse. cbn [fst].
    destruct (String.eqb_spec (extractPropertyName a) ""); [discriminate|assumption].
  - intros a b. unfold ganttOptions, orElse. cbn [fst snd].
    split.
    + destruct (String.eqb_spec (extractPropertyName a) ""); [discriminate|assumption].
    + destruct (String.eqb_spec (extractPropertyName b) ""); [discriminate|assumption].
Qed.

(** The ids that the views read, as the sources document them. *)
Example extractPropertyName_examples :
  extractPropertyName (Some "text.status"%string) = "status"%string
  /\ extractPropertyName (Some "note.a.b"%string) = "a.b"%string
  /\ extractPropertyName (Some "status"%string) = "status"%string
  /\ boardOptions (Some "text."%string) None = ("status", "")%string.
Proof. repeat split; vm_compute; reflexivity. Qed.

End BoardMoreFacts.

(** ** The options of the views *)

Module ViewOptionsFacts.
Import BasesViews.
Import BoardMoreDefs BoardMoreFacts DateStringFacts.
Local Open Scope Z_scope.

Lemma append_dot_longer (ty name : string) :
  name <> ty +:+ String (Ascii.ascii_of_nat 46) name.
Proof.
  intros E. apply (f_equal String.length) in E.
  rewrite length_append in E. simpl in E. lia.
Qed.

(** X26: the gantt view strips the type from a configured property id, the
    calendar view does not: for an id with a type the two views read
    different properties, for a non-empty id without a dot they read the
    same one. *)
Theorem calendar_keeps_the_type_of_a_property_id :
  (forall (ty name : string) (rawEnd : option string),
     hasDot ty = false -> name <> ""%string ->
     let id := ty +:+ String (Ascii.ascii_of_nat 46) name in
     fst (ganttOptions (Some id) rawEnd) = name
     /\ fst (calendarOptions (Some id) rawEnd) = id
     /\ fst (ganttOptions (Some id) rawEnd) <> fst (calendarOptions (Some id) rawEnd))
  /\ (forall (id : string) (rawEnd : option string),
        hasDot id = false -> id <> ""%string ->
        fst (ganttOptions (Some id) rawEnd) = id
        /\ fst (calendarOptions (Some id) rawEnd) = id)
  /\ (forall rawEnd,
        fst (ganttOptions None rawEnd) = "start"%string
        /\ fst (calendarOptions None rawEnd) = "start"%string).
Proof.
  split; [|split].
  - intros ty name rawEnd Hty Hname. cbv zeta.
    unfold ganttOptions, calendarOptions, orElse. cbn [fst].
    rewrite (proj1 extractPropertyName_type_and_name ty name Hty).
    destruct (String.eqb_spec name "") as [->|_]; [contradiction|].
    destruct (String.eqb_spec (ty +:+ String (Ascii.ascii_of_nat 46) name) "")
      as [E|_].
    { destruct ty; discriminate. }
    split; [reflexivity|]. split; [reflexivity|]. apply append_dot_longer.
  - intros id rawEnd Hid Hne.
    unfold ganttOptions, calendarOptions, orElse. cbn [fst].
    rewrite (proj2 extractPropertyName_type_and_name id Hid).
    destruct (String.eqb_spec id "") as [->|_]; [contradiction|]. now split.
  - intros rawEnd. split; reflexivity.
Qed.

End ViewOptionsFacts.


Module LayoutTimeFacts.
Import JS JSFacts JSDate DateFns Calendar DayView.
Import LayoutDefs LayoutFacts LayoutMoreDefs LayoutMoreFacts LayoutTimeDefs.

(** *** Time ranges and grid extents *)

Lemma inject_Z_sub (x y : Z) : (inject_Z (x - y) == inject_Z x - inject_Z y)%Q.
Proof.
  unfold Zminus. rewrite inject_Z_plus, inject_Z_opp. reflexivity.
Qed.

(** An event of the day in whole minutes starts at minute [s] and ends at
    minute [f] of the day; its top is [s] and its height [f - s], or 20
    when it is shorter. *)
Lemma extent_in_minutes (d : Date) (ev : CalendarEvent) :
  onDayInMinutes d ev ->
  exists (e : Date) (s f : Z),
    endDate ev = Some e
    /\ date ev = (Day d * msPerDay + s * msPerMinute)%Z
    /\ e = (Day d * msPerDay + f * msPerMinute)%Z
    /\ (fst (getEventPosition ev d) == inject_Z s)%Q
    /\ (snd (getEventPosition ev d) == Qmax (inject_Z (f - s)) 20)%Q.
Proof.
  intros (e & He & Hd1 & Hd2 & Hm1 & Hm2).
  exists e, (TimeWithinDay (date ev) / msPerMinute)%Z, (TimeWithinDay e / msPerMinute)%Z.
  assert (E1 : date ev = (Day d * msPerDay
                          + TimeWithinDay (date ev) / msPerMinute * msPerMinute)%Z).
  { rewrite <- Hd1. revert Hm1. unfold Day, TimeWithinDay, msPerDay, msPerMinute.
    intros Hm1. Z.div_mod_to_equations. lia. }
  assert (E2 : e = (Day d * msPerDay
                    + TimeWithinDay e / msPerMinute * msPerMinute)%Z).
  { rewrite <- Hd2. revert Hm2. unfold Day, TimeWithinDay, msPerDay, msPerMinute.
    intros Hm2. Z.div_mod_to_equations. lia. }
  split; [exact He|]. split; [exact E1|]. split; [exact E2|].
  assert (Hsame : isSameDay (date ev) e = true).
  { unfold isSameDay. apply Z.eqb_eq. congruence. }
  destruct (getEventPosition_same_day ev d e He Hsame) as [Ht Hh].
  split.
  - rewrite Ht. unfold getHours, getMinutes.
    rewrite DayViewMoreFacts.minute_of_day. reflexivity.
  - rewrite Hh.
    assert (E : differenceInMinutes e (date ev)
                = (TimeWithinDay e / msPerMinute
                   - TimeWithinDay (date ev) / msPerMinute)%Z).
    { unfold differenceInMinutes.
      set (s := (TimeWithinDay (date ev) / msPerMinute)%Z) in *.
      set (f := (TimeWithinDay e / msPerMinute)%Z) in *.
      replace (e - date ev)%Z with ((f - s) * msPerMinute)%Z by lia.
      apply Z.quot_mul. unfold msPerMinute. lia. }
    rewrite E. reflexivity.
Qed.

(** An event on whole hours is an event in whole minutes. *)
Lemma onDayInHours_minutes (d : Date) (ev : CalendarEvent) :
  onDayInHours d ev -> onDayInMinutes d ev.
Proof.
  intros (e & He & Hd1 & Hd2 & Hm1 & Hm2). exists e.
  split; [exact He|]. split; [exact Hd1|]. split; [exact Hd2|].
  revert Hm1 Hm2. unfold msPerHour, msPerMinute. intros Hm1 Hm2.
  split; Z.div_mod_to_equations; lia.
Qed.

(** The elements of the layout of a list of events carry events of the
    list, at the positions [getEventPosition] gives. *)
Lemma layout_element (events : list CalendarEvent) (d : Date)
  (layout : list EventWithLayout) (r : EventWithLayout) :
  map toPos layout = sortByTop (positioned events d) ->
  r ∈ layout ->
  event r ∈ events
  /\ top r = fst (getEventPosition (event r) d)
  /\ height r = snd (getEventPosition (event r) d).
Proof.
  intros Hpos Hr.
  destruct (layout_events events d layout Hpos) as [Hperm Hgeo].
  split.
  - rewrite <- Hperm. exact (list_elem_of_fmap_2 event _ _ Hr).
  - specialize (Hgeo r Hr). rewrite <- Hgeo. split; reflexivity.
Qed.

(** Events in whole minutes whose time ranges intersect overlap in the
    grid. *)
Lemma timesIntersect_overlap (d : Date) (a b : EventWithLayout) :
  onDayInMinutes d (event a) -> onDayInMinutes d (event b) ->
  top a = fst (getEventPosition (event a) d) ->
  height a = snd (getEventPosition (event a) d) ->
  top b = fst (getEventPosition (event b) d) ->
  height b = snd (getEventPosition (event b) d) ->
  timesIntersect (event a) (event b) ->
  overlap a b = true.
Proof.
  intros Ha Hb Hta Hha Htb Hhb [H1 H2].
  destruct (extent_in_minutes d _ Ha) as (ea & sa & fa & Hea & Hda & Hfa & Ta & Ha').
  destruct (extent_in_minutes d _ Hb) as (eb & sb & fb & Heb & Hdb & Hfb & Tb & Hb').
  unfold endOrStart in H1, H2. rewrite Heb in H1. rewrite Hea in H2.
  assert (L1 : (sa < fb)%Z) by (unfold msPerMinute in *; lia).
  assert (L2 : (sb < fa)%Z) by (unfold msPerMinute in *; lia).
  rewrite <- Hta in Ta. rewrite <- Hha in Ha'.
  rewrite <- Htb in Tb. rewrite <- Hhb in Hb'.
  pose proof (Q.le_max_l (inject_Z (fa - sa)) 20) as Ma.
  pose proof (Q.le_max_l (inject_Z (fb - sb)) 20) as Mb.
  rewrite Zlt_Qlt in L1, L2.
  pose proof (inject_Z_sub fa sa) as Ia.
  pose proof (inject_Z_sub fb sb) as Ib.
  unfold overlap, eventsOverlap. apply andb_true_iff. rewrite !ltb_lt.
  split; lra.
Qed.

(** An event in whole minutes shorter than 20 minutes still overlaps, in
    the grid, the event that begins where it ends. *)
Lemma short_touching_overlap (d : Date) (a b : EventWithLayout) :
  onDayInMinutes d (event a) -> onDayInMinutes d (event b) ->
  top a = fst (getEventPosition (event a) d) ->
  height a = snd (getEventPosition (event a) d) ->
  top b = fst (getEventPosition (event b) d) ->
  height b = snd (getEventPosition (event b) d) ->
  touches (event a) (event b) ->
  (date (event a) <= date (event b))%Z ->
  (differenceInMinutes (date (event b)) (date (event a)) < 20)%Z ->
  overlap a b = true.
Proof.
  intros Ha Hb Hta Hha Htb Hhb Htouch Hle Hshort.
  destruct (extent_in_minutes d _ Ha) as (ea & sa & fa & Hea & Hda & Hfa & Ta & Ha').
  destruct (extent_in_minutes d _ Hb) as (eb & sb & fb & Heb & Hdb & Hfb & Tb & Hb').
  unfold touches in Htouch. rewrite Hea in Htouch. injection Htouch as Htouch.
  assert (D : differenceInMinutes (date (event b)) (date (event a)) = (sb - sa)%Z).
  { unfold differenceInMinutes.
    replace (date (event b) - date (event a))%Z with ((sb - sa) * msPerMinute)%Z by lia.
    apply Z.quot_mul. unfold msPerMinute. lia. }
  rewrite D in Hshort.
  assert (L1 : (sa <= sb)%Z) by (unfold msPerMinute in *; lia).
  assert (L2 : (sb < sa + 20)%Z) by lia.
  rewrite <- Hta in Ta. rewrite <- Hha in Ha'.
  rewrite <- Htb in Tb. rewrite <- Hhb in Hb'.
  pose proof (Q.le_max_r (inject_Z (fa - sa)) 20) as Ma.
  pose proof (Q.le_max_r (inject_Z (fb - sb)) 20) as Mb.
  rewrite Zle_Qle in L1. rewrite Zlt_Qlt, inject_Z_plus in L2.
  change (inject_Z 20) with 20%Q in L2.
  unfold overlap, eventsOverlap. apply andb_true_iff. rewrite !ltb_lt.
  split; lra.
Qed.

(** Two events on whole hours of which the first, not empty, ends where
    the second begins: the extent of the first ends at the top of the
    second. *)
Lemma hours_touching_extents (d : Date) (a b : EventWithLayout) :
  onDayInHours d (event a) -> onDayInHours d (event b) ->
  top a = fst (getEventPosition (event a) d) ->
  height a = snd (getEventPosition (event a) d) ->
  top b = fst (getEventPosition (event b) d) ->
  touches (event a) (event b) ->
  (date (event a) < date (event b))%Z ->
  (top a + height a == top b)%Q.
Proof.
  intros Ha Hb Hta Hha Htb Htouch Hlt.
  destruct (extent_in_minutes d _ (onDayInHours_minutes d _ Ha))
    as (ea & sa & fa & Hea & Hda & Hfa & Ta & Ha').
  destruct (extent_in_minutes d _ (onDayInHours_minutes d _ Hb))
    as (eb & sb & fb & Heb & Hdb & Hfb & Tb & _).
  destruct Ha as (ea' & Hea' & Hd1 & Hd2 & Hm1 & Hm2).
  rewrite Hea in Hea'. injection Hea' as <-.
  unfold touches in Htouch. rewrite Hea in Htouch. injection Htouch as Htouch.
  assert (L : (sa + 60 <= fa)%Z).
  { rewrite <- Htouch in Hlt. clear - Hda Hfa Hd1 Hd2 Hm1 Hm2 Hlt.
    revert Hda Hfa Hd1 Hd2 Hm1 Hm2 Hlt.
    generalize (date (event a)). intros t Hda Hfa Hd1 Hd2 Hm1 Hm2 Hlt.
    unfold Day, TimeWithinDay, msPerDay, msPerHour, msPerMinute in *.
    Z.div_mod_to_equations. lia. }
  assert (E : (fa = sb)%Z) by (unfold msPerMinute in *; lia).
  rewrite <- Hta in Ta. rewrite <- Hha in Ha'. rewrite <- Htb in Tb.
  rewrite Ta, Ha', Tb, <- E.
  rewrite Q.max_l.
  - rewrite inject_Z_sub. ring.
  - change 20%Q with (inject_Z 20). rewrite <- Zle_Qle. lia.
Qed.

(** *** The columns of events by their times *)

(** On 2025-01-15: "a" and "b" share half an hour and get two columns; "a"
    ends at 10:00 where "c" begins, both on whole hours, and "c" takes the
    column of "a". *)
Example intersecting_and_touching_hours :
  let d := mk 2025 1 15 0 0 in
  let a := timed "a" 9 0 10 0 in
  let b := timed "b" 9 30 11 0 in
  let c := timed "c" 10 0 11 0 in
  (forall ev, ev ∈ [a; b; c] -> onDayInMinutes d ev)
  /\ timesIntersect a b
  /\ onDayInHours d a /\ onDayInHours d c
  /\ touches a c /\ (date a < date c)%Z
  /\ columnsOf (calculateEventLayout [a; b; c] d)
     = Some [("a"%string, 0%nat, 2%nat); ("b"%string, 1%nat, 2%nat);
             ("c"%string, 0%nat, 2%nat)].
Proof.
  cbv zeta.
  assert (Ha : onDayIn msPerHour (mk 2025 1 15 0 0) (timed "a" 9 0 10 0)).
  { exists (mk 2025 1 15 10 0). vm_compute. auto. }
  assert (Hb : onDayInMinutes (mk 2025 1 15 0 0) (timed "b" 9 30 11 0)).
  { exists (mk 2025 1 15 11 0). vm_compute. auto. }
  assert (Hc : onDayIn msPerHour (mk 2025 1 15 0 0) (timed "c" 10 0 11 0)).
  { exists (mk 2025 1 15 11 0). vm_compute. auto. }
  split.
  { intros ev Hev. rewrite !elem_of_cons in Hev.
    destruct Hev as [->|[->|[->|Hev]]];
      [apply onDayInHours_minutes, Ha|exact Hb|apply onDayInHours_minutes, Hc|].
    now apply elem_of_nil in Hev. }
  split; [vm_compute; auto|].
  split; [exact Ha|]. split; [exact Hc|].
  split; [vm_compute; reflexivity|].
  split; vm_compute; reflexivity.
Qed.



End LayoutTimeFacts.
